(** * neoiq-node-foundation: request observability and the resilient HTTP client

    A shallow embedding of the packaged TypeScript sources
    ([observability-index.ts], [observability-plugin.ts], [http-client.ts])
    and of the contracts of the libraries they drive (AsyncLocalStorage,
    the OpenTelemetry API, pino, axios, axios-retry, opossum, Fastify's hook
    runner).  Everything observable that the code does to a collaborator is
    an [Event]; a computation is a function of the process state ([World])
    that returns a JavaScript completion, the new state and the events it
    produced, in order. *)

From Stdlib Require Import ZArith Lia List Bool.
From stdpp Require Import base strings gmap list pretty.
Import ListNotations.

Local Open Scope Z_scope.

(* ===================================================================== *)
(** ** JavaScript values, truthiness and completions                      *)
(* ===================================================================== *)

Module Js.

(** The values that reach log records, metric labels and span attributes. *)
Inductive value :=
| undefined
| str (s : string)
| num (n : Z).

(** What a [throw] or a rejected promise carries.  [AxiosError status] is
    axios' error for one failed attempt: [status] is [error.response?.status],
    absent when no response was received (network failure, timeout).
    [OpenBreakerError] is opossum's rejection (code EOPENBREAKER). *)
Inductive error :=
| TypeError (msg : string)
| AxiosError (status : option Z)
| OpenBreakerError
| HandlerError (msg : string).

Inductive completion (A : Type) :=
| Normal (a : A)
| Throw (e : error).
Arguments Normal {A} a.
Arguments Throw {A} e.

(** Truthiness of a possibly-undefined string: [undefined] and [""] are
    falsy. *)
Definition truthy (s : option string) : bool :=
  match s with
  | Some (String _ _) => true
  | _ => false
  end.

(** [a || b] on possibly-undefined strings, [b] evaluated lazily by the
    caller. *)
Definition or_else (a : option string) (b : string) : string :=
  match a with
  | Some (String c s) => String c s
  | _ => b
  end.

(** [a ?? b]: only [undefined] (or [null]) is replaced. *)
Definition nullish {A} (a : option A) (b : A) : A :=
  match a with
  | Some x => x
  | None => b
  end.

Definition of_opt_str (s : option string) : value :=
  match s with
  | Some x => str x
  | None => undefined
  end.

(** [String(n)] for an integer. *)
Definition String_ (n : Z) : string := pretty n.

(** [s.toUpperCase()] on ASCII text. *)
Definition upper (c : Ascii.ascii) : Ascii.ascii :=
  let n := Ascii.nat_of_ascii c in
  if ((97 <=? n)%nat && (n <=? 122)%nat)%bool then Ascii.ascii_of_nat (n - 32) else c.

Fixpoint toUpperCase (s : string) : string :=
  match s with
  | EmptyString => EmptyString
  | String c s' => String (upper c) (toUpperCase s')
  end.

(** [s.toLowerCase()] on ASCII text. *)
Definition lower (c : Ascii.ascii) : Ascii.ascii :=
  let n := Ascii.nat_of_ascii c in
  if ((65 <=? n)%nat && (n <=? 90)%nat)%bool then Ascii.ascii_of_nat (n + 32) else c.

Fixpoint toLowerCase (s : string) : string :=
  match s with
  | EmptyString => EmptyString
  | String c s' => String (lower c) (toLowerCase s')
  end.

(** [error.message] of the errors above. *)
Definition message (e : error) : string :=
  match e with
  | TypeError m => m
  | AxiosError (Some status) => "Request failed with status code " +:+ pretty status
  | AxiosError None => "Network Error"
  | OpenBreakerError => "Breaker is open"
  | HandlerError m => m
  end.

End Js.

(* ===================================================================== *)
(** ** The OpenTelemetry API as the code uses it                          *)
(* ===================================================================== *)

Module Otel.

Record SpanContext := mkSpanContext {
  traceId : string;
  spanId : string;
  traceFlags : string;
  traceState : option string;
}.

Inductive SpanStatusCode := UNSET | OK | ERROR.

(** A span handle; the span's mutable part lives in the events sent to
    the trace backend. *)
Record Span := mkSpan {
  spanContext : SpanContext;
}.

(** The span context of a context that holds no span, and of the span
    the API's no-op tracer returns: all-zero ids, flags 00. *)
Definition INVALID_SPAN_CONTEXT : SpanContext :=
  mkSpanContext "00000000000000000000000000000000" "0000000000000000" "00" None.

(** [[\da-f]], and the same with the [i] flag. *)
Definition is_hex (c : Ascii.ascii) : bool :=
  let n := Ascii.nat_of_ascii c in
  ((48 <=? n)%nat && (n <=? 57)%nat) || ((97 <=? n)%nat && (n <=? 102)%nat).

Definition is_hex_i (c : Ascii.ascii) : bool :=
  let n := Ascii.nat_of_ascii c in
  is_hex c || ((65 <=? n)%nat && (n <=? 70)%nat).

Fixpoint all_hex (s : string) : bool :=
  match s with
  | EmptyString => true
  | String c s' => is_hex c && all_hex s'
  end.

Fixpoint all_hex_i (s : string) : bool :=
  match s with
  | EmptyString => true
  | String c s' => is_hex_i c && all_hex_i s'
  end.

Fixpoint all_zero (s : string) : bool :=
  match s with
  | EmptyString => true
  | String c s' => (Ascii.nat_of_ascii c =? 48)%nat && all_zero s'
  end.

(** [isSpanContextValid]: the trace id matches [/^([0-9a-f]{32})$/i] and is
    not all zeros, the span id the same with 16 digits. *)
Definition isValidTraceId (s : string) : bool :=
  (String.length s =? 32)%nat && all_hex_i s && negb (all_zero s).

Definition isValidSpanId (s : string) : bool :=
  (String.length s =? 16)%nat && all_hex_i s && negb (all_zero s).

Definition isSpanContextValid (sc : SpanContext) : bool :=
  isValidTraceId (traceId sc) && isValidSpanId (spanId sc).

(** [\s] and the line terminators, which [.] does not match. *)
Definition is_space (c : Ascii.ascii) : bool :=
  let n := Ascii.nat_of_ascii c in
  ((9 <=? n)%nat && (n <=? 13)%nat) || (n =? 32)%nat || (n =? 160)%nat.

Definition is_line_terminator (c : Ascii.ascii) : bool :=
  let n := Ascii.nat_of_ascii c in
  (n =? 10)%nat || (n =? 13)%nat.

(** [x] is any run of characters other than line terminators, then at
    most one white-space character, then the end. *)
Fixpoint any_then_space (x : string) : bool :=
  match x with
  | EmptyString => true
  | String c x' =>
      if is_line_terminator c then String.eqb x' "" else any_then_space x'
  end.

(** The W3C propagator's [parseTraceParent].  Its pattern is, between
    [^] and [$]: at most one white-space character; a version of two
    lower-case hex digits other than ff; a trace id of 32, not all zero; a
    span id of 16, not all zero; flags of two; each followed by a dash but
    the flags; then optionally a dash and any further text; then at most one
    white-space character.  A header of version 00 with further text is
    refused. *)
Definition skip_space (s : string) : string :=
  match s with
  | String c s' => if is_space c then s' else s
  | EmptyString => s
  end.

Definition parseTraceParent (s : string) : option (string * string * string) :=
  let s := skip_space s in
  let version := String.substring 0 2 s in
  let tid := String.substring 3 32 s in
  let sid := String.substring 36 16 s in
  let flags := String.substring 53 2 s in
  let rest := String.substring 55 (String.length s - 55) s in
  if (55 <=? String.length s)%nat
     && all_hex version && negb (String.eqb version "ff")
     && String.eqb (String.substring 2 1 s) "-"
     && String.eqb (String.substring 35 1 s) "-"
     && String.eqb (String.substring 52 1 s) "-"
     && all_hex tid && negb (all_zero tid)
     && all_hex sid && negb (all_zero sid)
     && all_hex flags
     && match rest with
        | EmptyString => true
        | String c rest' =>
            if String.eqb rest' "" && is_space c then true
            else (Ascii.nat_of_ascii c =? 45)%nat && any_then_space rest'
                 && negb (String.eqb version "00")
        end
  then Some (tid, sid, flags)
  else None.

Definition formatTraceParent (sc : SpanContext) : string :=
  "00-" +:+ traceId sc +:+ "-" +:+ spanId sc +:+ "-" +:+ traceFlags sc.


(** [propagation.extract(context.active(), headers)] followed by the read
    of the span context that [startSpan] performs on its parent context.
    The global propagator is the W3C one once the SDK has registered it
    ([registered], which [sdk.start()] in [init] does), and the API's no-op
    propagator before: then the context comes back as it went in.  With the
    W3C propagator a [traceparent] that parses replaces the span context of
    the active context, anything else leaves the active context as it is. *)
Definition extract (registered : bool) (active : option SpanContext)
           (headers : gmap string string) : option SpanContext :=
  if registered then
    match headers !! "traceparent" with
    | Some tp =>
        match parseTraceParent tp with
        | Some (tid, sid, flags) =>
            Some (mkSpanContext tid sid flags
                    (if Js.truthy (headers !! "tracestate")
                     then headers !! "tracestate" else None))
        | None => active
        end
    | None => active
    end
  else active.

(** [propagation.inject(ctx, carrier)] into an empty carrier: nothing
    without a registered propagator, nothing for a context without a valid
    span context. *)
Definition inject (registered : bool) (active : option SpanContext) : gmap string string :=
  if registered then
    match active with
    | Some sc =>
        if isSpanContextValid sc then
          let c : gmap string string := {[ "traceparent" := formatTraceParent sc ]} in
          match traceState sc with
          | Some ts => <[ "tracestate" := ts ]> c
          | None => c
          end
        else ∅
    | None => ∅
    end
  else ∅.

End Otel.

(* ===================================================================== *)
(** ** opossum's circuit breaker (state and options)                      *)
(* ===================================================================== *)

Module Opossum.

Inductive State := closed | open | halfOpen.

Record Options := mkOptions {
  timeout : Z;
  resetTimeout : Z;
  errorThresholdPercentage : Z;
  volumeThreshold : Z;
}.

(** One breaker object: its options, its state, the statistics of its
    window ([fires], [failures]) and the time it last opened. *)
Record CircuitBreaker := mkBreaker {
  options : Options;
  state : State;
  fires : Z;
  failures : Z;
  openedAt : Z;
}.

(** [new CircuitBreaker(action, options)]: closed, nothing counted. *)
Definition new (o : Options) : CircuitBreaker := mkBreaker o closed 0 0 0.

(** The state a breaker is in at time [now]: an open breaker becomes
    half-open once [resetTimeout] has elapsed. *)
Definition stateAt (now : Z) (b : CircuitBreaker) : State :=
  match state b with
  | open => if openedAt b + resetTimeout (options b) <=? now then halfOpen else open
  | s => s
  end.

(** Statistics after a failed action: the breaker opens when it was
    half-open, or when at least [volumeThreshold] calls were fired and the
    error rate exceeds [errorThresholdPercentage]. *)
Definition fail (now : Z) (wasHalfOpen : bool) (b : CircuitBreaker) : CircuitBreaker :=
  let f := failures b + 1 in
  let trip :=
    wasHalfOpen
    || (negb (fires b <? volumeThreshold (options b))
        && (errorThresholdPercentage (options b) * fires b <? f * 100)) in
  if trip
  then mkBreaker (options b) open (fires b) f now
  else mkBreaker (options b) (state b) (fires b) f (openedAt b).

(** Statistics after a successful action: a half-open probe closes the
    breaker and resets the window. *)
Definition succeed (wasHalfOpen : bool) (b : CircuitBreaker) : CircuitBreaker :=
  if wasHalfOpen
  then mkBreaker (options b) closed 0 0 (openedAt b)
  else b.

Definition fired (s : State) (b : CircuitBreaker) : CircuitBreaker :=
  mkBreaker (options b) s (fires b + 1) (failures b) (openedAt b).

End Opossum.

(* ===================================================================== *)
(** ** Process state, events and the computation monad                    *)
(* ===================================================================== *)

(** [RequestContext] of observability-index.ts, the type of the
    AsyncLocalStorage store [als]. *)
Module Index.
Record RequestContext := mkRequestContext {
  correlationId : option string;
  traceId : option string;
  spanId : option string;
}.
End Index.

Module Level.
Inductive t := debug | info | warn | error.

Definition name (l : t) : string :=
  match l with
  | debug => "debug"
  | info => "info"
  | warn => "warn"
  | error => "error"
  end.
End Level.

(** The pino instance that [init] creates, with the level it was given. *)
Record Pino := mkPino {
  level : string;
}.

Definition Fields := list (string * Js.value).

(** What one network attempt of axios comes back with. *)
Inductive Outcome :=
| Response (status : Z)
| NoResponse.

(** Everything the code hands to a collaborator, in program order. *)
Inductive Event :=
| ELog (l : Level.t) (obj : Fields) (msg : string)
| EConsole (msg : string)
| ECounterAdd (name : string) (n : Z) (labels : Fields)
| EHistogramRecord (name : string) (v : Z) (labels : Fields)
| ESpanStart (name : string) (sc : Otel.SpanContext) (parent : option Otel.SpanContext)
             (attributes : Fields)
| ESpanSetStatus (span : string) (code : Otel.SpanStatusCode) (message : option string)
| ESpanSetAttribute (span : string) (key : string) (v : Js.value)
| ESpanRecordException (span : string) (message : string)
| ESpanEnd (span : string)
| ENetwork (method : option string) (url : string) (headers : gmap string string)
| ESleep (ms : Z).

Record World := mkWorld {
  clock : Z;                               (* Date.now() *)
  alsStore : option Index.RequestContext;       (* als.getStore() *)
  otelActive : option Otel.SpanContext;    (* span context of context.active() *)
  baseLogger : option Pino;                (* let baseLogger *)
  initialized : bool;                      (* let initialized = false *)
  ids : nat -> string;                     (* id generator of the platform *)
  nextId : nat;
  target : nat -> Outcome;                 (* the downstream target, per attempt *)
  latency : Z;                             (* time one attempt takes *)
  sent : nat;                              (* network attempts made so far *)
  breakers : list Opossum.CircuitBreaker;  (* breaker objects constructed *)
  env : gmap string string;                (* process.env *)
}.

Definition M (A : Type) : Type := World -> Js.completion A * World * list Event.

Definition ret {A} (a : A) : M A := fun w => (Js.Normal a, w, []).

Definition throw {A} (e : Js.error) : M A := fun w => (Js.Throw e, w, []).

Definition bind {A B} (m : M A) (k : A -> M B) : M B :=
  fun w =>
    match m w with
    | (Js.Normal a, w1, ev1) =>
        match k a w1 with
        | (r, w2, ev2) => (r, w2, ev1 ++ ev2)
        end
    | (Js.Throw e, w1, ev1) => (Js.Throw e, w1, ev1)
    end.

Notation "'do' x <- m ; k" := (bind m (fun x => k))
  (at level 10, x name, m at level 100, k at level 200).
Notation "'exec' m ; k" := (bind m (fun _ => k))
  (at level 10, m at level 100, k at level 200).

(** [promise.catch(h)] / the rejection branch of an interceptor pair. *)
Definition catch {A} (m : M A) (h : Js.error -> M A) : M A :=
  fun w =>
    match m w with
    | (Js.Normal a, w1, ev1) => (Js.Normal a, w1, ev1)
    | (Js.Throw e, w1, ev1) =>
        match h e w1 with
        | (r, w2, ev2) => (r, w2, ev1 ++ ev2)
        end
    end.

Definition emit (e : Event) : M unit := fun w => (Js.Normal tt, w, [e]).

Definition get : M World := fun w => (Js.Normal w, w, []).

Definition modify (f : World -> World) : M unit := fun w => (Js.Normal tt, f w, []).

Definition events {A} (r : Js.completion A * World * list Event) : list Event := snd r.
Definition world {A} (r : Js.completion A * World * list Event) : World := snd (fst r).
Definition result {A} (r : Js.completion A * World * list Event) : Js.completion A :=
  fst (fst r).

Definition set_clock (t : Z) (w : World) : World :=
  mkWorld t (alsStore w) (otelActive w) (baseLogger w) (initialized w)
          (ids w) (nextId w) (target w) (latency w) (sent w) (breakers w) (env w).

Definition set_alsStore (s : option Index.RequestContext) (w : World) : World :=
  mkWorld (clock w) s (otelActive w) (baseLogger w) (initialized w)
          (ids w) (nextId w) (target w) (latency w) (sent w) (breakers w) (env w).

Definition set_baseLogger (l : option Pino) (w : World) : World :=
  mkWorld (clock w) (alsStore w) (otelActive w) l (initialized w)
          (ids w) (nextId w) (target w) (latency w) (sent w) (breakers w) (env w).

Definition set_initialized (b : bool) (w : World) : World :=
  mkWorld (clock w) (alsStore w) (otelActive w) (baseLogger w) b
          (ids w) (nextId w) (target w) (latency w) (sent w) (breakers w) (env w).

Definition set_nextId (n : nat) (w : World) : World :=
  mkWorld (clock w) (alsStore w) (otelActive w) (baseLogger w) (initialized w)
          (ids w) n (target w) (latency w) (sent w) (breakers w) (env w).

Definition set_sent (n : nat) (w : World) : World :=
  mkWorld (clock w) (alsStore w) (otelActive w) (baseLogger w) (initialized w)
          (ids w) (nextId w) (target w) (latency w) n (breakers w) (env w).

Definition set_breakers (bs : list Opossum.CircuitBreaker) (w : World) : World :=
  mkWorld (clock w) (alsStore w) (otelActive w) (baseLogger w) (initialized w)
          (ids w) (nextId w) (target w) (latency w) (sent w) bs (env w).

(** [Date.now()]. *)
Definition Date_now : M Z := fun w => (Js.Normal (clock w), w, []).

(** [randomUUID()] and the tracer's id generator draw from one source. *)
Definition freshId : M string :=
  fun w => (Js.Normal (ids w (nextId w)), set_nextId (S (nextId w)) w, []).

(** The time a timer of [setTimeout(f, ms)] runs: a delay below 1 or above
    2147483647 is set to 1. *)
Definition timerDelay (ms : Z) : Z :=
  if (ms <? 1) || (2147483647 <? ms) then 1 else ms.

(** [setTimeout(resolve, ms)] awaited: time passes. *)
Definition sleep (ms : Z) : M unit :=
  fun w => (Js.Normal tt, set_clock (clock w + timerDelay ms) w, [ESleep ms]).

(** [als.run(store, callback)]: the callback, and everything it calls, sees
    [store]; the previous store is back when it returns or throws. *)
Definition als_run {A} (store : Index.RequestContext) (callback : M A) : M A :=
  fun w =>
    match callback (set_alsStore (Some store) w) with
    | (r, w1, ev) => (r, set_alsStore (alsStore w) w1, ev)
    end.

(** [als.getStore()]. *)
Definition als_getStore : M (option Index.RequestContext) :=
  fun w => (Js.Normal (alsStore w), w, []).

(** The parent a new span gets from its parent context: the span context
    of that context when it is a valid one. *)
Definition validParent (parentContext : option Otel.SpanContext) : option Otel.SpanContext :=
  match parentContext with
  | Some p => if Otel.isSpanContextValid p then Some p else None
  | None => None
  end.

(** [tracer.startSpan(name, { attributes }, parentContext)] on the tracer of
    [trace.getTracer].  Once the SDK has registered its tracer provider the
    new span continues the trace of a valid parent, or starts a trace of its
    own.  Before that the API hands out its no-op tracer, whose span is a
    non-recording one that carries the span context of a valid parent and the
    invalid span context otherwise.  The event is the call. *)
Definition startSpan (name : string) (attributes : Fields)
           (parentContext : option Otel.SpanContext) : M Otel.Span :=
  let parent := validParent parentContext in
  do w <- get;
  if initialized w then
    match parent with
    | Some p =>
        do sid <- freshId;
        let sc :=
          Otel.mkSpanContext (Otel.traceId p) sid (Otel.traceFlags p) (Otel.traceState p) in
        exec emit (ESpanStart name sc parent attributes);
        ret (Otel.mkSpan sc)
    | None =>
        do tid <- freshId;
        do sid <- freshId;
        let sc := Otel.mkSpanContext tid sid "01" None in
        exec emit (ESpanStart name sc None attributes);
        ret (Otel.mkSpan sc)
    end
  else
    let sc := Js.nullish parent Otel.INVALID_SPAN_CONTEXT in
    exec emit (ESpanStart name sc parent attributes);
    ret (Otel.mkSpan sc).

(** [propagation.extract(context.active(), headers)] and
    [propagation.inject(context.active(), carrier)] in the process. *)
Definition propagation_extract (headers : gmap string string) : M (option Otel.SpanContext) :=
  fun w => (Js.Normal (Otel.extract (initialized w) (otelActive w) headers), w, []).

Definition propagation_inject : M (gmap string string) :=
  fun w => (Js.Normal (Otel.inject (initialized w) (otelActive w)), w, []).

Definition span_id (s : Otel.Span) : string := Otel.spanId (Otel.spanContext s).

(* ===================================================================== *)
(** ** observability-index.ts                                             *)
(* ===================================================================== *)

Record InitOptions := mkInitOptions {
  init_serviceName : string;
  otlpEndpoint : option string;
  logLevel : option Level.t;
  metricsIntervalMs : option Z;
}.

Definition DEFAULT_OTEL_COLLECTOR : string :=
  "http://otel-stack-deployment-collector.observability.svc.cluster.local:4317".

(** [obj?.method(args)] and [obj.method(args)] on the module-level
    [baseLogger].  An [ELog] event is the call reaching pino; what pino
    writes for it (level threshold, mixin, transport) is pino's business. *)
Definition optional_call (l : Level.t) (obj : Fields) (msg : string) : M Js.value :=
  fun w =>
    match baseLogger w with
    | Some _ => (Js.Normal Js.undefined, w, [ELog l obj msg])
    | None => (Js.Normal Js.undefined, w, [])
    end.

Definition member_call (name : string) (l : Level.t) (obj : Fields) (msg : string)
  : M Js.value :=
  fun w =>
    match baseLogger w with
    | Some _ => (Js.Normal Js.undefined, w, [ELog l obj msg])
    | None =>
        (Js.Throw (Js.TypeError
                     ("Cannot read properties of undefined (reading '" +:+ name +:+ "')")),
         w, [])
    end.

(** [init(options)], reduced to what the logger and the request path read.
    The second call is skipped with a console warning.  The first one
    resolves its options against the defaults and [process.env], starts the
    SDK (which registers the tracer provider and the W3C propagator; the
    flag [initialized] stands for that too), creates the pino instance with
    the resolved level, logs through it and sets [initialized]. *)
Definition init (options : InitOptions) : M unit :=
  do w <- get;
  if initialized w then
    emit (EConsole "[neoiq-foundation] Already initialized, skipping...")
  else
    let otlpEndpoint :=
      Js.nullish (otlpEndpoint options)
        (Js.or_else (env w !! "OTEL_EXPORTER_OTLP_ENDPOINT") DEFAULT_OTEL_COLLECTOR) in
    let logLevel :=
      match logLevel options with
      | Some l => Level.name l
      | None => Js.or_else (env w !! "LOG_LEVEL") "info"
      end in
    let metricsIntervalMs := Js.nullish (metricsIntervalMs options) 5000 in
    exec modify (set_baseLogger (Some (mkPino logLevel)));
    exec member_call "info" Level.info
      [ ("endpoint", Js.str otlpEndpoint);
        ("metricsInterval", Js.str (Js.String_ metricsIntervalMs +:+ "ms")) ]
      "OpenTelemetry initialized. Sending to OTEL Collector.";
    modify (set_initialized true).

(** [export const logger = { info, error, warn, debug }]. *)
Module logger.
Definition info (obj : Fields) (msg : string) : M Js.value := optional_call Level.info obj msg.
Definition error (obj : Fields) (msg : string) : M Js.value := optional_call Level.error obj msg.
Definition warn (obj : Fields) (msg : string) : M Js.value := optional_call Level.warn obj msg.
Definition debug (obj : Fields) (msg : string) : M Js.value := optional_call Level.debug obj msg.
End logger.

(** [getRequestContext()] and [runWithContext(ctx, fn)]. *)
Definition getRequestContext : M (option Index.RequestContext) := als_getStore.

Definition runWithContext {A} (ctx : Index.RequestContext) (fn : M A) : M A := als_run ctx fn.

(* ===================================================================== *)
(** ** observability-plugin.ts                                            *)
(* ===================================================================== *)

Module Plugin.

(** The plugin's own [RequestContext], stored on the request object. *)
Record RequestContext := mkRequestContext {
  correlationId : string;
  traceId : string;
  spanId : string;
  startTime : Z;
}.

Record PluginOptions := mkPluginOptions {
  serviceName : string;
  excludeRoutes : option (list string);
}.

Record FastifyRequest := mkRequest {
  method : string;
  url : string;
  routeOptions_url : option string;        (* request.routeOptions?.url *)
  headers : gmap string string;
  __span : option Otel.Span;
  __requestContext : option RequestContext;
}.

Record FastifyReply := mkReply {
  statusCode : Z;
  replyHeaders : gmap string string;
}.

Definition Done := FastifyRequest -> FastifyReply -> M unit.

(** [reply.header(name, value)]. *)
Definition reply_header (reply : FastifyReply) (name value : string) : FastifyReply :=
  mkReply (statusCode reply) (<[ name := value ]> (replyHeaders reply)).

(** [const { excludeRoutes = ['/health', '/health/'] } = options]. *)
Definition excludeRoutes_ (options : PluginOptions) : list string :=
  Js.nullish (excludeRoutes options) ["/health"; "/health/"].

(** [excludeRoutes.some((route) => request.url.startsWith(route))]. *)
Definition isExcluded (options : PluginOptions) (request : FastifyRequest) : bool :=
  existsb (fun route => String.prefix route (url request)) (excludeRoutes_ options).

(** [request.routeOptions?.url || request.url]. *)
Definition routeOf (request : FastifyRequest) : string :=
  Js.or_else (routeOptions_url request) (url request).

(** [(request.headers['x-request-id'] as string) || randomUUID()]. *)
Definition correlationIdOf (request : FastifyRequest) : M string :=
  if Js.truthy (headers request !! "x-request-id")
  then ret (Js.or_else (headers request !! "x-request-id") "")
  else freshId.

Definition set_span_and_context (request : FastifyRequest) (span : Otel.Span)
           (requestContext : RequestContext) : FastifyRequest :=
  mkRequest (method request) (url request) (routeOptions_url request) (headers request)
            (Some span) (Some requestContext).

(** The store the hooks install with [als.run]:
    [{ correlationId, traceId, spanId }]. *)
Definition storeOf (ctx : RequestContext) : Index.RequestContext :=
  Index.mkRequestContext (Some (correlationId ctx)) (Some (traceId ctx)) (Some (spanId ctx)).

Definition span_setStatus (span : Otel.Span) (code : Otel.SpanStatusCode)
           (message : option string) : M unit :=
  emit (ESpanSetStatus (span_id span) code message).

Definition span_setAttribute (span : Otel.Span) (key : string) (v : Js.value) : M unit :=
  emit (ESpanSetAttribute (span_id span) key v).

Definition span_recordException (span : Otel.Span) (message : string) : M unit :=
  emit (ESpanRecordException (span_id span) message).

Definition span_end (span : Otel.Span) : M unit :=
  emit (ESpanEnd (span_id span)).

(** ON REQUEST - extract context, start span. *)
Definition onRequest (options : PluginOptions)
           (request : FastifyRequest) (reply : FastifyReply) (done : Done) : M unit :=
  (* Skip health checks *)
  if isExcluded options request then
    done request reply
  else
    do correlationId <- correlationIdOf request;
    let reply := reply_header reply "x-request-id" correlationId in
    do parentContext <- propagation_extract (headers request);
    do span <- startSpan
         (method request +:+ " " +:+ routeOf request)
         [ ("http.method", Js.str (method request));
           ("http.url", Js.str (url request));
           ("http.route", Js.str (routeOf request));
           ("http.user_agent", Js.str (Js.or_else (headers request !! "user-agent") ""));
           ("http.correlation_id", Js.str correlationId) ]
         parentContext;
    let spanContext := Otel.spanContext span in
    let traceId := Otel.traceId spanContext in
    let spanId := Otel.spanId spanContext in
    do now <- Date_now;
    let requestContext := mkRequestContext correlationId traceId spanId now in
    let request := set_span_and_context request span requestContext in
    als_run (Index.mkRequestContext (Some correlationId) (Some traceId) (Some spanId))
      (exec logger.info
         [ ("correlationId", Js.str correlationId);
           ("traceId", Js.str traceId);
           ("spanId", Js.str spanId);
           ("method", Js.str (method request));
           ("url", Js.str (url request));
           ("route", Js.of_opt_str (routeOptions_url request));
           ("userAgent", Js.of_opt_str (headers request !! "user-agent")) ]
         "Request received";
       done request reply).

(** ON RESPONSE - end span, record metrics. *)
Definition onResponse (options : PluginOptions)
           (request : FastifyRequest) (reply : FastifyReply) (done : Done) : M unit :=
  match __requestContext request with
  | None => done request reply
  | Some ctx =>
      do now <- Date_now;
      let durationMs := now - startTime ctx in
      let route := routeOf request in
      let labels :=
        [ ("method", Js.str (method request));
          ("route", Js.str route);
          ("status_code", Js.str (Js.String_ (statusCode reply))) ] in
      als_run (storeOf ctx)
        (exec logger.info
           [ ("correlationId", Js.str (correlationId ctx));
             ("traceId", Js.str (traceId ctx));
             ("spanId", Js.str (spanId ctx));
             ("method", Js.str (method request));
             ("url", Js.str (url request));
             ("route", Js.str route);
             ("statusCode", Js.num (statusCode reply));
             ("durationMs", Js.num durationMs) ]
           "Request completed";
         exec emit (ECounterAdd "http.server.requests.total" 1 labels);
         exec emit (EHistogramRecord "http.server.request.duration" durationMs labels);
         exec (if 400 <=? statusCode reply
               then emit (ECounterAdd "http.server.requests.errors" 1 labels)
               else ret tt);
         exec (match __span request with
               | Some span =>
                   exec span_setStatus span
                        (if statusCode reply <? 400 then Otel.OK else Otel.ERROR) None;
                   exec span_setAttribute span "http.status_code" (Js.num (statusCode reply));
                   exec span_setAttribute span "http.response_time_ms" (Js.num durationMs);
                   span_end span
               | None => ret tt
               end);
         done request reply)
  end.

(** ON ERROR - record exception on span. *)
Definition onError (options : PluginOptions)
           (request : FastifyRequest) (reply : FastifyReply)
           (error_message : string) (error_stack : option string) (done : Done) : M unit :=
  match __requestContext request with
  | None => done request reply
  | Some ctx =>
      als_run (storeOf ctx)
        (exec logger.error
           [ ("correlationId", Js.str (correlationId ctx));
             ("traceId", Js.str (traceId ctx));
             ("spanId", Js.str (spanId ctx));
             ("method", Js.str (method request));
             ("url", Js.str (url request));
             ("error", Js.str error_message);
             ("stack", Js.of_opt_str error_stack) ]
           "Request failed";
         exec (match __span request with
               | Some span =>
                   exec span_setStatus span Otel.ERROR (Some error_message);
                   span_recordException span error_message
               | None => ret tt
               end);
         done request reply)
  end.

End Plugin.

(* ===================================================================== *)
(** ** http-client.ts                                                     *)
(* ===================================================================== *)

Module HttpClient.

(** [retry?: { retries?, retryDelay?, retryStatusCodes? }]. *)
Module Retry.
Record t := mk {
  retries : option Z;
  retryDelay : option Z;
  retryStatusCodes : option (list Z);
}.
End Retry.

(** [circuitBreaker?: { enabled?, resetTimeout?, errorThresholdPercentage? }]. *)
Module Breaker.
Record t := mk {
  enabled : option bool;
  resetTimeout : option Z;
  errorThresholdPercentage : option Z;
}.
End Breaker.

Record HttpClientOptions := mkOptions {
  baseURL : string;
  serviceName : string;
  timeout : option Z;
  retry : option Retry.t;
  circuitBreaker : option Breaker.t;
  headers : option (gmap string string);
}.

(** The request config axios threads through interceptors and adapter,
    with the two fields the code and axios-retry add to it. *)
Module Config.
Record t := mk {
  method : option string;
  baseURL : option string;
  url : string;
  headers : gmap string string;
  timeout : Z;
  __startTime : option Z;
  retryCount : Z;                 (* config['axios-retry'].retryCount *)
  lastRequestTime : option Z;     (* config['axios-retry'].lastRequestTime *)
}.

(** [config.headers.set(name, value)]. *)
Definition set (config : t) (name value : string) : t :=
  mk (method config) (baseURL config) (url config)
     (<[ name := value ]> (headers config)) (timeout config) (__startTime config)
     (retryCount config) (lastRequestTime config).

Definition set_startTime (config : t) (now : Z) : t :=
  mk (method config) (baseURL config) (url config)
     (headers config) (timeout config) (Some now) (retryCount config)
     (lastRequestTime config).

Definition set_retryCount (config : t) (n : Z) : t :=
  mk (method config) (baseURL config) (url config)
     (headers config) (timeout config) (__startTime config) n (lastRequestTime config).

Definition set_timeout (config : t) (ms : Z) : t :=
  mk (method config) (baseURL config) (url config)
     (headers config) ms (__startTime config) (retryCount config) (lastRequestTime config).

Definition set_lastRequestTime (config : t) (now : Z) : t :=
  mk (method config) (baseURL config) (url config)
     (headers config) (timeout config) (__startTime config) (retryCount config) (Some now).
End Config.

(** What the returned instance closes over. *)
Record AxiosInstance := mkInstance {
  defaults_baseURL : string;
  defaults_timeout : Z;
  defaults_headers : gmap string string;
  targetService : string;
  retry_ : Retry.t;
}.

Record AxiosResponse := mkResponse {
  status : Z;
  config : Config.t;
}.

(** [`${config.baseURL || ''}${config.url}`]. *)
Definition fullUrl (config : Config.t) : string :=
  Js.or_else (Config.baseURL config) "" +:+ Config.url config.

(** [config.method?.toUpperCase()]. *)
Definition methodUpper (config : Config.t) : option string :=
  match Config.method config with
  | Some m => Some (Js.toUpperCase m)
  | None => None
  end.

(** [reqCtx?.correlationId]. *)
Definition correlationIdOf (reqCtx : option Index.RequestContext) : option string :=
  match reqCtx with
  | Some c => Index.correlationId c
  | None => None
  end.

(** [if (carrier.name) config.headers.set(name, carrier.name)]. *)
Definition copyIfSet (carrier : gmap string string) (name : string) (config : Config.t)
  : Config.t :=
  if Js.truthy (carrier !! name)
  then Config.set config name (Js.or_else (carrier !! name) "")
  else config.

(** Request interceptor - add trace context and correlation ID. *)
Definition requestInterceptor (serviceName : string) (config : Config.t) : M Config.t :=
  (* 1. Propagate OpenTelemetry trace context (W3C traceparent) *)
  do carrier <- propagation_inject;
  let config := copyIfSet carrier "traceparent" config in
  let config := copyIfSet carrier "tracestate" config in
  (* 2. Propagate correlation ID *)
  do reqCtx <- getRequestContext;
  let config :=
    if Js.truthy (correlationIdOf reqCtx)
    then Config.set config "x-request-id" (Js.or_else (correlationIdOf reqCtx) "")
    else config in
  (* 3. Add timing metadata *)
  do now <- Date_now;
  let config := Config.set_startTime config now in
  (* 4. Log outbound request *)
  exec logger.debug
    [ ("method", Js.of_opt_str (methodUpper config));
      ("url", Js.str (fullUrl config));
      ("targetService", Js.str serviceName);
      ("correlationId", Js.of_opt_str (correlationIdOf reqCtx)) ]
    "Outbound HTTP request";
  ret config.

(** [Date.now() - (config.__startTime || Date.now())]. *)
Definition elapsedSince (config : Config.t) (now : Z) : Z :=
  match Config.__startTime config with
  | Some t => if t =? 0 then 0 else now - t
  | None => 0
  end.

Definition labelsOf (serviceName : string) (method : option string) (statusCode : Z)
  : Fields :=
  [ ("target_service", Js.str serviceName);
    ("method", Js.str (Js.or_else method "GET"));
    ("status_code", Js.str (Js.String_ statusCode)) ].

(** Response interceptor, fulfilled branch - log and record metrics. *)
Definition onFulfilled (serviceName : string) (response : AxiosResponse)
  : M AxiosResponse :=
  let config := config response in
  do now <- Date_now;
  let durationMs := elapsedSince config now in
  do reqCtx <- getRequestContext;
  let labels := labelsOf serviceName (methodUpper config) (status response) in
  exec logger.debug
    [ ("method", Js.of_opt_str (methodUpper config));
      ("url", Js.str (fullUrl config));
      ("targetService", Js.str serviceName);
      ("statusCode", Js.num (status response));
      ("durationMs", Js.num durationMs);
      ("correlationId", Js.of_opt_str (correlationIdOf reqCtx)) ]
    "Outbound HTTP response";
  exec emit (ECounterAdd "http.client.requests.total" 1 labels);
  exec emit (EHistogramRecord "http.client.request.duration" durationMs labels);
  ret response.

(** [error.response?.status]. *)
Definition responseStatus (error : Js.error) : option Z :=
  match error with
  | Js.AxiosError s => s
  | _ => None
  end.

(** Response interceptor, rejected branch - log, record metrics, reject
    again with the same error. *)
Definition onRejected (serviceName : string) (config : option Config.t)
           (error : Js.error) : M AxiosResponse :=
  do now <- Date_now;
  let durationMs := match config with Some c => elapsedSince c now | None => 0 end in
  let statusCode := Js.nullish (responseStatus error) 0 in
  do reqCtx <- getRequestContext;
  let method := match config with Some c => methodUpper c | None => None end in
  let labels := labelsOf serviceName method statusCode in
  exec logger.error
    [ ("method", Js.of_opt_str method);
      ("url", Js.str (match config with Some c => fullUrl c | None => "unknown" end));
      ("targetService", Js.str serviceName);
      ("statusCode", Js.num statusCode);
      ("durationMs", Js.num durationMs);
      ("error", Js.str (Js.message error));
      ("correlationId", Js.of_opt_str (correlationIdOf reqCtx)) ]
    "Outbound HTTP error";
  exec emit (ECounterAdd "http.client.requests.total" 1 labels);
  exec emit (EHistogramRecord "http.client.request.duration" durationMs labels);
  exec emit (ECounterAdd "http.client.requests.errors" 1 labels);
  throw error.

(** *** retryConfig *)

(** [retries: retry.retries ?? 3]. *)
Definition retries (retry : Retry.t) : Z := Js.nullish (Retry.retries retry) 3.

(** [retryDelay: (retryCount) => baseDelay * Math.pow(2, retryCount - 1)]. *)
Definition retryDelay (retry : Retry.t) (retryCount : Z) : Z :=
  let baseDelay := Js.nullish (Retry.retryDelay retry) 1000 in
  baseDelay * 2 ^ (retryCount - 1).

Definition defaultRetryStatusCodes : list Z := [408; 429; 500; 502; 503; 504].

(** [retryCondition: (error) =>
      !error.response || retryStatusCodes.includes(status || 0)]. *)
Definition retryCondition (retry : Retry.t) (error : Js.error) : bool :=
  let retryStatusCodes := Js.nullish (Retry.retryStatusCodes retry) defaultRetryStatusCodes in
  match responseStatus error with
  | None => true
  | Some status => existsb (Z.eqb status) retryStatusCodes
  end.

Definition onRetry (serviceName : string) (retryCount : Z) (error : Js.error)
           (requestConfig : Config.t) : M unit :=
  exec logger.warn
    [ ("retryCount", Js.num retryCount);
      ("url", Js.str (fullUrl requestConfig));
      ("error", Js.str (Js.message error));
      ("targetService", Js.str serviceName) ]
    "Retrying HTTP request";
  ret tt.

(** *** axios and axios-retry *)

(** axios' default [validateStatus]. *)
Definition validateStatus (status : Z) : bool := (200 <=? status) && (status <? 300).

(** The adapter: one network attempt against the target.  What comes back
    and how long it takes is the world's; an attempt that axios aborts on
    its timeout is a [NoResponse] there.  The event carries the headers of
    the config as the interceptors left them; what the adapter adds on the
    wire ([User-Agent], [Accept-Encoding], [Host]) is not part of it. *)
Definition adapter (config : Config.t) : M Outcome :=
  fun w =>
    (Js.Normal (target w (sent w)),
     set_clock (clock w + latency w) (set_sent (S (sent w)) w),
     [ENetwork (Config.method config) (fullUrl config) (Config.headers config)]).

(** axios-retry's timeout budget ([shouldResetTimeout] is left at false).
    Before it re-issues a request it takes the duration of the failed
    attempt and the delay it is about to wait off [config.timeout]:
    [if (config.timeout && currentState.lastRequestTime) {
       const timeout = config.timeout - (Date.now() - lastRequestTime) - delay;
       if (timeout <= 0) return Promise.reject(error);
       config.timeout = timeout; }].
    [None] is the rejection, [Some t] the timeout of the next attempt. *)
Definition retryTimeout (config : Config.t) (now delay : Z) : option Z :=
  match Config.lastRequestTime config with
  | Some lastRequestTime =>
      if (Config.timeout config =? 0) || (lastRequestTime =? 0) then
        Some (Config.timeout config)
      else
        let timeout := Config.timeout config - (now - lastRequestTime) - delay in
        if timeout <=? 0 then None else Some timeout
  | None => Some (Config.timeout config)
  end.

(** One pass of a request through the instance.  Request interceptors run
    last registered first: axios-retry's, which stamps [lastRequestTime],
    then the package's.  Then the adapter, then the response interceptors
    in registration order: the package's pair, then axios-retry's rejection
    handler.  That one gives up when no retry is left
    ([retryCount < retries], with [left = retries - retryCount]), when
    [retryCondition] refuses the error or when the timeout budget is used
    up; otherwise it calls [onRetry], waits the delay and re-issues the
    request through the same instance. *)
Fixpoint dispatch (left : nat) (client : AxiosInstance) (config : Config.t)
  : M AxiosResponse :=
  let rejected (config : Config.t) (error : Js.error) : M AxiosResponse :=
    catch (onRejected (targetService client) (Some config) error)
      (fun error =>
         match left with
         | O => throw error
         | S left' =>
             if retryCondition (retry_ client) error then
               let retryCount := Config.retryCount config + 1 in
               let delay := retryDelay (retry_ client) retryCount in
               do now <- Date_now;
               match retryTimeout config now delay with
               | None => throw error
               | Some timeout =>
                   let config := Config.set_timeout config timeout in
                   exec onRetry (targetService client) retryCount error config;
                   exec sleep delay;
                   dispatch left' client (Config.set_retryCount config retryCount)
               end
             else throw error
         end) in
  do now <- Date_now;
  let config := Config.set_lastRequestTime config now in
  do config <- requestInterceptor (targetService client) config;
  do outcome <- adapter config;
  match outcome with
  | Response status =>
      if validateStatus status
      then onFulfilled (targetService client) (mkResponse status config)
      else rejected config (Js.AxiosError (Some status))
  | NoResponse => rejected config (Js.AxiosError None)
  end.

(** What a caller passes to [client.request] / [client.get]. *)
Record AxiosRequestConfig := mkRequestConfig {
  req_method : option string;
  req_url : string;
  req_headers : gmap string string;
}.

(** What axios hands the request interceptors: the defaults of the
    instance ([baseURL], [timeout], [headers]) merged under the call's own
    config, and the method settled,
    [(config.method || this.defaults.method || 'get').toLowerCase()].
    Header names are merged as they are written: two spellings of one name
    that differ in letter case only, which axios folds into one, are two
    keys here. *)
Definition mergeConfig (client : AxiosInstance) (c : AxiosRequestConfig) : Config.t :=
  Config.mk (Some (Js.toLowerCase (Js.or_else (req_method c) "get")))
            (Some (defaults_baseURL client)) (req_url c)
            (req_headers c ∪ defaults_headers client) (defaults_timeout client)
            None 0 None.

(** [client.request(config)]. *)
Definition request (client : AxiosInstance) (c : AxiosRequestConfig) : M AxiosResponse :=
  dispatch (Z.to_nat (retries (retry_ client))) client (mergeConfig client c).

(** *** createHttpClient *)

Definition breakerOptions (timeout : Z) (cbOptions : Breaker.t) : Opossum.Options :=
  Opossum.mkOptions timeout
    (Js.nullish (Breaker.resetTimeout cbOptions) 30000)
    (Js.nullish (Breaker.errorThresholdPercentage cbOptions) 50)
    10.

(** [cbOptions.enabled !== false]. *)
Definition breakerEnabled (cbOptions : Breaker.t) : bool :=
  match Breaker.enabled cbOptions with
  | Some false => false
  | _ => true
  end.

(** [const { retry = {} } = options]. *)
Definition retryOf (options : HttpClientOptions) : Retry.t :=
  Js.nullish (retry options) (Retry.mk None None None).

(** The headers every axios instance starts from
    ([defaults.headers.common]). *)
Definition axiosDefaultHeaders : gmap string string :=
  {[ "Accept" := "application/json, text/plain, */*" ]}.

(** The factory.  [axios.create] lays the headers it is given,
    [{ 'Content-Type': 'application/json', ...headers }], over those of the
    library.  The breaker the factory constructs wraps [client.request], is
    given its three listeners and is then dropped: the function returns
    [client], and nothing holds the breaker or calls its [fire]. *)
Definition createHttpClient (options : HttpClientOptions) : M AxiosInstance :=
  let timeout := Js.nullish (timeout options) 30000 in
  let retry := retryOf options in
  let cbOptions := Js.nullish (circuitBreaker options) (Breaker.mk None None None) in
  let headers := Js.nullish (headers options) ∅ in
  let client :=
    mkInstance (baseURL options) timeout
               (headers ∪ {[ "Content-Type" := "application/json" ]} ∪ axiosDefaultHeaders)
               (serviceName options) retry in
  exec (if breakerEnabled cbOptions
        then modify (fun w =>
               set_breakers (breakers w ++ [Opossum.new (breakerOptions timeout cbOptions)]) w)
        else ret tt);
  ret client.

(** *** opossum's [breaker.fire(config)]

    What a call through breaker number [i] would do, with the action and
    the listeners [createHttpClient] gives it.  No path of the package
    reaches this function. *)
Definition set_breaker (i : nat) (b : Opossum.CircuitBreaker) : M unit :=
  modify (fun w => set_breakers (<[ i := b ]> (breakers w)) w).

Definition fire (i : nat) (client : AxiosInstance) (c : AxiosRequestConfig)
  : M AxiosResponse :=
  do w <- get;
  match breakers w !! i with
  | None => throw (Js.TypeError "breaker is not defined")
  | Some b =>
      match Opossum.stateAt (clock w) b with
      | Opossum.open =>
          exec set_breaker i (Opossum.fired Opossum.open b);
          throw Js.OpenBreakerError
      | s =>
          let probe := match s with Opossum.halfOpen => true | _ => false end in
          let b := Opossum.fired s b in
          exec set_breaker i b;
          exec (if probe
                then exec logger.info [ ("targetService", Js.str (targetService client));
                                        ("baseURL", Js.str (defaults_baseURL client)) ]
                          "Circuit breaker HALF-OPEN"; ret tt
                else ret tt);
          catch
            (do r <- request client c;
             exec set_breaker i (Opossum.succeed probe b);
             exec (if probe
                   then exec logger.info [ ("targetService", Js.str (targetService client));
                                           ("baseURL", Js.str (defaults_baseURL client)) ]
                             "Circuit breaker CLOSED"; ret tt
                   else ret tt);
             ret r)
            (fun e =>
               do w <- get;
               let b' := Opossum.fail (clock w) probe b in
               exec set_breaker i b';
               exec (match Opossum.state b' with
                     | Opossum.open =>
                         exec logger.warn [ ("targetService", Js.str (targetService client));
                                            ("baseURL", Js.str (defaults_baseURL client)) ]
                                   "Circuit breaker OPEN"; ret tt
                     | _ => ret tt
                     end);
               throw e)
      end
  end.

End HttpClient.

(* ===================================================================== *)
(** ** Fastify's hook runner around one request                           *)
(* ===================================================================== *)

Module Fastify.

(** What a route handler does that the package can observe: outbound
    calls through a client (awaited bare, or inside try/catch), time
    passing, log lines; then it sends a reply or raises. *)
Inductive Step :=
| Await (client : HttpClient.AxiosInstance) (c : HttpClient.AxiosRequestConfig)
| TryAwait (client : HttpClient.AxiosInstance) (c : HttpClient.AxiosRequestConfig)
| Elapse (ms : Z)
| LogInfo (obj : Fields) (msg : string).

Inductive Ending :=
| Send (statusCode : Z)
| Raise (message : string).

Record Handler := mkHandler {
  steps : list Step;
  ending : Ending;
}.

Definition runStep (s : Step) : M unit :=
  match s with
  | Await client c => exec HttpClient.request client c; ret tt
  | TryAwait client c =>
      catch (exec HttpClient.request client c; ret tt) (fun _ => ret tt)
  | Elapse ms => modify (fun w => set_clock (clock w + ms) w)
  | LogInfo obj msg => exec logger.info obj msg; ret tt
  end.

Fixpoint runSteps (l : list Step) : M unit :=
  match l with
  | [] => ret tt
  | s :: l' => exec runStep s; runSteps l'
  end.

(** The handler's completion: the status code it sends, or its error. *)
Definition runHandler (h : Handler) : M Z :=
  exec runSteps (steps h);
  match ending h with
  | Send statusCode => ret statusCode
  | Raise message => throw (Js.HandlerError message)
  end.

(** Settle a computation into its completion (an awaited promise
    inspected by the framework). *)
Definition settle {A} (m : M A) : M (Js.completion A) :=
  fun w => match m w with (r, w1, ev) => (Js.Normal r, w1, ev) end.

Definition with_status (reply : Plugin.FastifyReply) (statusCode : Z) : Plugin.FastifyReply :=
  Plugin.mkReply statusCode (Plugin.replyHeaders reply).

Definition finish : Plugin.Done := fun _ _ => ret tt.

(** The status the default error handler replies with:
    [error.statusCode || error.status] when that is 400 or above, 500
    otherwise.  Of the errors here only axios' carries a status. *)
Definition errorStatus (e : Js.error) : Z :=
  match e with
  | Js.AxiosError (Some status) => if 400 <=? status then status else 500
  | _ => 500
  end.

(** One request through the lifecycle: onRequest, the handler, and then
    onResponse once the reply is sent.  The hook runner reaches the handler
    from the [done] that onRequest calls, so the handler runs inside the
    extent of the [als.run] around that call.  When the handler raises, the
    onError hooks run first and the error reply is sent by the default
    error handler, so onResponse runs after onError. *)
Definition handleRequest (options : Plugin.PluginOptions) (h : Handler)
           (request : Plugin.FastifyRequest) (reply : Plugin.FastifyReply) : M unit :=
  Plugin.onRequest options request reply (fun request reply =>
    do r <- settle (runHandler h);
    match r with
    | Js.Normal statusCode =>
        Plugin.onResponse options request (with_status reply statusCode) finish
    | Js.Throw e =>
        Plugin.onError options request reply (Js.message e) None (fun request reply =>
          Plugin.onResponse options request (with_status reply (errorStatus e)) finish)
    end).

End Fastify.

(* ===================================================================== *)
(** ** The first draft kept next to the package                           *)
(* ===================================================================== *)

(** The repository still carries the first draft of the client and of the
    index ([src/http/client.ts], [src/observability/index.ts]); the package
    index exports the modules above.  Only the three places where the draft
    differs from the package on a property stated below are modelled. *)
Module Draft.

(** [retryDelay: (count) => count * (retry.delay ?? 1000)]. *)
Definition retryDelay (delay : option Z) (count : Z) : Z :=
  count * Js.nullish delay 1000.

(** [retryCondition: (error) => error.response?.status! >= 500 || !error.response]. *)
Definition retryCondition (error : Js.error) : bool :=
  match HttpClient.responseStatus error with
  | Some status => 500 <=? status
  | None => true
  end.

(** [info: (obj, msg) => baseLogger.info(obj, msg)], no optional call. *)
Module logger.
Definition info (obj : Fields) (msg : string) : M Js.value :=
  member_call "info" Level.info obj msg.
Definition error (obj : Fields) (msg : string) : M Js.value :=
  member_call "error" Level.error obj msg.
Definition warn (obj : Fields) (msg : string) : M Js.value :=
  member_call "warn" Level.warn obj msg.
Definition debug (obj : Fields) (msg : string) : M Js.value :=
  member_call "debug" Level.debug obj msg.
End logger.

End Draft.

(* ===================================================================== *)
(** ** Observations on event sequences                                    *)
(* ===================================================================== *)

Definition isNetwork (e : Event) : bool :=
  match e with ENetwork _ _ _ => true | _ => false end.

Definition isSleep (e : Event) : bool :=
  match e with ESleep _ => true | _ => false end.

Definition isSpanStart (e : Event) : bool :=
  match e with ESpanStart _ _ _ _ => true | _ => false end.

Definition isSpanEnd (e : Event) : bool :=
  match e with ESpanEnd _ => true | _ => false end.

Definition isSpanEvent (e : Event) : bool :=
  match e with
  | ESpanStart _ _ _ _ | ESpanSetStatus _ _ _ | ESpanSetAttribute _ _ _
  | ESpanRecordException _ _ | ESpanEnd _ => true
  | _ => false
  end.

Definition isLogWith (msg : string) (e : Event) : bool :=
  match e with ELog _ _ m => String.eqb m msg | _ => false end.

Definition count (p : Event -> bool) (evs : list Event) : nat := length (filter p evs).

(** Network attempts made. *)
Definition attempts (evs : list Event) : nat := count isNetwork evs.

(** The backoff delays waited, in order. *)
Fixpoint delays (evs : list Event) : list Z :=
  match evs with
  | [] => []
  | ESleep ms :: evs' => ms :: delays evs'
  | _ :: evs' => delays evs'
  end.

(** The headers of the network attempts, in order. *)
Fixpoint sentHeaders (evs : list Event) : list (gmap string string) :=
  match evs with
  | [] => []
  | ENetwork _ _ h :: evs' => h :: sentHeaders evs'
  | _ :: evs' => sentHeaders evs'
  end.

(** The two terminal lifecycle records of a request. *)
Definition completed (evs : list Event) : nat := count (isLogWith "Request completed") evs.
Definition failed (evs : list Event) : nat := count (isLogWith "Request failed") evs.
Definition spansStarted (evs : list Event) : nat := count isSpanStart evs.
Definition spansEnded (evs : list Event) : nat := count isSpanEnd evs.

(** The module state before [init] on a quiet process: nothing installed,
    clock at [t0], a target that answers every attempt with [out]. *)
Definition idStream (n : nat) : string := "id-" +:+ pretty n.

Definition world0 (t0 : Z) (out : Outcome) : World :=
  mkWorld t0 None None None false idStream 0 (fun _ => out) 5 0 [] ∅.

(** The same process after [init({ serviceName })]. *)
Definition worldInit (t0 : Z) (out : Outcome) : World :=
  world (init (mkInitOptions "svc" None None None) (world0 t0 out)).

(** The logs and metrics of the client: log lines and the instruments named
    [http.client.*]. *)
Definition isTelemetry (e : Event) : bool :=
  match e with
  | ELog _ _ _ | EConsole _ => true
  | ECounterAdd name _ _ | EHistogramRecord name _ _ => String.prefix "http.client." name
  | _ => false
  end.

(** The metrics of the plugin: the instruments named [http.server.*]. *)
Definition isServerMetric (e : Event) : bool :=
  match e with
  | ECounterAdd name _ _ | EHistogramRecord name _ _ => String.prefix "http.server." name
  | _ => false
  end.

(** What a logger call adds to the event sequence in world [w]. *)
Definition logged (w : World) (l : Level.t) (obj : Fields) (msg : string) : list Event :=
  match baseLogger w with
  | Some _ => [ELog l obj msg]
  | None => []
  end.

(** The config the request interceptor returns in world [w]. *)
Definition annotate (w : World) (config : HttpClient.Config.t) : HttpClient.Config.t :=
  let carrier := Otel.inject (initialized w) (otelActive w) in
  let config := HttpClient.copyIfSet carrier "traceparent" config in
  let config := HttpClient.copyIfSet carrier "tracestate" config in
  let config :=
    if Js.truthy (HttpClient.correlationIdOf (alsStore w))
    then HttpClient.Config.set config "x-request-id"
           (Js.or_else (HttpClient.correlationIdOf (alsStore w)) "")
    else config in
  HttpClient.Config.set_startTime config (clock w).

(** The error axios rejects an attempt with, if it does. *)
Definition attemptError (o : Outcome) : option Js.error :=
  match o with
  | Response status =>
      if HttpClient.validateStatus status then None else Some (Js.AxiosError (Some status))
  | NoResponse => Some (Js.AxiosError None)
  end.

(** The world after one network attempt, and after a backoff delay. *)
Definition afterAttempt (w : World) : World :=
  set_clock (clock w + latency w) (set_sent (S (sent w)) w).

Definition afterDelay (d : Z) (w : World) : World := set_clock (clock w + timerDelay d) w.

(** The config an attempt is made with: stamped by axios-retry, then
    annotated by the package's interceptor. *)
Definition attemptConfig (w : World) (config : HttpClient.Config.t) : HttpClient.Config.t :=
  annotate w (HttpClient.Config.set_lastRequestTime config (clock w)).

(** What axios-retry decides for an attempt that was made with [config] and
    failed with [e] at time [now]: [Some t] to retry with timeout [t],
    [None] to give up. *)
Definition retryDecision (left : nat) (retry : HttpClient.Retry.t)
           (config : HttpClient.Config.t) (now : Z) (e : Js.error) : option Z :=
  match left with
  | O => None
  | S _ =>
      if HttpClient.retryCondition retry e
      then HttpClient.retryTimeout config now
             (HttpClient.retryDelay retry (HttpClient.Config.retryCount config + 1))
      else None
  end.

(** A request as Fastify hands it to the first hook: nothing installed. *)
Definition incoming (method url : string) (route : option string)
           (headers : gmap string string) : Plugin.FastifyRequest :=
  Plugin.mkRequest method url route headers None None.

(** The network event of an attempt made with [cfg]. *)
Definition netEvent (cfg : HttpClient.Config.t) : Event :=
  ENetwork (HttpClient.Config.method cfg) (HttpClient.fullUrl cfg) (HttpClient.Config.headers cfg).

(** What the request interceptor does to the headers, as a function of the
    ALS store, of the active OpenTelemetry span context and of whether the
    propagator is registered. *)
Definition annotateHeaders (registered : bool) (store : option Index.RequestContext)
           (active : option Otel.SpanContext) (h : gmap string string)
  : gmap string string :=
  let carrier := Otel.inject registered active in
  let h := if Js.truthy (carrier !! "traceparent")
           then <[ "traceparent" := Js.or_else (carrier !! "traceparent") "" ]> h else h in
  let h := if Js.truthy (carrier !! "tracestate")
           then <[ "tracestate" := Js.or_else (carrier !! "tracestate") "" ]> h else h in
  if Js.truthy (HttpClient.correlationIdOf store)
  then <[ "x-request-id" := Js.or_else (HttpClient.correlationIdOf store) "" ]> h
  else h.

(** The parts of the process state that an outbound call only reads. *)
Definition sameAmbient (w w' : World) : Prop :=
  alsStore w' = alsStore w /\ otelActive w' = otelActive w
  /\ baseLogger w' = baseLogger w /\ breakers w' = breakers w
  /\ target w' = target w /\ latency w' = latency w
  /\ initialized w' = initialized w.

(** The three shapes one pass of a request can take: answered, failed for
    good, failed and re-issued after the backoff delay. *)
Inductive PassShape (left : nat) (client : HttpClient.AxiosInstance)
          (cfg : HttpClient.Config.t) (w : World) : Prop :=
| PassOk pre post resp :
    forallb isTelemetry pre = true -> forallb isTelemetry post = true ->
    attemptError (target w (sent w)) = None ->
    HttpClient.dispatch left client cfg w
    = (Js.Normal resp, afterAttempt w, pre ++ netEvent (attemptConfig w cfg) :: post ++ []) ->
    PassShape left client cfg w
| PassFail pre post e :
    forallb isTelemetry pre = true -> forallb isTelemetry post = true ->
    attemptError (target w (sent w)) = Some e ->
    retryDecision left (HttpClient.retry_ client) (attemptConfig w cfg)
      (clock (afterAttempt w)) e = None ->
    HttpClient.dispatch left client cfg w
    = (Js.Throw e, afterAttempt w, pre ++ netEvent (attemptConfig w cfg) :: post ++ []) ->
    PassShape left client cfg w
| PassRetry pre post e left' timeout :
    forallb isTelemetry pre = true -> forallb isTelemetry post = true ->
    attemptError (target w (sent w)) = Some e ->
    left = S left' ->
    HttpClient.retryCondition (HttpClient.retry_ client) e = true ->
    retryDecision left (HttpClient.retry_ client) (attemptConfig w cfg)
      (clock (afterAttempt w)) e = Some timeout ->
    (let rc := HttpClient.Config.retryCount cfg + 1 in
     let d := HttpClient.retryDelay (HttpClient.retry_ client) rc in
     let r := HttpClient.dispatch left' client
                (HttpClient.Config.set_retryCount
                   (HttpClient.Config.set_timeout (attemptConfig w cfg) timeout) rc)
                (afterDelay d (afterAttempt w)) in
     HttpClient.dispatch left client cfg w
     = (result r, world r,
        pre ++ netEvent (attemptConfig w cfg) :: post ++ ESleep d :: events r)) ->
    PassShape left client cfg w.

(** A property of the client [createHttpClient] returns for [options] in
    world [w], and of the world it leaves. *)
Definition withClient (options : HttpClient.HttpClientOptions) (w : World)
           (k : HttpClient.AxiosInstance -> World -> Prop) : Prop :=
  match HttpClient.createHttpClient options w with
  | (Js.Normal client, w1, _) => k client w1
  | (Js.Throw _, _, _) => False
  end.

(** [n] calls in a row, each inside try/catch. *)
Fixpoint repeatCall (n : nat) (client : HttpClient.AxiosInstance)
         (c : HttpClient.AxiosRequestConfig) : M unit :=
  match n with
  | O => ret tt
  | S n' =>
      exec catch (exec HttpClient.request client c; ret tt) (fun _ => ret tt);
      repeatCall n' client c
  end.

(** The same calls sent through breaker number [i] instead. *)
Fixpoint repeatFire (n : nat) (i : nat) (client : HttpClient.AxiosInstance)
         (c : HttpClient.AxiosRequestConfig) : M unit :=
  match n with
  | O => ret tt
  | S n' =>
      exec catch (exec HttpClient.fire i client c; ret tt) (fun _ => ret tt);
      repeatFire n' i client c
  end.

(** The clients of the example service: [{ baseURL, serviceName }] with the
    retry options given. *)
Definition authOptions (retry : option HttpClient.Retry.t) : HttpClient.HttpClientOptions :=
  HttpClient.mkOptions "http://neoiq-auth-service:3000" "auth-service" None retry None None.

Definition validateToken : HttpClient.AxiosRequestConfig :=
  HttpClient.mkRequestConfig (Some "get") "/api/v1/validate-token" ∅.

(** The client the factory returns for [authOptions None]. *)
Definition authClient : HttpClient.AxiosInstance :=
  HttpClient.mkInstance "http://neoiq-auth-service:3000" 30000
    (∅ ∪ {[ "Content-Type" := "application/json" ]} ∪ HttpClient.axiosDefaultHeaders)
    "auth-service" (HttpClient.Retry.mk None None None).


(** The same client with five retries. *)
Definition patientClient : HttpClient.AxiosInstance :=
  HttpClient.mkInstance "http://neoiq-auth-service:3000" 30000
    (∅ ∪ {[ "Content-Type" := "application/json" ]} ∪ HttpClient.axiosDefaultHeaders)
    "auth-service" (HttpClient.Retry.mk (Some 5) None None).

(** What onRequest sets up for a request it does not exclude. *)
Record Entry := mkEntry {
  entry_correlationId : string;
  entry_span : Otel.Span;
  entry_parent : option Otel.SpanContext;
  entry_world : World;
}.

Definition entry_context (e : Entry) (now : Z) : Plugin.RequestContext :=
  Plugin.mkRequestContext (entry_correlationId e)
    (Otel.traceId (Otel.spanContext (entry_span e)))
    (Otel.spanId (Otel.spanContext (entry_span e))) now.

(** The facts that tie an [Entry] to the request and the world it was made
    from. *)
Definition entered (request : Plugin.FastifyRequest) (w : World) (e : Entry) : Prop :=
  entry_correlationId e
  = (if Js.truthy (Plugin.headers request !! "x-request-id")
     then Js.or_else (Plugin.headers request !! "x-request-id") ""
     else ids w (nextId w))
  /\ entry_parent e
     = validParent (Otel.extract (initialized w) (otelActive w) (Plugin.headers request))
  /\ (forall p, entry_parent e = Some p ->
        Otel.traceId (Otel.spanContext (entry_span e)) = Otel.traceId p)
  /\ alsStore (entry_world e) = Some (Plugin.storeOf (entry_context e (clock w)))
  /\ otelActive (entry_world e) = otelActive w
  /\ baseLogger (entry_world e) = baseLogger w
  /\ initialized (entry_world e) = initialized w.

(** The events of the hooks that run once the handler has settled. *)
Definition exitEvents (options : Plugin.PluginOptions) (request : Plugin.FastifyRequest)
           (reply : Plugin.FastifyReply) (rh : Js.completion Z * World * list Event)
  : list Event :=
  match result rh with
  | Js.Normal statusCode =>
      events (Plugin.onResponse options request (Fastify.with_status reply statusCode)
                Fastify.finish (world rh))
  | Js.Throw e =>
      events (Plugin.onError options request reply (Js.message e) None
                (fun request reply =>
                   Plugin.onResponse options request
                     (Fastify.with_status reply (Fastify.errorStatus e)) Fastify.finish)
                (world rh))
  end.

(** Events a client call can produce. *)
Definition isClientEvent (e : Event) : bool := isTelemetry e || isNetwork e || isSleep e.

(** What holds of every step of a handler, and so of the handler: it leaves
    the ambient state alone, produces client events only, and every network
    attempt it causes carries headers annotated in the ambient context. *)
Definition wellBehaved {A} (m : M A) : Prop :=
  forall w,
    sameAmbient w (world (m w))
    /\ forallb isClientEvent (events (m w)) = true
    /\ Forall (fun h => exists h0,
                 h = annotateHeaders (initialized w) (alsStore w) (otelActive w) h0)
              (sentHeaders (events (m w))).

(** Exactly one terminal lifecycle record. *)
Definition exactlyOneTerminal (evs : list Event) : Prop :=
  (completed evs + failed evs = 1)%nat.

(** The plugin as the example service registers it, and two requests. *)
Definition pluginOptions : Plugin.PluginOptions :=
  Plugin.mkPluginOptions "canvas-weaver" None.

Definition inboundHeaders : gmap string string :=
  <[ "x-request-id" := "req-1" ]>
    (<[ "traceparent" := "00-4bf92f3577b34da6a3ce929d0e0e4736-00f067aa0ba902b7-01" ]> ∅).

Definition healthRequest : Plugin.FastifyRequest :=
  incoming "GET" "/health" (Some "/health") inboundHeaders.

Definition reportRequest : Plugin.FastifyRequest :=
  incoming "GET" "/api/v1/reports/42" (Some "/api/v1/reports/:reportId") inboundHeaders.

Definition freshReply : Plugin.FastifyReply := Plugin.mkReply 200 ∅.

(** Handlers: one that validates a token downstream and replies 200, one
    that raises. *)
Definition okHandler : Fastify.Handler :=
  Fastify.mkHandler [Fastify.TryAwait authClient validateToken] (Fastify.Send 200).

Definition failingHandler : Fastify.Handler :=
  Fastify.mkHandler [] (Fastify.Raise "boom").

(** [reportRequest] as onRequest leaves it when it arrived at time 0. *)
Definition tracedSpan : Otel.Span :=
  Otel.mkSpan (Otel.mkSpanContext "4bf92f3577b34da6a3ce929d0e0e4736" "id-0" "01" None).

Definition tracedContext : Plugin.RequestContext :=
  Plugin.mkRequestContext "req-1" "4bf92f3577b34da6a3ce929d0e0e4736" "id-0" 0.

Definition tracedRequest : Plugin.FastifyRequest :=
  Plugin.set_span_and_context reportRequest tracedSpan tracedContext.

(** Three runs: the excluded request and the traced request whose handler
    raises, on the initialised process; the traced request answered 200 on a
    process where no OpenTelemetry context is active (here: before [init]). *)
Definition excludedRun : list Event :=
  events (Fastify.handleRequest pluginOptions okHandler healthRequest freshReply
            (worldInit 0 (Response 200))).


Definition raisedRun : list Event :=
  events (Fastify.handleRequest pluginOptions failingHandler reportRequest freshReply
            (worldInit 0 (Response 200))).


(** A span context whose ids have the W3C shape. *)
Definition wellFormed (sc : Otel.SpanContext) : Prop :=
  String.length (Otel.traceId sc) = 32%nat
  /\ Otel.all_hex (Otel.traceId sc) = true /\ Otel.all_zero (Otel.traceId sc) = false
  /\ String.length (Otel.spanId sc) = 16%nat
  /\ Otel.all_hex (Otel.spanId sc) = true /\ Otel.all_zero (Otel.spanId sc) = false
  /\ String.length (Otel.traceFlags sc) = 2%nat
  /\ Otel.all_hex (Otel.traceFlags sc) = true.

(** The initialised process while the SDK's HTTP instrumentation has a
    server span of the inbound trace active. *)
Definition serverSpanContext : Otel.SpanContext :=
  Otel.mkSpanContext "4bf92f3577b34da6a3ce929d0e0e4736" "b7ad6b7169203331" "01" None.



(** Proof steps used throughout. *)
Ltac simpl_run := cbn [result world events fst snd].

Ltac peel :=
  simpl String.append; simpl String.substring;
  repeat match goal with |- context [String.append EmptyString ?x] =>
    change (String.append EmptyString x) with x end.

(* ===================================================================== *)
(** ** observability-index.ts, the remaining exports                      *)
(* ===================================================================== *)

(** [a || b] on two possibly-undefined strings. *)
Definition or_undefined (a b : option string) : option string :=
  if Js.truthy a then a else b.

(** What the pino [mixin] of [init] adds to a log record:
    [{ traceId: spanContext?.traceId || ctx?.traceId,
       spanId: spanContext?.spanId || ctx?.spanId,
       correlationId: ctx?.correlationId }]. *)
Record LogMixin := mkLogMixin {
  mixin_traceId : option string;
  mixin_spanId : option string;
  mixin_correlationId : option string;
}.

Definition mixin (w : World) : LogMixin :=
  let spanContext := otelActive w in
  let ctx := alsStore w in
  mkLogMixin
    (or_undefined (match spanContext with Some sc => Some (Otel.traceId sc) | None => None end)
                  (match ctx with Some c => Index.traceId c | None => None end))
    (or_undefined (match spanContext with Some sc => Some (Otel.spanId sc) | None => None end)
                  (match ctx with Some c => Index.spanId c | None => None end))
    (match ctx with Some c => Index.correlationId c | None => None end).

(** [getTraceContext()]: [{}] without an active span, its ids otherwise. *)
Definition getTraceContext : M (option (string * string)) :=
  fun w =>
    (Js.Normal (match otelActive w with
                | Some ctx => Some (Otel.traceId ctx, Otel.spanId ctx)
                | None => None
                end), w, []).

(** [shutdown()], with the two providers' own [shutdown()] as given:
    [if (!initialized) return;
     try { await meterProvider?.shutdown(); await sdk?.shutdown(); console.log(..) }
     catch (error) { console.error(..) }]. *)
Definition shutdown (meterProvider_shutdown sdk_shutdown : M unit) : M unit :=
  do w <- get;
  if negb (initialized w) then ret tt
  else
    catch
      (exec meterProvider_shutdown;
       exec sdk_shutdown;
       emit (EConsole "[neoiq-foundation] OTEL shutdown complete"))
      (fun error => emit (EConsole "[neoiq-foundation] Error during shutdown:")).

(** A provider whose [shutdown()] rejects. *)
Definition failingShutdown : M unit := throw (Js.TypeError "exporter unreachable").

(* ===================================================================== *)
(** ** Observations on the lifecycle and on metric records                *)
(* ===================================================================== *)

(** A property [P] of the process state that holds at every point of the
    handler of a request the plugin does not exclude: [e] is what onRequest
    set up for it, and the handler has run any number of its steps. *)
Definition insideHandler (options : Plugin.PluginOptions) (h : Fastify.Handler)
           (request : Plugin.FastifyRequest) (reply : Plugin.FastifyReply) (w : World)
           (P : Entry -> World -> Prop) : Prop :=
  exists (e : Entry) name attrs obj,
    entered request w e
    /\ events (Fastify.handleRequest options h request reply w)
       = ESpanStart name (Otel.spanContext (entry_span e)) (entry_parent e) attrs
         :: logged w Level.info obj "Request received"
         ++ events (Fastify.runHandler h (entry_world e))
         ++ exitEvents options
              (Plugin.set_span_and_context request (entry_span e) (entry_context e (clock w)))
              (Plugin.reply_header reply "x-request-id" (entry_correlationId e))
              (Fastify.runHandler h (entry_world e))
    /\ forall pre post, Fastify.steps h = pre ++ post ->
         P e (world (Fastify.runSteps pre (entry_world e))).

(** A handler that logs, calls downstream and logs again. *)
Definition loggingHandler : Fastify.Handler :=
  Fastify.mkHandler
    [ Fastify.LogInfo [] "validating";
      Fastify.TryAwait authClient validateToken;
      Fastify.LogInfo [] "validated" ]
    (Fastify.Send 200).

(** The correlation id onRequest settles on for [request] in world [w]:
    [(request.headers['x-request-id'] as string) || randomUUID()]. *)
Definition correlationIdIn (request : Plugin.FastifyRequest) (w : World) : string :=
  if Js.truthy (Plugin.headers request !! "x-request-id")
  then Js.or_else (Plugin.headers request !! "x-request-id") ""
  else ids w (nextId w).

(** What holds of the handler's run [rh] in the lifecycle of a request the
    plugin does not exclude. *)
Definition aroundHandler (options : Plugin.PluginOptions) (h : Fastify.Handler)
           (request : Plugin.FastifyRequest) (reply : Plugin.FastifyReply) (w : World)
           (P : Entry -> Js.completion Z * World * list Event -> Prop) : Prop :=
  exists (e : Entry) name attrs obj,
    entered request w e
    /\ events (Fastify.handleRequest options h request reply w)
       = ESpanStart name (Otel.spanContext (entry_span e)) (entry_parent e) attrs
         :: logged w Level.info obj "Request received"
         ++ events (Fastify.runHandler h (entry_world e))
         ++ exitEvents options
              (Plugin.set_span_and_context request (entry_span e) (entry_context e (clock w)))
              (Plugin.reply_header reply "x-request-id" (entry_correlationId e))
              (Fastify.runHandler h (entry_world e))
    /\ P e (Fastify.runHandler h (entry_world e)).

(** The status the reply goes out with: the handler's, or that of the
    default error handler when it raised. *)
Definition sentStatus (r : Js.completion Z) : Z :=
  match r with
  | Js.Normal statusCode => statusCode
  | Js.Throw e => Fastify.errorStatus e
  end.

(** The options of a service that traces its health checks too. *)
Definition traceEverything : Plugin.PluginOptions :=
  Plugin.mkPluginOptions "canvas-weaver" (Some []).

(** Metric records, among all events, and those of one instrument. *)
Definition isMetric (e : Event) : bool :=
  match e with
  | ECounterAdd _ _ _ | EHistogramRecord _ _ _ => true
  | _ => false
  end.

Definition isCounter (name : string) (e : Event) : bool :=
  match e with ECounterAdd n _ _ => String.eqb n name | _ => false end.

Definition isHistogram (name : string) (e : Event) : bool :=
  match e with EHistogramRecord n _ _ => String.eqb n name | _ => false end.

Definition isRecordException (e : Event) : bool :=
  match e with ESpanRecordException _ _ => true | _ => false end.

(** What the response interceptor pair of a client records for one attempt
    that was made with [config] and came back with [o] at time [now]. *)
Definition attemptMetrics (serviceName : string) (config : HttpClient.Config.t) (now : Z)
           (o : Outcome) : list Event :=
  let durationMs := HttpClient.elapsedSince config now in
  let labels status := HttpClient.labelsOf serviceName (HttpClient.methodUpper config) status in
  let recorded status :=
    [ ECounterAdd "http.client.requests.total" 1 (labels status);
      EHistogramRecord "http.client.request.duration" durationMs (labels status) ] in
  match o with
  | Response status =>
      if HttpClient.validateStatus status then recorded status
      else recorded status ++ [ECounterAdd "http.client.requests.errors" 1 (labels status)]
  | NoResponse => recorded 0 ++ [ECounterAdd "http.client.requests.errors" 1 (labels 0)]
  end.

(** The sum of a list of delays. *)
Definition total (l : list Z) : Z := fold_right Z.add 0 l.

(** What [k] retries cost of the timeout budget when every attempt takes
    [latency] ms and the retry count stands at [retryCount]: the [k]
    attempts that failed and the [k] delays that follow them. *)
Definition backoffCost (latency baseDelay retryCount : Z) (k : nat) : Z :=
  Z.of_nat k * latency + baseDelay * 2 ^ retryCount * (2 ^ Z.of_nat k - 1).


(** A target that fails twice with 503 and then answers 200. *)
Definition flaky (i : nat) : Outcome :=
  if (i <? 2)%nat then Response 503 else Response 200.

Definition flakyWorld : World :=
  mkWorld 1000 None None (Some (mkPino "info")) true idStream 0 flaky 5 0 [] ∅.

(** The process of a caller that handles a request of correlation id
    [req-1] while the server span of the SDK is active. *)
Definition callerWorld (out : Outcome) : World :=
  mkWorld 0 (Some (Index.mkRequestContext (Some "req-1")
                     (Some "4bf92f3577b34da6a3ce929d0e0e4736") (Some "id-0")))
          (Some serverSpanContext) (Some (mkPino "info")) true
          idStream 0 (fun _ => out) 5 0 [] ∅.

(** What the plugin of a downstream service sets up when a request with
    headers [headersB] reaches it: the correlation id it settles on and the
    span it starts, with the parent that span was given. *)
Definition received (options : Plugin.PluginOptions) (method url : string)
           (route : option string) (headersB : gmap string string)
           (reply : Plugin.FastifyReply) (done : Plugin.Done) (w : World)
           (P : string -> Otel.SpanContext -> option Otel.SpanContext -> Prop) : Prop :=
  let request := incoming method url route headersB in
  exists (e : Entry) name attrs obj,
    Plugin.onRequest options request reply done w
    = (result (done (Plugin.set_span_and_context request (entry_span e)
                       (entry_context e (clock w)))
                    (Plugin.reply_header reply "x-request-id" (entry_correlationId e))
                    (entry_world e)),
       set_alsStore (alsStore w)
         (world (done (Plugin.set_span_and_context request (entry_span e)
                         (entry_context e (clock w)))
                      (Plugin.reply_header reply "x-request-id" (entry_correlationId e))
                      (entry_world e))),
       ESpanStart name (Otel.spanContext (entry_span e)) (entry_parent e) attrs
       :: logged w Level.info obj "Request received"
       ++ events (done (Plugin.set_span_and_context request (entry_span e)
                          (entry_context e (clock w)))
                       (Plugin.reply_header reply "x-request-id" (entry_correlationId e))
                       (entry_world e)))
    /\ P (entry_correlationId e) (Otel.spanContext (entry_span e)) (entry_parent e).

(** A handler that awaits one downstream call and replies with [status],
    with and without a try/catch around the call. *)
Definition awaiting (client : HttpClient.AxiosInstance) (c : HttpClient.AxiosRequestConfig)
           (status : Z) : Fastify.Handler :=
  Fastify.mkHandler [Fastify.Await client c] (Fastify.Send status).

Definition guarding (client : HttpClient.AxiosInstance) (c : HttpClient.AxiosRequestConfig)
           (status : Z) : Fastify.Handler :=
  Fastify.mkHandler [Fastify.TryAwait client c] (Fastify.Send status).

(* ===================================================================== *)
(** * Properties                                                          *)
(* ===================================================================== *)

(** ** Logger *)

Lemma optional_call_run l obj msg w :
  optional_call l obj msg w = (Js.Normal Js.undefined, w, logged w l obj msg).
Proof. unfold optional_call, logged. destruct (baseLogger w); reflexivity. Qed.

(** C10: before [init], every logger method returns normally and emits
    nothing: with [baseLogger] still undefined, [logger.info], [logger.error],
    [logger.warn] and [logger.debug] complete with [undefined], leave the
    process state as it is and produce no event. *)
Theorem logger_before_init_is_silent (obj : Fields) (msg : string) (w : World) :
  baseLogger w = None ->
  logger.info obj msg w = (Js.Normal Js.undefined, w, [])
  /\ logger.error obj msg w = (Js.Normal Js.undefined, w, [])
  /\ logger.warn obj msg w = (Js.Normal Js.undefined, w, [])
  /\ logger.debug obj msg w = (Js.Normal Js.undefined, w, []).
Proof.
  intros Hnone.
  unfold logger.info, logger.error, logger.warn, logger.debug.
  rewrite !optional_call_run. unfold logged. rewrite Hnone. auto.
Qed.

Lemma logger_before_init_is_silent_witness :
  baseLogger (world0 0 NoResponse) = None
  /\ logger.info [("userId", Js.num 123)] "Hello world" (world0 0 NoResponse)
     = (Js.Normal Js.undefined, world0 0 NoResponse, []).
Proof.
  split; [reflexivity |].
  apply (logger_before_init_is_silent [("userId", Js.num 123)] "Hello world"
           (world0 0 NoResponse)).
  reflexivity.
Defined.

(** After [init] the same call reaches pino. *)
Lemma logger_after_init obj msg :
  events (logger.info obj msg (worldInit 0 NoResponse)) = [ELog Level.info obj msg].
Proof. reflexivity. Qed.

(** The draft's logger has no optional call: before [init] it throws. *)
Remark draft_logger_before_init_throws obj msg w :
  baseLogger w = None ->
  exists m, result (Draft.logger.info obj msg w) = Js.Throw (Js.TypeError m).
Proof.
  intros H. unfold Draft.logger.info, member_call. rewrite H. eexists. reflexivity.
Qed.

(** ** The computation monad *)

Lemma bind_normal {A B} (m : M A) (k : A -> M B) w a w1 ev1 :
  m w = (Js.Normal a, w1, ev1) ->
  bind m k w = (result (k a w1), world (k a w1), ev1 ++ events (k a w1)).
Proof.
  intros H. unfold bind. rewrite H. destruct (k a w1) as [[r w2] ev2]. reflexivity.
Qed.

Lemma bind_throw {A B} (m : M A) (k : A -> M B) w e w1 ev1 :
  m w = (Js.Throw e, w1, ev1) -> bind m k w = (Js.Throw e, w1, ev1).
Proof. intros H. unfold bind. rewrite H. reflexivity. Qed.

Lemma catch_throw {A} (m : M A) (h : Js.error -> M A) w e w1 ev1 :
  m w = (Js.Throw e, w1, ev1) ->
  catch m h w = (result (h e w1), world (h e w1), ev1 ++ events (h e w1)).
Proof.
  intros H. unfold catch. rewrite H. destruct (h e w1) as [[r w2] ev2]. reflexivity.
Qed.

Lemma catch_normal {A} (m : M A) (h : Js.error -> M A) w a w1 ev1 :
  m w = (Js.Normal a, w1, ev1) -> catch m h w = (Js.Normal a, w1, ev1).
Proof. intros H. unfold catch. rewrite H. reflexivity. Qed.

Lemma forallb_app_true {A} (p : A -> bool) l1 l2 :
  forallb p l1 = true -> forallb p l2 = true -> forallb p (l1 ++ l2) = true.
Proof. intros H1 H2. rewrite forallb_app, H1, H2. reflexivity. Qed.



(** ** One pass of a request through the client *)

Lemma requestInterceptor_quiet svc cfg w :
  exists pre,
    HttpClient.requestInterceptor svc cfg w = (Js.Normal (annotate w cfg), w, pre)
    /\ forallb isTelemetry pre = true /\ filter isMetric pre = [].
Proof.
  unfold HttpClient.requestInterceptor, annotate.
  unfold bind, propagation_inject, getRequestContext, als_getStore, Date_now, ret,
    logger.debug.
  rewrite optional_call_run. cbn.
  eexists. split; [reflexivity|].
  unfold logged. destruct (baseLogger w); split; reflexivity.
Qed.

Lemma requestInterceptor_run svc cfg w :
  exists pre,
    HttpClient.requestInterceptor svc cfg w = (Js.Normal (annotate w cfg), w, pre)
    /\ forallb isTelemetry pre = true.
Proof.
  destruct (requestInterceptor_quiet svc cfg w) as (pre & H & Hpre & _). eauto.
Qed.

Lemma onFulfilled_metered svc status cfg w :
  exists post,
    HttpClient.onFulfilled svc (HttpClient.mkResponse status cfg) w
    = (Js.Normal (HttpClient.mkResponse status cfg), w, post)
    /\ forallb isTelemetry post = true
    /\ (HttpClient.validateStatus status = true ->
        filter isMetric post = attemptMetrics svc cfg (clock w) (Response status)).
Proof.
  unfold HttpClient.onFulfilled.
  unfold bind, getRequestContext, als_getStore, Date_now, ret, emit, logger.debug.
  rewrite optional_call_run. cbn.
  eexists. split; [reflexivity|].
  unfold logged, attemptMetrics.
  destruct (baseLogger w); (split; [reflexivity|]); intros ->; reflexivity.
Qed.

Lemma onRejected_metered svc cfg s w :
  (forall status, s = Some status -> HttpClient.validateStatus status = false) ->
  exists post,
    HttpClient.onRejected svc (Some cfg) (Js.AxiosError s) w = (Js.Throw (Js.AxiosError s), w, post)
    /\ forallb isTelemetry post = true
    /\ filter isMetric post
       = attemptMetrics svc cfg (clock w)
           (match s with Some status => Response status | None => NoResponse end).
Proof.
  intros Hs.
  unfold HttpClient.onRejected.
  unfold bind, getRequestContext, als_getStore, Date_now, ret, emit, throw, logger.error.
  rewrite optional_call_run. cbn.
  eexists. split; [reflexivity|].
  unfold logged, attemptMetrics.
  destruct s as [status|]; [rewrite (Hs status eq_refl)|];
    destruct (baseLogger w); split; reflexivity.
Qed.

Lemma onRetry_quiet svc rc e cfg w :
  exists post,
    HttpClient.onRetry svc rc e cfg w = (Js.Normal tt, w, post)
    /\ forallb isTelemetry post = true /\ filter isMetric post = [].
Proof.
  unfold HttpClient.onRetry.
  unfold bind, ret, logger.warn.
  rewrite optional_call_run. cbn.
  eexists. split; [reflexivity|].
  unfold logged. destruct (baseLogger w); split; reflexivity.
Qed.

Lemma adapter_run cfg w :
  HttpClient.adapter cfg w = (Js.Normal (target w (sent w)), afterAttempt w, [netEvent cfg]).
Proof. reflexivity. Qed.

Lemma sleep_run d w : sleep d w = (Js.Normal tt, afterDelay d w, [ESleep d]).
Proof. reflexivity. Qed.

(** One pass with its metric records, its response and axios-retry's
    decision spelled out. *)
Lemma dispatch_metered left client cfg w :
  let cfg1 := attemptConfig w cfg in
  let w1 := afterAttempt w in
  exists pre post,
    forallb isTelemetry pre = true /\ forallb isTelemetry post = true
    /\ filter isMetric pre = []
    /\ filter isMetric post
       = attemptMetrics (HttpClient.targetService client) cfg1 (clock w1) (target w (sent w))
    /\ match attemptError (target w (sent w)) with
       | None =>
           exists status,
             target w (sent w) = Response status
             /\ HttpClient.dispatch left client cfg w
                = (Js.Normal (HttpClient.mkResponse status cfg1), w1,
                   pre ++ netEvent cfg1 :: post)
       | Some e =>
           match retryDecision left (HttpClient.retry_ client) cfg1 (clock w1) e with
           | Some timeout =>
               let rc := HttpClient.Config.retryCount cfg + 1 in
               let d := HttpClient.retryDelay (HttpClient.retry_ client) rc in
               let r := HttpClient.dispatch (pred left) client
                          (HttpClient.Config.set_retryCount
                             (HttpClient.Config.set_timeout cfg1 timeout) rc)
                          (afterDelay d w1) in
               HttpClient.dispatch left client cfg w
               = (result r, world r, pre ++ netEvent cfg1 :: post ++ ESleep d :: events r)
           | None =>
               HttpClient.dispatch left client cfg w
               = (Js.Throw e, w1, pre ++ netEvent cfg1 :: post)
           end
       end.
Proof.
  intros cfg1 w1.
  set (svc := HttpClient.targetService client).
  set (retry := HttpClient.retry_ client).
  destruct (requestInterceptor_quiet svc
              (HttpClient.Config.set_lastRequestTime cfg (clock w)) w)
    as (pre & Hri & Hpre & Hpre0).
  fold (attemptConfig w cfg) in Hri. fold cfg1 in Hri.
  exists pre.
  assert (Hhead : forall k : HttpClient.Config.t -> Outcome -> M HttpClient.AxiosResponse,
    (do now <- Date_now;
     do config <- HttpClient.requestInterceptor svc
                    (HttpClient.Config.set_lastRequestTime cfg now);
     do outcome <- HttpClient.adapter config; k config outcome) w
    = (result (k cfg1 (target w (sent w)) w1), world (k cfg1 (target w (sent w)) w1),
       pre ++ netEvent cfg1 :: events (k cfg1 (target w (sent w)) w1))).
  { intros k.
    rewrite (bind_normal _ _ _ _ _ _ (eq_refl : Date_now w = (Js.Normal (clock w), w, []))).
    simpl_run. cbn [app].
    rewrite (bind_normal _ _ _ _ _ _ Hri).
    rewrite (bind_normal _ _ _ _ _ _ (adapter_run _ _)). simpl_run.
    reflexivity. }
  assert (Hrc : HttpClient.Config.retryCount cfg1 = HttpClient.Config.retryCount cfg).
  { unfold cfg1, attemptConfig, annotate, HttpClient.copyIfSet.
    repeat match goal with |- context [if ?b then _ else _] => destruct b end; reflexivity. }
  (* the retry itself: the warning, the delay, the request again *)
  assert (Hretry : forall left' e timeout,
    exists post2, forallb isTelemetry post2 = true /\ filter isMetric post2 = [] /\
    (exec HttpClient.onRetry svc (HttpClient.Config.retryCount cfg1 + 1) e
            (HttpClient.Config.set_timeout cfg1 timeout);
     exec sleep (HttpClient.retryDelay retry (HttpClient.Config.retryCount cfg1 + 1));
     HttpClient.dispatch left' client
       (HttpClient.Config.set_retryCount (HttpClient.Config.set_timeout cfg1 timeout)
          (HttpClient.Config.retryCount cfg1 + 1))) w1
    = (let d := HttpClient.retryDelay retry (HttpClient.Config.retryCount cfg + 1) in
       let r := HttpClient.dispatch left' client
                  (HttpClient.Config.set_retryCount
                     (HttpClient.Config.set_timeout cfg1 timeout)
                     (HttpClient.Config.retryCount cfg + 1))
                  (afterDelay d w1) in
       (result r, world r, post2 ++ ESleep d :: events r))).
  { intros left' e timeout. rewrite Hrc.
    destruct (onRetry_quiet svc (HttpClient.Config.retryCount cfg + 1) e
                (HttpClient.Config.set_timeout cfg1 timeout) w1)
      as (post2 & Hr & Hpost2 & Hq).
    exists post2. split; [exact Hpost2|]. split; [exact Hq|].
    rewrite (bind_normal _ _ _ _ _ _ Hr).
    rewrite (bind_normal _ _ _ _ _ _ (sleep_run _ _)). simpl_run. reflexivity. }
  (* what a rejected attempt comes to *)
  assert (Hrej : forall s,
    (forall status, s = Some status -> HttpClient.validateStatus status = false) ->
    target w (sent w) = match s with Some status => Response status | None => NoResponse end ->
    exists post,
      forallb isTelemetry post = true
      /\ filter isMetric post = attemptMetrics svc cfg1 (clock w1) (target w (sent w))
      /\ forall h : Js.error -> M HttpClient.AxiosResponse,
           catch (HttpClient.onRejected svc (Some cfg1) (Js.AxiosError s)) h w1
           = (result (h (Js.AxiosError s) w1), world (h (Js.AxiosError s) w1),
              post ++ events (h (Js.AxiosError s) w1))).
  { intros s Hs Ht.
    destruct (onRejected_metered svc cfg1 s w1 Hs) as (post & Hf & Hpost & Hm).
    exists post. rewrite Ht. split; [exact Hpost|]. split; [exact Hm|].
    intros h. apply (catch_throw _ _ _ _ _ _ Hf). }
  (* the decision of axios-retry, once its handler has the error *)
  assert (Hdecide : forall left' e,
    (if HttpClient.retryCondition retry e then
       do now <- Date_now;
       match HttpClient.retryTimeout cfg1 now
               (HttpClient.retryDelay retry (HttpClient.Config.retryCount cfg1 + 1)) with
       | None => throw e
       | Some timeout =>
           exec HttpClient.onRetry svc (HttpClient.Config.retryCount cfg1 + 1) e
                  (HttpClient.Config.set_timeout cfg1 timeout);
           exec sleep (HttpClient.retryDelay retry (HttpClient.Config.retryCount cfg1 + 1));
           HttpClient.dispatch left' client
             (HttpClient.Config.set_retryCount (HttpClient.Config.set_timeout cfg1 timeout)
                (HttpClient.Config.retryCount cfg1 + 1))
       end
     else throw e) w1
    = match retryDecision (S left') retry cfg1 (clock w1) e with
      | Some timeout =>
          (exec HttpClient.onRetry svc (HttpClient.Config.retryCount cfg1 + 1) e
                  (HttpClient.Config.set_timeout cfg1 timeout);
           exec sleep (HttpClient.retryDelay retry (HttpClient.Config.retryCount cfg1 + 1));
           HttpClient.dispatch left' client
             (HttpClient.Config.set_retryCount (HttpClient.Config.set_timeout cfg1 timeout)
                (HttpClient.Config.retryCount cfg1 + 1))) w1
      | None => (Js.Throw e, w1, [])
      end).
  { intros left' e. cbn [retryDecision].
    destruct (HttpClient.retryCondition retry e); [|reflexivity].
    rewrite (bind_normal _ _ _ _ _ _ (eq_refl : Date_now w1 = (Js.Normal (clock w1), w1, []))).
    destruct (HttpClient.retryTimeout cfg1 (clock w1) _); [|reflexivity].
    match goal with |- (result ?x, world ?x, [] ++ events ?x) = _ =>
      destruct x as [[r0 w0] ev0] end.
    reflexivity. }
  unfold attemptError.
  destruct (target w (sent w)) as [status|] eqn:Ht;
    [destruct (HttpClient.validateStatus status) eqn:Hv|].
  - (* answered *)
    destruct (onFulfilled_metered svc status cfg1 w1) as (post & Hf & Hpost & Hm).
    exists post. split; [exact Hpre|]. split; [exact Hpost|]. split; [exact Hpre0|].
    split; [exact (Hm Hv)|]. exists status. split; [reflexivity|].
    destruct left; cbn [HttpClient.dispatch]; fold svc retry; rewrite Hhead, Hv, Hf;
      reflexivity.
  - (* rejected with a status *)
    destruct (Hrej (Some status)) as (post & Hpost & Hm & Hcatch);
      [intros ? [= <-]; exact Hv|reflexivity|].
    destruct left as [|left'].
    + exists post. repeat (split; [assumption|]). cbn [retryDecision].
      cbn [HttpClient.dispatch]; fold svc retry. rewrite Hhead, Hv, Hcatch.
      cbn. rewrite app_nil_r. reflexivity.
    + cbn [pred].
      assert (Hgo : HttpClient.dispatch (S left') client cfg w
                    = match retryDecision (S left') retry cfg1 (clock w1)
                              (Js.AxiosError (Some status)) with
                      | Some timeout =>
                          let r := (exec HttpClient.onRetry svc
                                           (HttpClient.Config.retryCount cfg1 + 1)
                                           (Js.AxiosError (Some status))
                                           (HttpClient.Config.set_timeout cfg1 timeout);
                                    exec sleep (HttpClient.retryDelay retry
                                                  (HttpClient.Config.retryCount cfg1 + 1));
                                    HttpClient.dispatch left' client
                                      (HttpClient.Config.set_retryCount
                                         (HttpClient.Config.set_timeout cfg1 timeout)
                                         (HttpClient.Config.retryCount cfg1 + 1))) w1 in
                          (result r, world r, pre ++ netEvent cfg1 :: post ++ events r)
                      | None => (Js.Throw (Js.AxiosError (Some status)), w1,
                                 pre ++ netEvent cfg1 :: post)
                      end).
      { cbn [HttpClient.dispatch]; fold svc retry. rewrite Hhead, Hv, Hcatch, Hdecide.
        destruct (retryDecision _ _ _ _ _); simpl_run; [reflexivity|].
        rewrite app_nil_r. reflexivity. }
      rewrite Hgo. clear Hgo.
      destruct (retryDecision (S left') retry cfg1 (clock w1) (Js.AxiosError (Some status)))
        as [timeout|].
      * destruct (Hretry left' (Js.AxiosError (Some status)) timeout)
          as (post2 & Hpost2 & Hq & Hrun).
        exists (post ++ post2). split; [exact Hpre|].
        split; [apply forallb_app_true; assumption|]. split; [exact Hpre0|].
        split; [rewrite filter_app, Hq, app_nil_r; exact Hm|].
        cbv zeta. rewrite Hrun. simpl_run. rewrite <- app_assoc. reflexivity.
      * exists post. repeat (split; [assumption|]). reflexivity.
  - (* no response *)
    destruct (Hrej None) as (post & Hpost & Hm & Hcatch); [discriminate|reflexivity|].
    destruct left as [|left'].
    + exists post. repeat (split; [assumption|]). cbn [retryDecision].
      cbn [HttpClient.dispatch]; fold svc retry. rewrite Hhead, Hcatch.
      cbn. rewrite app_nil_r. reflexivity.
    + cbn [pred].
      assert (Hgo : HttpClient.dispatch (S left') client cfg w
                    = match retryDecision (S left') retry cfg1 (clock w1)
                              (Js.AxiosError None) with
                      | Some timeout =>
                          let r := (exec HttpClient.onRetry svc
                                           (HttpClient.Config.retryCount cfg1 + 1)
                                           (Js.AxiosError None)
                                           (HttpClient.Config.set_timeout cfg1 timeout);
                                    exec sleep (HttpClient.retryDelay retry
                                                  (HttpClient.Config.retryCount cfg1 + 1));
                                    HttpClient.dispatch left' client
                                      (HttpClient.Config.set_retryCount
                                         (HttpClient.Config.set_timeout cfg1 timeout)
                                         (HttpClient.Config.retryCount cfg1 + 1))) w1 in
                          (result r, world r, pre ++ netEvent cfg1 :: post ++ events r)
                      | None => (Js.Throw (Js.AxiosError None), w1,
                                 pre ++ netEvent cfg1 :: post)
                      end).
      { cbn [HttpClient.dispatch]; fold svc retry. rewrite Hhead, Hcatch, Hdecide.
        destruct (retryDecision _ _ _ _ _); simpl_run; [reflexivity|].
        rewrite app_nil_r. reflexivity. }
      rewrite Hgo. clear Hgo.
      destruct (retryDecision (S left') retry cfg1 (clock w1) (Js.AxiosError None))
        as [timeout|].
      * destruct (Hretry left' (Js.AxiosError None) timeout)
          as (post2 & Hpost2 & Hq & Hrun).
        exists (post ++ post2). split; [exact Hpre|].
        split; [apply forallb_app_true; assumption|]. split; [exact Hpre0|].
        split; [rewrite filter_app, Hq, app_nil_r; exact Hm|].
        cbv zeta. rewrite Hrun. simpl_run. rewrite <- app_assoc. reflexivity.
      * exists post. repeat (split; [assumption|]). reflexivity.
Qed.

(** ** Observations distribute over concatenation and ignore telemetry *)

Lemma attempts_app l1 l2 : attempts (l1 ++ l2) = (attempts l1 + attempts l2)%nat.
Proof. unfold attempts, count. rewrite filter_app, length_app. reflexivity. Qed.

Lemma delays_app l1 l2 : delays (l1 ++ l2) = delays l1 ++ delays l2.
Proof.
  induction l1 as [|e l1 IH]; [reflexivity|].
  destruct e; cbn; rewrite ?IH; reflexivity.
Qed.

Lemma sentHeaders_app l1 l2 : sentHeaders (l1 ++ l2) = sentHeaders l1 ++ sentHeaders l2.
Proof.
  induction l1 as [|e l1 IH]; [reflexivity|].
  destruct e; cbn; rewrite ?IH; reflexivity.
Qed.

Lemma telemetry_quiet l :
  forallb isTelemetry l = true ->
  attempts l = 0%nat /\ delays l = [] /\ sentHeaders l = [].
Proof.
  induction l as [|e l IH]; [auto|].
  cbn [forallb]. intros H. apply andb_true_iff in H as [He Hl].
  destruct (IH Hl) as (Ha & Hd & Hs).
  destruct e; cbn in He; try discriminate; cbn; auto.
Qed.

Lemma attempts_sleep d l : attempts (ESleep d :: l) = attempts l.
Proof. reflexivity. Qed.

(** One attempt surrounded by telemetry. *)
Lemma attempts_pass pre cfg post rest :
  forallb isTelemetry pre = true -> forallb isTelemetry post = true ->
  attempts (pre ++ netEvent cfg :: post ++ rest) = S (attempts rest).
Proof.
  intros Hpre Hpost.
  change (netEvent cfg :: post ++ rest) with ([netEvent cfg] ++ post ++ rest).
  rewrite !attempts_app.
  destruct (telemetry_quiet _ Hpre) as (-> & _ & _).
  destruct (telemetry_quiet _ Hpost) as (-> & _ & _).
  reflexivity.
Qed.

Lemma delays_pass pre cfg post rest :
  forallb isTelemetry pre = true -> forallb isTelemetry post = true ->
  delays (pre ++ netEvent cfg :: post ++ rest) = delays rest.
Proof.
  intros Hpre Hpost.
  change (netEvent cfg :: post ++ rest) with ([netEvent cfg] ++ post ++ rest).
  rewrite !delays_app.
  destruct (telemetry_quiet _ Hpre) as (_ & -> & _).
  destruct (telemetry_quiet _ Hpost) as (_ & -> & _).
  reflexivity.
Qed.

Lemma sentHeaders_pass pre cfg post rest :
  forallb isTelemetry pre = true -> forallb isTelemetry post = true ->
  sentHeaders (pre ++ netEvent cfg :: post ++ rest)
  = HttpClient.Config.headers cfg :: sentHeaders rest.
Proof.
  intros Hpre Hpost.
  change (netEvent cfg :: post ++ rest) with ([netEvent cfg] ++ post ++ rest).
  rewrite !sentHeaders_app.
  destruct (telemetry_quiet _ Hpre) as (_ & _ & ->).
  destruct (telemetry_quiet _ Hpost) as (_ & _ & ->).
  reflexivity.
Qed.

Lemma dispatch_shape left client cfg w : PassShape left client cfg w.
Proof.
  destruct (dispatch_metered left client cfg w)
    as (pre & post & Hpre & Hpost & _ & _ & H).
  destruct (attemptError (target w (sent w))) as [e|] eqn:Herr.
  - destruct (retryDecision left (HttpClient.retry_ client) (attemptConfig w cfg)
                (clock (afterAttempt w)) e) as [timeout|] eqn:Hs.
    + destruct left as [|left']; [discriminate|]. cbn [pred] in H.
      assert (Hc : HttpClient.retryCondition (HttpClient.retry_ client) e = true).
      { cbn [retryDecision] in Hs.
        destruct (HttpClient.retryCondition (HttpClient.retry_ client) e);
          [reflexivity|discriminate]. }
      eapply (PassRetry _ _ _ _ pre post e left' timeout); eauto.
    + eapply (PassFail _ _ _ _ pre post e); eauto. rewrite app_nil_r. exact H.
  - destruct H as (status & _ & H). eapply (PassOk _ _ _ _ pre post _); eauto.
    rewrite app_nil_r. exact H.
Qed.

(** A call makes at least one network attempt. *)
Lemma dispatch_attempts_pos left client cfg w :
  (1 <= attempts (events (HttpClient.dispatch left client cfg w)))%nat.
Proof.
  destruct (dispatch_shape left client cfg w) as [pre post resp Hpre Hpost _ ->
    | pre post e Hpre Hpost _ _ -> | pre post e left' tmo Hpre Hpost _ _ _ _ ->];
    cbn [events snd]; rewrite attempts_pass by assumption; lia.
Qed.

(** A call makes at most one attempt more than it has retries left. *)
Lemma dispatch_attempts_le left client : forall cfg w,
  (attempts (events (HttpClient.dispatch left client cfg w)) <= S left)%nat.
Proof.
  induction left as [|left IH]; intros cfg w.
  all: match goal with |- context [HttpClient.dispatch ?l _ _ _] =>
         destruct (dispatch_shape l client cfg w) as [pre post resp Hpre Hpost _ ->
           | pre post e Hpre Hpost _ _ ->
           | pre post e left' tmo Hpre Hpost _ Hl _ Hbudget ->] end.
  all: cbn [events snd]; rewrite attempts_pass by assumption; try (cbn; lia); try discriminate.
  injection Hl as <-. rewrite attempts_sleep.
  match goal with |- context [HttpClient.dispatch left client ?c ?w'] =>
    specialize (IH c w') end.
  lia.
Qed.

(** A call changes the clock and the attempt counter, nothing else. *)
Lemma dispatch_frame left client : forall cfg w,
  sameAmbient w (world (HttpClient.dispatch left client cfg w)).
Proof.
  induction left as [|left IH]; intros cfg w.
  all: match goal with |- context [HttpClient.dispatch ?l _ _ _] =>
         destruct (dispatch_shape l client cfg w) as [pre post resp Hpre Hpost _ ->
           | pre post e Hpre Hpost _ _ ->
           | pre post e left' tmo Hpre Hpost _ Hl _ Hbudget ->] end.
  all: cbn [world fst snd]; try (repeat split; reflexivity); try discriminate.
  injection Hl as <-.
  match goal with |- sameAmbient _ (world (HttpClient.dispatch _ _ ?c ?w')) =>
    specialize (IH c w') end.
  destruct IH as (H1 & H2 & H3 & H4 & H5 & H6 & H7).
  repeat split;
    [rewrite H1|rewrite H2|rewrite H3|rewrite H4|rewrite H5|rewrite H6|rewrite H7];
    reflexivity.
Qed.

(** The delays of a call are the retry delays of retry 1, 2, ... in order,
    one before each attempt after the first. *)
Lemma dispatch_delays left client : forall cfg w,
  delays (events (HttpClient.dispatch left client cfg w))
  = map (fun k => HttpClient.retryDelay (HttpClient.retry_ client)
                    (HttpClient.Config.retryCount cfg + 1 + Z.of_nat k))
        (seq 0 (attempts (events (HttpClient.dispatch left client cfg w)) - 1)).
Proof.
  induction left as [|left IH]; intros cfg w.
  all: match goal with |- context [HttpClient.dispatch ?l _ _ _] =>
         destruct (dispatch_shape l client cfg w) as [pre post resp Hpre Hpost _ ->
           | pre post e Hpre Hpost _ _ ->
           | pre post e left' tmo Hpre Hpost _ Hl _ Hbudget ->] end.
  all: cbn [events snd]; rewrite delays_pass, attempts_pass by assumption;
       try reflexivity; try discriminate.
  injection Hl as <-.
  cbn [delays]. rewrite attempts_sleep.
  rewrite IH. cbn [HttpClient.Config.set_retryCount HttpClient.Config.retryCount].
  match goal with |- context [HttpClient.dispatch ?l _ ?c ?w'] =>
    pose proof (dispatch_attempts_pos l client c w') as Hpos end.
  set (a := attempts _) in *.
  destruct a as [|a]; [lia|].
  replace (S (S a) - 1)%nat with (S a) by lia.
  replace (S a - 1)%nat with a by lia.
  cbn [seq map]. f_equal; [f_equal; lia|].
  rewrite <- seq_shift, map_map.
  apply map_ext. intros k. f_equal. lia.
Qed.

Lemma retryDelay_nonneg retry rc :
  0 <= Js.nullish (HttpClient.Retry.retryDelay retry) 1000 ->
  0 <= HttpClient.retryDelay retry rc.
Proof.
  intros H. unfold HttpClient.retryDelay. apply Z.mul_nonneg_nonneg; [exact H|].
  apply Z.pow_nonneg. lia.
Qed.

(** A timer never fires in less than a millisecond. *)
Lemma timerDelay_pos ms : 0 < timerDelay ms.
Proof.
  unfold timerDelay.
  destruct (_ || _) eqn:Hb; [lia|]. apply orb_false_iff in Hb as [Hb _].
  apply Z.ltb_ge in Hb. lia.
Qed.

(** The interceptor changes the headers and the start time of a config. *)
Lemma annotate_fields w cfg :
  HttpClient.Config.timeout (annotate w cfg) = HttpClient.Config.timeout cfg
  /\ HttpClient.Config.retryCount (annotate w cfg) = HttpClient.Config.retryCount cfg
  /\ HttpClient.Config.lastRequestTime (annotate w cfg)
     = HttpClient.Config.lastRequestTime cfg.
Proof.
  unfold annotate, HttpClient.copyIfSet.
  repeat match goal with |- context [if ?b then _ else _] => destruct b end;
    repeat split; reflexivity.
Qed.

(** The decision of axios-retry after a failed attempt, in numbers: with a
    retry left and an error the retry condition accepts, the request is
    re-issued unless the timeout, less the duration of the attempt and the
    delay to come, is used up. *)
Lemma retryDecision_budget left retry cfg w e :
  HttpClient.retryCondition retry e = true ->
  clock w <> 0 ->
  retryDecision (S left) retry (attemptConfig w cfg) (clock (afterAttempt w)) e
  = let timeout := HttpClient.Config.timeout cfg in
    let rest := timeout - latency w
                - HttpClient.retryDelay retry (HttpClient.Config.retryCount cfg + 1) in
    if timeout =? 0 then Some timeout
    else if rest <=? 0 then None else Some rest.
Proof.
  intros Hc Hclock. cbn [retryDecision]. rewrite Hc.
  unfold HttpClient.retryTimeout, attemptConfig.
  destruct (annotate_fields w (HttpClient.Config.set_lastRequestTime cfg (clock w)))
    as (-> & -> & ->).
  cbn [HttpClient.Config.set_lastRequestTime HttpClient.Config.timeout
       HttpClient.Config.retryCount HttpClient.Config.lastRequestTime
       afterAttempt clock set_clock set_sent].
  destruct (Z.eqb_spec (HttpClient.Config.timeout cfg) 0) as [->|Ht]; [reflexivity|].
  destruct (Z.eqb_spec (clock w) 0) as [?|_]; [contradiction|].
  cbn [orb]. cbv zeta.
  replace (clock w + latency w - clock w) with (latency w) by lia.
  reflexivity.
Qed.

(** A call whose attempts all fail with [e] ends with [e]. *)
Lemma dispatch_rejects e left client : forall cfg w,
  (forall i, attemptError (target w i) = Some e) ->
  result (HttpClient.dispatch left client cfg w) = Js.Throw e.
Proof.
  induction left as [|left IH]; intros cfg w Hall.
  all: match goal with |- context [HttpClient.dispatch ?l _ _ _] =>
         destruct (dispatch_shape l client cfg w) as [pre post resp Hpre Hpost Herr ->
           | pre post e' Hpre Hpost Herr Hs ->
           | pre post e' left' tmo Hpre Hpost Herr Hl _ Hbudget ->] end.
  all: rewrite Hall in Herr; try discriminate; try injection Herr as <-.
  all: cbn [result fst]; try reflexivity; try discriminate.
  injection Hl as <-. apply IH. exact Hall.
Qed.

Lemma backoffCost_0 latency baseDelay retryCount :
  backoffCost latency baseDelay retryCount 0 = 0.
Proof. unfold backoffCost. cbn. lia. Qed.

Lemma backoffCost_S retry latency retryCount k :
  0 <= retryCount ->
  backoffCost latency (Js.nullish (HttpClient.Retry.retryDelay retry) 1000) retryCount (S k)
  = latency + HttpClient.retryDelay retry (retryCount + 1)
    + backoffCost latency (Js.nullish (HttpClient.Retry.retryDelay retry) 1000)
        (retryCount + 1) k.
Proof.
  intros Hrc. unfold backoffCost, HttpClient.retryDelay.
  replace (retryCount + 1 - 1) with retryCount by lia.
  rewrite Nat2Z.inj_succ, Z.pow_succ_r, Z.pow_add_r by lia. cbv zeta.
  change (2 ^ 1) with 2. ring.
Qed.

Lemma backoffCost_nonneg latency baseDelay retryCount k :
  0 <= latency -> 0 <= baseDelay -> 0 <= backoffCost latency baseDelay retryCount k.
Proof.
  intros Hl Hb. unfold backoffCost.
  assert (0 <= 2 ^ retryCount) by (apply Z.pow_nonneg; lia).
  assert (0 < 2 ^ Z.of_nat k) by (apply Z.pow_pos_nonneg; lia).
  nia.
Qed.

(** Against a target that keeps failing with a retryable error, how far the
    retry loop gets is a matter of the retries left and of the timeout
    budget alone: retry [k] is made exactly when [k] retries are left and
    the attempts and delays up to it cost less than the timeout (or no
    timeout is set). *)
Lemma dispatch_affords e client : forall left cfg w k,
  (forall i, attemptError (target w i) = Some e) ->
  HttpClient.retryCondition (HttpClient.retry_ client) e = true ->
  0 < clock w -> 0 <= latency w ->
  0 <= Js.nullish (HttpClient.Retry.retryDelay (HttpClient.retry_ client)) 1000 ->
  0 <= HttpClient.Config.retryCount cfg ->
  0 <= HttpClient.Config.timeout cfg ->
  (S k <= attempts (events (HttpClient.dispatch left client cfg w)))%nat
  <-> (k <= left)%nat
      /\ (HttpClient.Config.timeout cfg = 0
          \/ backoffCost (latency w)
               (Js.nullish (HttpClient.Retry.retryDelay (HttpClient.retry_ client)) 1000)
               (HttpClient.Config.retryCount cfg) k
             < HttpClient.Config.timeout cfg).
Proof.
  induction left as [|left IH]; intros cfg w k Hall Hcond Hclock Hlat Hbase Hrc Ht.
  all: destruct k as [|k];
       [match goal with |- context [HttpClient.dispatch ?l _ _ _] =>
          pose proof (dispatch_attempts_pos l client cfg w) end;
        rewrite backoffCost_0; split; [intros _; split; lia|intros _; lia]|].
  all: match goal with |- context [HttpClient.dispatch ?l _ _ _] =>
         destruct (dispatch_shape l client cfg w) as [pre post resp Hpre Hpost Herr ->
           | pre post e' Hpre Hpost Herr Hs ->
           | pre post e' left' tmo Hpre Hpost Herr Hl _ Hbudget ->] end.
  all: rewrite Hall in Herr; try discriminate; try injection Herr as <-.
  all: try discriminate Hl.
  all: cbn [events snd]; rewrite attempts_pass by assumption.
  - cbn. split; [lia|intros [? _]; lia].
  - rewrite retryDecision_budget in Hs by (assumption || lia). cbv zeta in Hs.
    destruct (Z.eqb_spec (HttpClient.Config.timeout cfg) 0) as [?|Hne]; [discriminate|].
    destruct (Z.leb_spec (HttpClient.Config.timeout cfg - latency w
                          - HttpClient.retryDelay (HttpClient.retry_ client)
                              (HttpClient.Config.retryCount cfg + 1)) 0) as [Hover|?];
      [|discriminate].
    rewrite backoffCost_S by assumption.
    pose proof (backoffCost_nonneg (latency w)
                  (Js.nullish (HttpClient.Retry.retryDelay (HttpClient.retry_ client)) 1000)
                  (HttpClient.Config.retryCount cfg + 1) k Hlat Hbase).
    cbn. split; [lia|intros [_ [?|?]]; lia].
  - injection Hl as <-. rewrite attempts_sleep.
    rewrite retryDecision_budget in Hbudget by (assumption || lia). cbv zeta in Hbudget.
    pose proof (retryDelay_nonneg (HttpClient.retry_ client)
                  (HttpClient.Config.retryCount cfg + 1) Hbase) as Hd.
    pose proof (timerDelay_pos (HttpClient.retryDelay (HttpClient.retry_ client)
                                  (HttpClient.Config.retryCount cfg + 1))) as Htimer.
    match goal with |- context [HttpClient.dispatch left client ?c ?w'] =>
      specialize (IH c w' k) end.
    cbn [target clock latency afterDelay afterAttempt set_clock set_sent
         HttpClient.Config.set_retryCount HttpClient.Config.set_timeout
         HttpClient.Config.retryCount HttpClient.Config.timeout] in IH.
    rewrite backoffCost_S by assumption.
    destruct (Z.eqb_spec (HttpClient.Config.timeout cfg) 0) as [Hz|Hne].
    + injection Hbudget as <-.
      specialize (IH Hall Hcond ltac:(lia) Hlat Hbase ltac:(lia) ltac:(lia)).
      rewrite <- Nat.succ_le_mono, IH. split; intros [? _]; (split; [lia|left; exact Hz]).
    + destruct (Z.leb_spec (HttpClient.Config.timeout cfg - latency w
                            - HttpClient.retryDelay (HttpClient.retry_ client)
                                (HttpClient.Config.retryCount cfg + 1)) 0) as [?|Hpos];
        [discriminate|].
      injection Hbudget as <-.
      specialize (IH Hall Hcond ltac:(lia) Hlat Hbase ltac:(lia) ltac:(lia)).
      rewrite <- Nat.succ_le_mono, IH.
      split; intros [? [?|?]]; (split; [lia|right; lia]).
Qed.



(** The client answers with a response or with axios' error, nothing else. *)
Lemma dispatch_result left client : forall cfg w,
  (exists resp, result (HttpClient.dispatch left client cfg w) = Js.Normal resp)
  \/ (exists s, result (HttpClient.dispatch left client cfg w) = Js.Throw (Js.AxiosError s)).
Proof.
  induction left as [|left IH]; intros cfg w.
  all: match goal with |- context [HttpClient.dispatch ?l _ _ _] =>
         destruct (dispatch_shape l client cfg w) as [pre post resp Hpre Hpost Herr ->
           | pre post e' Hpre Hpost Herr Hs ->
           | pre post e' left' tmo Hpre Hpost Herr Hl _ Hbudget ->] end.
  all: cbn [result fst]; eauto; try discriminate.
  all: try (right; unfold attemptError in Herr;
            destruct (target w (sent w)) as [s|];
            [destruct (HttpClient.validateStatus s); [discriminate|]|];
            injection Herr as <-; eauto; fail).
  injection Hl as <-. apply IH.
Qed.

Lemma headers_annotate w cfg :
  HttpClient.Config.headers (annotate w cfg)
  = annotateHeaders (initialized w) (alsStore w) (otelActive w)
      (HttpClient.Config.headers cfg).
Proof.
  unfold annotate, annotateHeaders, HttpClient.copyIfSet.
  repeat match goal with |- context [if ?b then _ else _] => destruct b end; reflexivity.
Qed.

Lemma headers_attemptConfig w cfg :
  HttpClient.Config.headers (attemptConfig w cfg)
  = annotateHeaders (initialized w) (alsStore w) (otelActive w)
      (HttpClient.Config.headers cfg).
Proof. unfold attemptConfig. rewrite headers_annotate. reflexivity. Qed.

(** Every attempt of a call carries headers the interceptor produced in
    the ambient context of the call. *)
Lemma dispatch_sentHeaders (I : gmap string string -> Prop) registered store active client :
  (forall h, I h -> I (annotateHeaders registered store active h)) ->
  forall left cfg w,
    initialized w = registered -> alsStore w = store -> otelActive w = active ->
    I (HttpClient.Config.headers cfg) ->
    Forall (fun h => exists h0, I h0 /\ h = annotateHeaders registered store active h0)
           (sentHeaders (events (HttpClient.dispatch left client cfg w))).
Proof.
  intros Hclosed.
  induction left as [|left IH]; intros cfg w Hi Hs Ha HI.
  all: match goal with |- context [HttpClient.dispatch ?l _ _ _] =>
         destruct (dispatch_shape l client cfg w) as [pre post resp Hpre Hpost Herr ->
           | pre post e' Hpre Hpost Herr Hsr ->
           | pre post e' left' tmo Hpre Hpost Herr Hl _ Hbudget ->] end.
  all: cbn [events snd]; rewrite sentHeaders_pass by assumption; try discriminate.
  all: rewrite headers_attemptConfig, Hi, Hs, Ha.
  all: constructor; [exists (HttpClient.Config.headers cfg); auto|]; try constructor.
  injection Hl as <-. cbn [sentHeaders].
  apply IH; [exact Hi|exact Hs|exact Ha|].
  cbn [HttpClient.Config.set_retryCount HttpClient.Config.set_timeout
       HttpClient.Config.headers].
  rewrite headers_attemptConfig, Hi, Hs, Ha. auto.
Qed.

(** ** Clients made by the factory *)

(** The factory always returns a client; the client retries as [options]
    say, and the process state is as before except for the breaker object
    constructed on the side. *)
Lemma createHttpClient_run options w :
  exists client w1,
    HttpClient.createHttpClient options w = (Js.Normal client, w1, [])
    /\ HttpClient.retry_ client = HttpClient.retryOf options
    /\ HttpClient.targetService client = HttpClient.serviceName options
    /\ alsStore w1 = alsStore w /\ otelActive w1 = otelActive w
    /\ baseLogger w1 = baseLogger w /\ target w1 = target w.
Proof.
  unfold HttpClient.createHttpClient.
  destruct (HttpClient.breakerEnabled _);
    do 2 eexists; (split; [reflexivity|]); cbn; auto 10.
Qed.

Lemma created_retry options w client w1 evs :
  HttpClient.createHttpClient options w = (Js.Normal client, w1, evs) ->
  HttpClient.retry_ client = HttpClient.retryOf options.
Proof.
  intros H. destruct (createHttpClient_run options w) as (c & w' & Hrun & Hr & _).
  rewrite Hrun in H. injection H as <- _ _. exact Hr.
Qed.

Lemma created_timeout options w client w1 evs :
  HttpClient.createHttpClient options w = (Js.Normal client, w1, evs) ->
  HttpClient.defaults_timeout client = Js.nullish (HttpClient.timeout options) 30000.
Proof.
  unfold HttpClient.createHttpClient.
  destruct (HttpClient.breakerEnabled _); intros [= <- _ _]; reflexivity.
Qed.

(** A call through the client neither reads nor writes a breaker, and never
    fails with the breaker's rejection. *)
Lemma request_ignores_breakers client c w :
  breakers (world (HttpClient.request client c w)) = breakers w
  /\ (1 <= attempts (events (HttpClient.request client c w)))%nat
  /\ result (HttpClient.request client c w) <> Js.Throw Js.OpenBreakerError.
Proof.
  unfold HttpClient.request. split; [|split].
  - apply dispatch_frame.
  - apply dispatch_attempts_pos.
  - destruct (dispatch_result (Z.to_nat (HttpClient.retries (HttpClient.retry_ client)))
                client (HttpClient.mergeConfig client c) w) as [[resp ->]|[s ->]];
      discriminate.
Qed.

(** Sent through [fire], a call to an open breaker is rejected before any
    event is produced. *)
Lemma fire_open_rejects i b client c w :
  breakers w !! i = Some b ->
  Opossum.stateAt (clock w) b = Opossum.open ->
  result (HttpClient.fire i client c w) = Js.Throw Js.OpenBreakerError
  /\ events (HttpClient.fire i client c w) = [].
Proof.
  intros Hb Hopen. unfold HttpClient.fire, bind, get.
  rewrite Hb, Hopen. cbn. auto.
Qed.

(** Ten failing calls sent through [fire] open the breaker, and the
    eleventh is rejected without a network attempt. *)
Lemma wired_breaker_would_open :
  withClient (authOptions None) (worldInit 0 (Response 500)) (fun client w1 =>
    let w11 := world (repeatFire 10 0 client validateToken w1) in
    let r := HttpClient.fire 0 client validateToken w11 in
    (Opossum.state <$> breakers w11) = [Opossum.open]
    /\ result r = Js.Throw Js.OpenBreakerError
    /\ attempts (events r) = 0%nat).
Proof. vm_compute. auto. Qed.

(** C1, evaluated on the code: the factory constructs the breaker (closed,
    threshold 50, volume 10) and returns the bare client.  After ten calls
    that all failed the breaker is still closed with nothing counted, and
    the eleventh call goes to the network (four attempts) and fails with the
    target's 500, not with the breaker's rejection. *)
Theorem breaker_never_gates_calls :
  withClient (authOptions None) (worldInit 0 (Response 500)) (fun client w1 =>
    let w11 := world (repeatCall 10 client validateToken w1) in
    let r := HttpClient.request client validateToken w11 in
    breakers w1 = [Opossum.new (Opossum.mkOptions 30000 30000 50 10)]
    /\ sent w11 = 40%nat
    /\ breakers w11 = breakers w1
    /\ attempts (events r) = 4%nat
    /\ result r = Js.Throw (Js.AxiosError (Some 500))).
Proof. vm_compute. auto 10. Qed.

(** ** Retry budget *)

(** C2, as the code has it: [retries] counts retries, not attempts, and
    axios-retry charges every retry to the client's timeout.  A client made
    with [retries = n], base delay [baseDelay] and timeout [timeout] calls a
    target that answers 503 every time (503 being in its retryable set), each
    attempt taking [latency] ms.  Then retry number [k] is made exactly when
    [k <= n] and the [k] failed attempts and the [k] delays before it cost
    less than the timeout, [k * latency + baseDelay * (2^k - 1) < timeout],
    or no timeout is set.  So the call makes at most [n + 1] attempts, all of
    them when the timeout covers the whole schedule, waits one delay before
    every attempt but the first, and then rejects with the 503 error; the
    call is a total function of the state, so it ends. *)
Theorem retries_exhausted_after_one_more_attempt
        options w client w1 evs (c : HttpClient.AxiosRequestConfig) (w2 : World) :
  HttpClient.createHttpClient options w = (Js.Normal client, w1, evs) ->
  (forall i, target w2 i = Response 503) ->
  In 503 (Js.nullish (HttpClient.Retry.retryStatusCodes (HttpClient.retryOf options))
            [408; 429; 500; 502; 503; 504]) ->
  0 < clock w2 -> 0 <= latency w2 ->
  let n := Z.to_nat (Js.nullish (HttpClient.Retry.retries (HttpClient.retryOf options)) 3) in
  let baseDelay := Js.nullish (HttpClient.Retry.retryDelay (HttpClient.retryOf options)) 1000 in
  let timeout := Js.nullish (HttpClient.timeout options) 30000 in
  0 <= baseDelay -> 0 <= timeout ->
  let r := HttpClient.request client c w2 in
  (forall k : nat,
     (S k <= attempts (events r))%nat
     <-> (k <= n)%nat
         /\ (timeout = 0
             \/ Z.of_nat k * latency w2 + baseDelay * (2 ^ Z.of_nat k - 1) < timeout))
  /\ (attempts (events r) <= S n)%nat
  /\ length (delays (events r)) = (attempts (events r) - 1)%nat
  /\ result r = Js.Throw (Js.AxiosError (Some 503)).
Proof.
  intros Hmk Htarget Hin Hclock Hlat n baseDelay timeout Hbase Htimeout r.
  pose proof (created_retry _ _ _ _ _ Hmk) as Hretry.
  pose proof (created_timeout _ _ _ _ _ Hmk) as Htmo.
  assert (Hcond : HttpClient.retryCondition (HttpClient.retry_ client)
                    (Js.AxiosError (Some 503)) = true).
  { rewrite Hretry. unfold HttpClient.retryCondition. cbn [HttpClient.responseStatus].
    apply existsb_exists. exists 503. split; [exact Hin|reflexivity]. }
  assert (Hfail : forall i, attemptError (target w2 i) = Some (Js.AxiosError (Some 503))).
  { intros i. rewrite Htarget. reflexivity. }
  subst r. unfold HttpClient.request.
  split; [|split; [|split]].
  - intros k.
    rewrite (dispatch_affords (Js.AxiosError (Some 503)) client _ _ w2 k Hfail Hcond Hclock Hlat).
    + cbn [HttpClient.mergeConfig HttpClient.Config.timeout HttpClient.Config.retryCount].
      unfold backoffCost, HttpClient.retries. rewrite Hretry, Htmo.
      fold n baseDelay timeout. change (2 ^ 0) with 1. rewrite Z.mul_1_r. reflexivity.
    + rewrite Hretry. exact Hbase.
    + cbn. lia.
    + cbn [HttpClient.mergeConfig HttpClient.Config.timeout]. rewrite Htmo. exact Htimeout.
  - pose proof (dispatch_attempts_le (Z.to_nat (HttpClient.retries (HttpClient.retry_ client)))
                  client (HttpClient.mergeConfig client c) w2) as Hle.
    apply (Nat.le_trans _ _ _ Hle). unfold HttpClient.retries. rewrite Hretry. apply le_n.
  - rewrite dispatch_delays at 1. rewrite length_map, length_seq. reflexivity.
  - apply dispatch_rejects. exact Hfail.
Qed.

Lemma retries_exhausted_after_one_more_attempt_witness :
  withClient (authOptions (Some (HttpClient.Retry.mk (Some 3) None None)))
             (world0 1000 (Response 503)) (fun client w1 =>
    let r := HttpClient.request client validateToken w1 in
    attempts (events r) = 4%nat
    /\ length (delays (events r)) = 3%nat
    /\ result r = Js.Throw (Js.AxiosError (Some 503))).
Proof.
  set (options := authOptions (Some (HttpClient.Retry.mk (Some 3) None None))).
  unfold withClient.
  destruct (HttpClient.createHttpClient options (world0 1000 (Response 503)))
    as [[[client|e] w1] evs] eqn:Hmk; [|discriminate Hmk].
  assert (Hw : w1 = set_breakers [Opossum.new (Opossum.mkOptions 30000 30000 50 10)]
                      (world0 1000 (Response 503))).
  { injection Hmk as _ <- _. reflexivity. }
  destruct (retries_exhausted_after_one_more_attempt options (world0 1000 (Response 503))
              client w1 evs validateToken w1 Hmk) as (Hk & Hle & Hlen & Hres).
  - rewrite Hw. intros i. reflexivity.
  - vm_compute. tauto.
  - rewrite Hw. reflexivity.
  - rewrite Hw. discriminate.
  - discriminate.
  - discriminate.
  - assert (Hfour : (4 <= attempts (events (HttpClient.request client validateToken w1)))%nat).
    { apply (proj2 (Hk 3%nat)). rewrite Hw. split; [vm_compute; lia|right; reflexivity]. }
    change (Z.to_nat (Js.nullish (HttpClient.Retry.retries (HttpClient.retryOf options)) 3))
      with 3%nat in Hle.
    cbv zeta.
    assert (Ha : attempts (events (HttpClient.request client validateToken w1)) = 4%nat)
      by lia.
    rewrite Ha in Hlen. rewrite Ha. auto.
Defined.

(** C2 as stated fails: with [retries = 3] the always-503 target is tried
    four times, not three. *)
Lemma three_retries_are_four_attempts :
  withClient (authOptions (Some (HttpClient.Retry.mk (Some 3) None None)))
             (worldInit 1000 (Response 503)) (fun client w1 =>
    attempts (events (HttpClient.request client validateToken w1)) <> 3%nat).
Proof. vm_compute. discriminate. Qed.

(** The timeout budget at work, evaluated: with [retries = 5] the default
    timeout of 30000 ms pays for four retries (the fifth would bring the
    cost to 5 * 5 + 31000), and a timeout of 500 ms pays for none. *)
Example timeout_budget_stops_retrying :
  withClient (authOptions (Some (HttpClient.Retry.mk (Some 5) None None)))
             (worldInit 1000 (Response 503)) (fun client w1 =>
    let r := HttpClient.request client validateToken w1 in
    attempts (events r) = 5%nat /\ delays (events r) = [1000; 2000; 4000; 8000])
  /\ withClient (HttpClient.mkOptions "http://neoiq-auth-service:3000" "auth-service"
                   (Some 500) None None None)
                (worldInit 1000 (Response 503)) (fun client w1 =>
       let r := HttpClient.request client validateToken w1 in
       attempts (events r) = 1%nat /\ delays (events r) = []).
Proof. vm_compute. auto. Qed.

(** ** Backoff *)

(** C3: whenever a call gets as far as its [n]-th retry ([n >= 1]), the
    delay waited before that retry is [baseDelay * 2^(n-1)], where
    [baseDelay] is the client's [retry.retryDelay] or 1000; this is the value
    [retryConfig.retryDelay] returns for retry count [n]. *)
Theorem backoff_delay_doubles
        options w client w1 evs (c : HttpClient.AxiosRequestConfig) (w2 : World) (n : nat) :
  HttpClient.createHttpClient options w = (Js.Normal client, w1, evs) ->
  (1 <= n)%nat ->
  (n < attempts (events (HttpClient.request client c w2)))%nat ->
  let baseDelay := Js.nullish (HttpClient.Retry.retryDelay (HttpClient.retryOf options)) 1000 in
  delays (events (HttpClient.request client c w2)) !! (n - 1)%nat
  = Some (baseDelay * 2 ^ (Z.of_nat n - 1))
  /\ HttpClient.retryDelay (HttpClient.retry_ client) (Z.of_nat n)
     = baseDelay * 2 ^ (Z.of_nat n - 1).
Proof.
  intros Hmk Hn Hlt baseDelay.
  pose proof (created_retry _ _ _ _ _ Hmk) as Hretry.
  assert (Hformula : HttpClient.retryDelay (HttpClient.retry_ client) (Z.of_nat n)
                     = baseDelay * 2 ^ (Z.of_nat n - 1)).
  { unfold HttpClient.retryDelay. rewrite Hretry. reflexivity. }
  split; [|exact Hformula].
  unfold HttpClient.request in *. rewrite dispatch_delays.
  rewrite list_lookup_fmap.
  rewrite lookup_seq_lt by lia.
  cbn [fmap option_fmap option_map HttpClient.mergeConfig HttpClient.Config.retryCount].
  rewrite <- Hformula. do 2 f_equal. lia.
Qed.

Lemma backoff_delay_doubles_witness :
  withClient (authOptions None) (world0 0 (Response 503)) (fun client w1 =>
    delays (events (HttpClient.request client validateToken w1)) !! 2%nat = Some 4000
    /\ HttpClient.retryDelay (HttpClient.retry_ client) 3 = 4000).
Proof.
  set (options := authOptions None). unfold withClient.
  destruct (HttpClient.createHttpClient options (world0 0 (Response 503)))
    as [[[client|e] w1] evs] eqn:Hmk; [|discriminate Hmk].
  apply (backoff_delay_doubles options (world0 0 (Response 503))
           client w1 evs validateToken w1 3%nat Hmk).
  - lia.
  - injection Hmk as <- <- _. vm_compute. lia.
Defined.

(** The whole schedule for [baseDelayMs = 1000]. *)
Example backoff_schedule_1000 :
  withClient (authOptions (Some (HttpClient.Retry.mk None (Some 1000) None)))
             (worldInit 0 (Response 503)) (fun client w1 =>
    delays (events (HttpClient.request client validateToken w1)) = [1000; 2000; 4000]).
Proof. vm_compute. reflexivity. Qed.

(** The draft multiplies instead: its third delay is 3000. *)
Remark draft_backoff_is_linear : Draft.retryDelay (Some 1000) <$> [1; 2; 3] = [1000; 2000; 3000].
Proof. reflexivity. Qed.

(** ** Retry condition *)





(** The draft retries every 5xx and no 4xx: 429 is given up, 501 retried. *)
Remark draft_retry_condition_differs :
  Draft.retryCondition (Js.AxiosError (Some 429)) = false
  /\ Draft.retryCondition (Js.AxiosError (Some 501)) = true
  /\ HttpClient.retryCondition (HttpClient.retry_ authClient) (Js.AxiosError (Some 429)) = true
  /\ HttpClient.retryCondition (HttpClient.retry_ authClient) (Js.AxiosError (Some 501)) = false.
Proof. repeat split. Qed.

(** ** Calls outside any context *)

Lemma annotateHeaders_no_store registered active h0 :
  annotateHeaders registered None active h0 !! "x-request-id" = h0 !! "x-request-id".
Proof.
  unfold annotateHeaders. cbn [HttpClient.correlationIdOf Js.truthy].
  destruct (Js.truthy (Otel.inject registered active !! "traceparent"));
    destruct (Js.truthy (Otel.inject registered active !! "tracestate"));
    rewrite ?(lookup_insert_ne _ "tracestate" "x-request-id") by discriminate;
    rewrite ?(lookup_insert_ne _ "traceparent" "x-request-id") by discriminate;
    reflexivity.
Qed.

Lemma inject_nothing registered : Otel.inject registered None = ∅.
Proof. destruct registered; reflexivity. Qed.

Lemma annotateHeaders_no_span registered store h0 :
  annotateHeaders registered store None h0 !! "traceparent" = h0 !! "traceparent"
  /\ annotateHeaders registered store None h0 !! "tracestate" = h0 !! "tracestate".
Proof.
  unfold annotateHeaders. rewrite inject_nothing, !lookup_empty. cbn [Js.truthy].
  destruct (Js.truthy (HttpClient.correlationIdOf store)); [|auto].
  split; apply lookup_insert_ne; discriminate.
Qed.

(** C9: a call made with no request context proceeds.  With no ALS store
    the interceptor adds no [x-request-id]; with no active span context it
    adds no [traceparent] and no [tracestate]; with neither, every attempt
    carries exactly the caller's and the instance's own headers.  In each
    case the interceptor returns normally, the call goes out (at least one
    network attempt), and it ends with a response or with axios' error for
    the target's answer, never with an error about the context. *)
Theorem call_without_context_proceeds
        (client : HttpClient.AxiosInstance) (c : HttpClient.AxiosRequestConfig) (w : World) :
  let cfg := HttpClient.mergeConfig client c in
  let h0 := HttpClient.req_headers c ∪ HttpClient.defaults_headers client in
  let r := HttpClient.request client c w in
  (alsStore w = None ->
   Forall (fun h : gmap string string => h !! "x-request-id" = h0 !! "x-request-id")
          (sentHeaders (events r)))
  /\ (otelActive w = None ->
      Forall (fun h : gmap string string =>
                h !! "traceparent" = h0 !! "traceparent"
                /\ h !! "tracestate" = h0 !! "tracestate")
             (sentHeaders (events r)))
  /\ (alsStore w = None -> otelActive w = None ->
      Forall (fun h => h = h0) (sentHeaders (events r))
      /\ exists evs,
           HttpClient.requestInterceptor (HttpClient.targetService client) cfg w
           = (Js.Normal (HttpClient.Config.set_startTime cfg (clock w)), w, evs))
  /\ (1 <= attempts (events r))%nat
  /\ ((exists resp, result r = Js.Normal resp)
      \/ (exists s, result r = Js.Throw (Js.AxiosError s))).
Proof.
  intros cfg h0 r. subst r. unfold HttpClient.request. fold cfg.
  split; [|split; [|split; [|split]]].
  - intros Hals.
    eapply Forall_impl;
      [apply (dispatch_sentHeaders
                (fun h : gmap string string => h !! "x-request-id" = h0 !! "x-request-id")
                (initialized w) None (otelActive w) client); auto|].
    + intros h Hh. rewrite annotateHeaders_no_store. exact Hh.
    + intros h (h1 & Hh1 & ->). rewrite annotateHeaders_no_store. exact Hh1.
  - intros Hotel.
    eapply Forall_impl;
      [apply (dispatch_sentHeaders
                (fun h : gmap string string =>
                   h !! "traceparent" = h0 !! "traceparent"
                   /\ h !! "tracestate" = h0 !! "tracestate")
                (initialized w) (alsStore w) None client); auto|].
    + intros h [H1 H2].
      destruct (annotateHeaders_no_span (initialized w) (alsStore w) h) as [-> ->]. auto.
    + intros h (h1 & [H1 H2] & ->).
      destruct (annotateHeaders_no_span (initialized w) (alsStore w) h1) as [-> ->]. auto.
  - intros Hals Hotel. split.
    + eapply Forall_impl;
        [apply (dispatch_sentHeaders (fun h => h = h0) (initialized w) None None client);
         auto|].
      * intros h ->. unfold annotateHeaders. rewrite inject_nothing. reflexivity.
      * intros h (h1 & -> & ->). unfold annotateHeaders. rewrite inject_nothing. reflexivity.
    + destruct (requestInterceptor_run (HttpClient.targetService client) cfg w)
        as (pre & Hrun & _).
      exists pre. rewrite Hrun. unfold annotate. rewrite Hals, Hotel, inject_nothing.
      reflexivity.
  - apply dispatch_attempts_pos.
  - apply dispatch_result.
Qed.

Lemma call_without_context_proceeds_witness :
  alsStore (world0 0 (Response 200)) = None
  /\ otelActive (world0 0 (Response 200)) = None
  /\ (1 <= attempts (events (HttpClient.request authClient validateToken
                               (world0 0 (Response 200)))))%nat
  /\ Forall (fun h => h = HttpClient.req_headers validateToken
                          ∪ HttpClient.defaults_headers authClient)
            (sentHeaders (events (HttpClient.request authClient validateToken
                                    (world0 0 (Response 200))))).
Proof.
  split; [reflexivity|]. split; [reflexivity|].
  destruct (call_without_context_proceeds authClient validateToken
              (world0 0 (Response 200))) as (_ & _ & Hboth & Hpos & _).
  destruct (Hboth eq_refl eq_refl) as [Hall _].
  split; [exact Hpos|exact Hall].
Defined.

Example authClient_is_created w :
  result (HttpClient.createHttpClient (authOptions None) w) = Js.Normal authClient.
Proof. reflexivity. Qed.

(** ** Lifecycle hooks *)

Lemma als_run_run {A} store (m : M A) w :
  als_run store m w
  = (result (m (set_alsStore (Some store) w)),
     set_alsStore (alsStore w) (world (m (set_alsStore (Some store) w))),
     events (m (set_alsStore (Some store) w))).
Proof.
  unfold als_run. destruct (m (set_alsStore (Some store) w)) as [[r w1] ev]. reflexivity.
Qed.

(** What onResponse produces before it calls [done], for a request that
    carries a context: the completion log (if the logger is up), the two
    metrics, the error counter for a status of 400 or more, and then the
    span's status, attributes and end. *)
Lemma onResponse_run options request reply done ctx w :
  Plugin.__requestContext request = Some ctx ->
  let d := clock w - Plugin.startTime ctx in
  let wS := set_alsStore (Some (Plugin.storeOf ctx)) w in
  let labels :=
    [ ("method", Js.str (Plugin.method request));
      ("route", Js.str (Plugin.routeOf request));
      ("status_code", Js.str (Js.String_ (Plugin.statusCode reply))) ] in
  exists obj,
    In ("durationMs", Js.num d) obj
    /\ In ("statusCode", Js.num (Plugin.statusCode reply)) obj
    /\ Plugin.onResponse options request reply done w
       = (result (done request reply wS),
          set_alsStore (alsStore w) (world (done request reply wS)),
          logged w Level.info obj "Request completed"
          ++ [ ECounterAdd "http.server.requests.total" 1 labels;
               EHistogramRecord "http.server.request.duration" d labels ]
          ++ (if 400 <=? Plugin.statusCode reply
              then [ECounterAdd "http.server.requests.errors" 1 labels] else [])
          ++ match Plugin.__span request with
             | Some span =>
                 [ ESpanSetStatus (span_id span)
                     (if Plugin.statusCode reply <? 400 then Otel.OK else Otel.ERROR) None;
                   ESpanSetAttribute (span_id span) "http.status_code"
                     (Js.num (Plugin.statusCode reply));
                   ESpanSetAttribute (span_id span) "http.response_time_ms" (Js.num d);
                   ESpanEnd (span_id span) ]
             | None => []
             end
          ++ events (done request reply wS)).
Proof.
  intros Hctx d wS labels.
  eexists. split; [|split]; cycle 2.
  - unfold Plugin.onResponse. rewrite Hctx.
    rewrite (bind_normal _ _ _ _ _ _ (eq_refl : Date_now w = (Js.Normal (clock w), w, []))).
    rewrite als_run_run. fold wS. fold d.
    unfold logger.info.
    rewrite (bind_normal _ _ _ _ _ _ (optional_call_run _ _ _ _)).
    change (logged wS) with (logged w).
    unfold Plugin.span_setStatus, Plugin.span_setAttribute, Plugin.span_end, bind, emit, ret.
    destruct (400 <=? Plugin.statusCode reply); destruct (Plugin.__span request) as [span|];
      cbn; destruct (done request reply wS) as [[r w1] ev]; cbn;
      rewrite ?app_nil_r; reflexivity.
  - cbn. auto 10.
  - cbn. auto 10.
Qed.

Lemma onError_run options request reply message stack done ctx w :
  Plugin.__requestContext request = Some ctx ->
  let wS := set_alsStore (Some (Plugin.storeOf ctx)) w in
  exists obj,
    Plugin.onError options request reply message stack done w
    = (result (done request reply wS),
       set_alsStore (alsStore w) (world (done request reply wS)),
       logged w Level.error obj "Request failed"
       ++ match Plugin.__span request with
          | Some span =>
              [ ESpanSetStatus (span_id span) Otel.ERROR (Some message);
                ESpanRecordException (span_id span) message ]
          | None => []
          end
       ++ events (done request reply wS)).
Proof.
  intros Hctx wS.
  eexists.
  unfold Plugin.onError. rewrite Hctx.
  rewrite als_run_run. fold wS.
  unfold logger.error.
  rewrite (bind_normal _ _ _ _ _ _ (optional_call_run _ _ _ _)).
  change (logged wS) with (logged w).
  unfold Plugin.span_setStatus, Plugin.span_recordException, bind, emit, ret.
  destruct (Plugin.__span request) as [span|];
    cbn; destruct (done request reply wS) as [[r w1] ev]; cbn;
    rewrite ?app_nil_r; reflexivity.
Qed.

(** Without a context on the request, onResponse and onError only call
    [done]. *)
Lemma onResponse_without_context options request reply done :
  Plugin.__requestContext request = None ->
  Plugin.onResponse options request reply done = done request reply.
Proof. intros H. unfold Plugin.onResponse. rewrite H. reflexivity. Qed.

Lemma onError_without_context options request reply message stack done :
  Plugin.__requestContext request = None ->
  Plugin.onError options request reply message stack done = done request reply.
Proof. intros H. unfold Plugin.onError. rewrite H. reflexivity. Qed.

Lemma onRequest_excluded options request reply done :
  Plugin.isExcluded options request = true ->
  Plugin.onRequest options request reply done = done request reply.
Proof. intros H. unfold Plugin.onRequest. rewrite H. reflexivity. Qed.


Lemma set_nextId_same w : set_nextId (nextId w) w = w.
Proof. destruct w; reflexivity. Qed.

(** The span [startSpan] returns, with or without the SDK: it is of the
    trace of its parent when the parent context holds a valid span context. *)
Lemma startSpan_run name attrs parentContext w :
  exists span k,
    startSpan name attrs parentContext w
    = (Js.Normal span, set_nextId k w,
       [ESpanStart name (Otel.spanContext span) (validParent parentContext) attrs])
    /\ (forall p, validParent parentContext = Some p ->
          Otel.traceId (Otel.spanContext span) = Otel.traceId p).
Proof.
  unfold startSpan.
  rewrite (bind_normal _ _ _ _ _ _ (eq_refl : get w = (Js.Normal w, w, []))).
  cbn [app].
  destruct (initialized w); destruct (validParent parentContext) as [p|].
  - exists (Otel.mkSpan (Otel.mkSpanContext (Otel.traceId p) (ids w (nextId w))
                           (Otel.traceFlags p) (Otel.traceState p))), (S (nextId w)).
    split; [reflexivity|]. intros p0 [= <-]. reflexivity.
  - exists (Otel.mkSpan (Otel.mkSpanContext (ids w (nextId w)) (ids w (S (nextId w)))
                           "01" None)), (S (S (nextId w))).
    split; [reflexivity|]. discriminate.
  - exists (Otel.mkSpan p), (nextId w). rewrite set_nextId_same.
    split; [reflexivity|]. intros p0 [= <-]. reflexivity.
  - exists (Otel.mkSpan Otel.INVALID_SPAN_CONTEXT), (nextId w). rewrite set_nextId_same.
    split; [reflexivity|]. discriminate.
Qed.

Lemma onRequest_run options request reply done w :
  Plugin.isExcluded options request = false ->
  exists (e : Entry) name attrs obj,
    let ctx := entry_context e (clock w) in
    let request1 := Plugin.set_span_and_context request (entry_span e) ctx in
    let reply1 := Plugin.reply_header reply "x-request-id" (entry_correlationId e) in
    let wS := entry_world e in
    entered request w e
    /\ Plugin.onRequest options request reply done w
       = (result (done request1 reply1 wS),
          set_alsStore (alsStore w) (world (done request1 reply1 wS)),
          ESpanStart name (Otel.spanContext (entry_span e)) (entry_parent e) attrs
          :: logged w Level.info obj "Request received"
          ++ events (done request1 reply1 wS)).
Proof.
  intros Hex.
  unfold Plugin.onRequest. rewrite Hex.
  assert (Hcorr : exists k,
    Plugin.correlationIdOf request w
    = (Js.Normal (if Js.truthy (Plugin.headers request !! "x-request-id")
                  then Js.or_else (Plugin.headers request !! "x-request-id") ""
                  else ids w (nextId w)),
       set_nextId k w, [])).
  { unfold Plugin.correlationIdOf.
    destruct (Js.truthy (Plugin.headers request !! "x-request-id")).
    - exists (nextId w). destruct w; reflexivity.
    - eexists; reflexivity. }
  destruct Hcorr as (k & Hcorr).
  set (corr := if Js.truthy (Plugin.headers request !! "x-request-id")
               then Js.or_else (Plugin.headers request !! "x-request-id") ""
               else ids w (nextId w)) in *.
  rewrite (bind_normal _ _ _ _ _ _ Hcorr).
  rewrite (bind_normal _ _ _ _ _ _
             (eq_refl : propagation_extract (Plugin.headers request) (set_nextId k w)
                        = (_, set_nextId k w, []))).
  cbn [otelActive initialized set_nextId].
  match goal with |- context [startSpan ?n ?a ?p] =>
    destruct (startSpan_run n a p (set_nextId k w)) as (span & k' & Hspan & Htid) end.
  rewrite (bind_normal _ _ _ _ _ _ Hspan).
  rewrite (bind_normal _ _ _ _ _ _
             (eq_refl : Date_now (set_nextId k' (set_nextId k w)) = (_, _, []))).
  rewrite als_run_run.
  unfold logger.info.
  rewrite (bind_normal _ _ _ _ _ _ (optional_call_run _ _ _ _)).
  exists (mkEntry corr span
            (validParent (Otel.extract (initialized w) (otelActive w)
                            (Plugin.headers request)))
            (set_alsStore (Some (Plugin.storeOf (Plugin.mkRequestContext corr
                 (Otel.traceId (Otel.spanContext span))
                 (Otel.spanId (Otel.spanContext span)) (clock w))))
               (set_nextId k' (set_nextId k w)))).
  do 3 eexists.
  unfold entered.
  cbn [entry_correlationId entry_span entry_parent entry_world entry_context].
  split; [repeat (split; [reflexivity || exact Htid|]); reflexivity|].
  cbn [result world events fst snd app].
  reflexivity.
Qed.

(** ** Handlers *)


Lemma telemetry_is_client l :
  forallb isTelemetry l = true -> forallb isClientEvent l = true.
Proof.
  intros H. rewrite forallb_forall in *. intros e He.
  unfold isClientEvent. rewrite (H e He). reflexivity.
Qed.

(** A call produces logs, metrics, network attempts and delays only. *)
Lemma dispatch_client_events left client : forall cfg w,
  forallb isClientEvent (events (HttpClient.dispatch left client cfg w)) = true.
Proof.
  induction left as [|left IH]; intros cfg w.
  all: match goal with |- context [HttpClient.dispatch ?l _ _ _] =>
         destruct (dispatch_shape l client cfg w) as [pre post resp Hpre Hpost _ ->
           | pre post e Hpre Hpost _ _ ->
           | pre post e left' tmo Hpre Hpost _ Hl _ Hbudget ->] end.
  all: cbn [events snd]; try discriminate.
  all: rewrite forallb_app; cbn [forallb]; rewrite forallb_app; cbn [forallb].
  all: rewrite (telemetry_is_client _ Hpre), (telemetry_is_client _ Hpost); try reflexivity.
  injection Hl as <-. rewrite IH. reflexivity.
Qed.

Lemma sameAmbient_refl w : sameAmbient w w.
Proof. repeat split. Qed.

Lemma sameAmbient_trans w1 w2 w3 : sameAmbient w1 w2 -> sameAmbient w2 w3 -> sameAmbient w1 w3.
Proof.
  intros (A1 & A2 & A3 & A4 & A5 & A6 & A7) (B1 & B2 & B3 & B4 & B5 & B6 & B7).
  repeat split; congruence.
Qed.


Lemma wellBehaved_request client c : wellBehaved (HttpClient.request client c).
Proof.
  intros w. unfold HttpClient.request. split; [|split].
  - apply dispatch_frame.
  - apply dispatch_client_events.
  - eapply Forall_impl;
      [apply (dispatch_sentHeaders (fun _ => True) (initialized w) (alsStore w)
                (otelActive w)); auto|].
    intros h (h0 & _ & ->). eauto.
Qed.

Lemma wellBehaved_ret {A} (a : A) : wellBehaved (ret a).
Proof. intros w. cbn. split; [apply sameAmbient_refl|]. split; [reflexivity|constructor]. Qed.

Lemma wellBehaved_throw {A} e : wellBehaved (@throw A e).
Proof. intros w. cbn. split; [apply sameAmbient_refl|]. split; [reflexivity|constructor]. Qed.

Lemma wellBehaved_bind {A B} (m : M A) (k : A -> M B) :
  wellBehaved m -> (forall a, wellBehaved (k a)) -> wellBehaved (bind m k).
Proof.
  intros Hm Hk w. destruct (Hm w) as (Hf & Hc & Hh).
  unfold bind. destruct (m w) as [[[a|e] w1] ev1]; cbn [world events fst snd] in *.
  - destruct (Hk a w1) as (Hf2 & Hc2 & Hh2).
    destruct (k a w1) as [[r w2] ev2]; cbn [world events fst snd] in *.
    split; [eapply sameAmbient_trans; eauto|]. split.
    + rewrite forallb_app, Hc, Hc2. reflexivity.
    + rewrite sentHeaders_app. apply Forall_app. split; [exact Hh|].
      destruct Hf as (E1 & E2 & _ & _ & _ & _ & E7). rewrite E1, E2, E7 in Hh2. exact Hh2.
  - auto.
Qed.

Lemma wellBehaved_catch {A} (m : M A) (h : Js.error -> M A) :
  wellBehaved m -> (forall e, wellBehaved (h e)) -> wellBehaved (catch m h).
Proof.
  intros Hm Hk w. destruct (Hm w) as (Hf & Hc & Hh).
  unfold catch. destruct (m w) as [[[a|e] w1] ev1]; cbn [world events fst snd] in *.
  - auto.
  - destruct (Hk e w1) as (Hf2 & Hc2 & Hh2).
    destruct (h e w1) as [[r w2] ev2]; cbn [world events fst snd] in *.
    split; [eapply sameAmbient_trans; eauto|]. split.
    + rewrite forallb_app, Hc, Hc2. reflexivity.
    + rewrite sentHeaders_app. apply Forall_app. split; [exact Hh|].
      destruct Hf as (E1 & E2 & _ & _ & _ & _ & E7). rewrite E1, E2, E7 in Hh2. exact Hh2.
Qed.

Lemma wellBehaved_runStep s : wellBehaved (Fastify.runStep s).
Proof.
  destruct s as [client c|client c|ms|obj msg]; cbn [Fastify.runStep].
  - apply wellBehaved_bind; [apply wellBehaved_request|intros; apply wellBehaved_ret].
  - apply wellBehaved_catch; [|intros; apply wellBehaved_ret].
    apply wellBehaved_bind; [apply wellBehaved_request|intros; apply wellBehaved_ret].
  - intros w. cbn. split; [repeat split|]. split; [reflexivity|constructor].
  - apply wellBehaved_bind; [|intros; apply wellBehaved_ret].
    intros w. unfold logger.info. rewrite optional_call_run. cbn [world events fst snd].
    split; [apply sameAmbient_refl|]. unfold logged.
    destruct (baseLogger w); (split; [reflexivity|constructor]).
Qed.

Lemma wellBehaved_runHandler h : wellBehaved (Fastify.runHandler h).
Proof.
  unfold Fastify.runHandler. apply wellBehaved_bind.
  - induction (Fastify.steps h) as [|s l IH]; cbn [Fastify.runSteps].
    + apply wellBehaved_ret.
    + apply wellBehaved_bind; [apply wellBehaved_runStep|intros; exact IH].
  - intros _. destruct (Fastify.ending h); [apply wellBehaved_ret|apply wellBehaved_throw].
Qed.

(** Two names that part ways after a common prefix. *)
Lemma prefix_diverge p a b x y s :
  a <> b ->
  String.prefix (p +:+ String a x) s = true ->
  String.prefix (p +:+ String b y) s = false.
Proof.
  intros Hab. revert s.
  induction p as [|c p IH]; intros [|d s]; simpl; try discriminate; auto.
  - destruct (Ascii.ascii_dec a d) as [->|]; [|discriminate]. intros _.
    destruct (Ascii.ascii_dec b d); [congruence|reflexivity].
  - destruct (Ascii.ascii_dec c d); [apply IH|discriminate].
Qed.

Lemma client_name_is_not_server name :
  String.prefix "http.client." name = true -> String.prefix "http.server." name = false.
Proof.
  apply (prefix_diverge "http." _ _ "lient." "erver."). discriminate.
Qed.

Lemma client_events_no_server_metrics l :
  forallb isClientEvent l = true -> count isServerMetric l = 0%nat.
Proof.
  induction l as [|e l IH]; [reflexivity|].
  cbn [forallb]. intros H. apply andb_true_iff in H as [He Hl].
  specialize (IH Hl). unfold count in *. rewrite filter_cons.
  destruct (decide (isServerMetric e)) as [Hs|Hs]; [|exact IH].
  exfalso. apply Is_true_true in Hs.
  unfold isClientEvent in He.
  destruct e; cbn [isServerMetric] in Hs; try discriminate;
    cbn [isTelemetry isNetwork isSleep] in He; rewrite !orb_false_r in He;
    rewrite (client_name_is_not_server _ He) in Hs; discriminate.
Qed.

Lemma client_events_no_spans l :
  forallb isClientEvent l = true -> count isSpanEvent l = 0%nat.
Proof.
  induction l as [|e l IH]; [reflexivity|].
  cbn [forallb]. intros H. apply andb_true_iff in H as [He Hl].
  specialize (IH Hl). destruct e; cbn in He; try discriminate; exact IH.
Qed.

(** ** One request through the lifecycle *)

Lemma settle_run {A} (m : M A) w :
  Fastify.settle m w = (Js.Normal (result (m w)), world (m w), events (m w)).
Proof. unfold Fastify.settle. destruct (m w) as [[r w1] ev]. reflexivity. Qed.

(** The events of a request that is not excluded: the span start and the
    "received" log, then the handler's own events, then the exit hooks. *)
Lemma handleRequest_run options h request reply w :
  Plugin.isExcluded options request = false ->
  exists (e : Entry) name attrs obj,
    let ctx := entry_context e (clock w) in
    let request1 := Plugin.set_span_and_context request (entry_span e) ctx in
    let reply1 := Plugin.reply_header reply "x-request-id" (entry_correlationId e) in
    let rh := Fastify.runHandler h (entry_world e) in
    entered request w e
    /\ events (Fastify.handleRequest options h request reply w)
       = ESpanStart name (Otel.spanContext (entry_span e)) (entry_parent e) attrs
         :: logged w Level.info obj "Request received"
         ++ events rh ++ exitEvents options request1 reply1 rh.
Proof.
  intros Hex. unfold Fastify.handleRequest.
  match goal with |- context [Plugin.onRequest options request reply ?d w] =>
    destruct (onRequest_run options request reply d w Hex)
      as (e & name & attrs & obj & Hent & Hrun) end.
  exists e, name, attrs, obj. split; [exact Hent|].
  rewrite Hrun. cbn [events snd]. do 2 f_equal.
  rewrite (bind_normal _ _ _ _ _ _ (settle_run _ _)). cbn [events snd].
  f_equal. unfold exitEvents.
  destruct (result (Fastify.runHandler h (entry_world e))); reflexivity.
Qed.

(** The reply to a request whose handler raised goes out with a status of
    400 or more. *)
Lemma errorStatus_is_error e : (400 <=? Fastify.errorStatus e) = true.
Proof.
  unfold Fastify.errorStatus.
  destruct e as [| | |]; try reflexivity.
  all: repeat match goal with
         | |- context [match ?x with _ => _ end] => destruct x eqn:?
         end; try reflexivity; assumption.
Qed.

Lemma errorStatus_not_ok e : (Fastify.errorStatus e <? 400) = false.
Proof.
  pose proof (errorStatus_is_error e) as H. apply Z.leb_le in H. apply Z.ltb_ge. exact H.
Qed.

(** The exit hooks, for a request that carries context and span.  The
    span is ended once, as the last event, whatever the logger.  With the
    logger up there is one "completed" record, and a "failed" record exactly
    when the handler raised, written before the "completed" one; before
    [init] there is neither. *)
Lemma exit_records options request reply rh ctx span :
  Plugin.__requestContext request = Some ctx ->
  Plugin.__span request = Some span ->
  let exit := exitEvents options request reply rh in
  spansEnded exit = 1%nat
  /\ spansStarted exit = 0%nat
  /\ sentHeaders exit = []
  /\ (exists before, exit = before ++ [ESpanEnd (span_id span)])
  /\ (baseLogger (world rh) = None -> completed exit = 0%nat /\ failed exit = 0%nat)
  /\ (forall p, baseLogger (world rh) = Some p ->
        completed exit = 1%nat
        /\ failed exit = match result rh with Js.Normal _ => 0%nat | Js.Throw _ => 1%nat end
        /\ (forall err, result rh = Js.Throw err ->
              exists obj1 obj2 between after,
                exit = ELog Level.error obj1 "Request failed" :: between
                       ++ ELog Level.info obj2 "Request completed" :: after
                /\ completed between = 0%nat /\ failed between = 0%nat
                /\ completed after = 0%nat /\ failed after = 0%nat)).
Proof.
  intros Hctx Hspan exit. subst exit. unfold exitEvents.
  destruct (result rh) as [statusCode|err].
  - destruct (onResponse_run options request (Fastify.with_status reply statusCode)
                Fastify.finish ctx (world rh) Hctx) as (obj & _ & _ & ->).
    cbn [events snd]. rewrite Hspan. unfold logged.
    cbn [Fastify.with_status Plugin.statusCode Fastify.finish ret events snd].
    destruct (baseLogger (world rh)) as [p0|]; destruct (400 <=? statusCode); cbn [app].
    all: do 3 (split; [reflexivity|]).
    all: split; [match goal with |- exists b, ?l = b ++ _ =>
                   exists (removelast l); reflexivity end|].
    all: split; [intros Hnone; try discriminate Hnone; split; reflexivity|].
    all: intros p Hp; try discriminate Hp.
    all: split; [reflexivity|]; split; [reflexivity|]; intros err0 Herr0; discriminate Herr0.
  - match goal with |- context [Plugin.onError options request reply ?m ?s ?d (world rh)] =>
      destruct (onError_run options request reply m s d ctx (world rh) Hctx) as (obj & ->) end.
    cbn [events snd].
    destruct (onResponse_run options request
                (Fastify.with_status reply (Fastify.errorStatus err))
                Fastify.finish ctx
                (set_alsStore (Some (Plugin.storeOf ctx)) (world rh)) Hctx)
      as (obj2 & _ & _ & ->).
    cbn [events snd]. rewrite Hspan. unfold logged. cbn [baseLogger set_alsStore].
    cbn [Fastify.with_status Plugin.statusCode Fastify.finish ret events snd app].
    rewrite errorStatus_is_error.
    destruct (baseLogger (world rh)) as [p0|]; cbn [app].
    all: do 3 (split; [reflexivity|]).
    all: split; [match goal with |- exists b, ?l = b ++ _ =>
                   exists (removelast l); reflexivity end|].
    all: split; [intros Hnone; try discriminate Hnone; split; reflexivity|].
    all: intros p Hp; try discriminate Hp.
    split; [reflexivity|]. split; [reflexivity|]. intros err0 _.
    do 2 eexists.
    exists [ESpanSetStatus (span_id span) Otel.ERROR (Some (Js.message err));
            ESpanRecordException (span_id span) (Js.message err)].
    eexists. split; [reflexivity|]. repeat split; reflexivity.
Qed.

(** onError by itself leaves the span open: it is onResponse, which Fastify
    runs after it, that ends the span. *)
Remark onError_alone_leaves_span_open options request reply message ctx span p w :
  Plugin.__requestContext request = Some ctx ->
  Plugin.__span request = Some span ->
  baseLogger w = Some p ->
  spansEnded (events (Plugin.onError options request reply message None Fastify.finish w))
  = 0%nat
  /\ failed (events (Plugin.onError options request reply message None Fastify.finish w))
     = 1%nat.
Proof.
  intros Hctx Hspan Hlog.
  destruct (onError_run options request reply message None Fastify.finish ctx w Hctx)
    as (obj & ->).
  cbn [events snd]. rewrite Hspan. unfold logged. rewrite Hlog.
  split; reflexivity.
Qed.

(** ** Excluded routes *)

Lemma count_app p l1 l2 : count p (l1 ++ l2) = (count p l1 + count p l2)%nat.
Proof. unfold count. rewrite filter_app, length_app. reflexivity. Qed.

Lemma count_le p q l :
  (forall e, p e = true -> q e = true) -> (count p l <= count q l)%nat.
Proof.
  intros Hpq. induction l as [|e l IH]; [reflexivity|].
  unfold count in *. rewrite !filter_cons.
  destruct (decide (p e)) as [Hp|Hp]; destruct (decide (q e)) as [Hq|Hq]; cbn; try lia.
  exfalso. apply Hq. apply Is_true_true. apply Hpq. apply Is_true_true. exact Hp.
Qed.

(** The lifecycle of a request that onRequest excludes is the handler. *)
Lemma handleRequest_excluded options h request reply w :
  Plugin.isExcluded options request = true ->
  Plugin.__requestContext request = None ->
  Fastify.handleRequest options h request reply w
  = (Js.Normal tt, world (Fastify.runHandler h w), events (Fastify.runHandler h w)).
Proof.
  intros Hex Hctx.
  unfold Fastify.handleRequest. rewrite (onRequest_excluded _ _ _ _ Hex).
  rewrite (bind_normal _ _ _ _ _ _ (settle_run _ _)).
  destruct (result (Fastify.runHandler h w)) as [statusCode|err].
  - rewrite onResponse_without_context by exact Hctx.
    cbn. rewrite app_nil_r. reflexivity.
  - rewrite onError_without_context by exact Hctx.
    rewrite onResponse_without_context by exact Hctx.
    cbn. rewrite app_nil_r. reflexivity.
Qed.

Lemma handler_has_no_server_metrics h w :
  count isServerMetric (events (Fastify.runHandler h w)) = 0%nat.
Proof. apply client_events_no_server_metrics, wellBehaved_runHandler. Qed.

Lemma handler_has_no_spans h w :
  count isSpanEvent (events (Fastify.runHandler h w)) = 0%nat
  /\ spansStarted (events (Fastify.runHandler h w)) = 0%nat
  /\ spansEnded (events (Fastify.runHandler h w)) = 0%nat.
Proof.
  assert (H0 : count isSpanEvent (events (Fastify.runHandler h w)) = 0%nat)
    by apply client_events_no_spans, wellBehaved_runHandler.
  pose proof (count_le isSpanStart isSpanEvent (events (Fastify.runHandler h w))) as H1.
  pose proof (count_le isSpanEnd isSpanEvent (events (Fastify.runHandler h w))) as H2.
  unfold spansStarted, spansEnded.
  specialize (H1 ltac:(intros [] ?; auto)). specialize (H2 ltac:(intros [] ?; auto)).
  repeat split; lia.
Qed.


(** C7: for a request whose url starts with one of the excluded prefixes,
    each hook does nothing but call [done] (no span, no metric, no log, no
    context installed on the request), also when onResponse and onError find
    no context; the request runs to its end, and the events of the whole
    lifecycle are the handler's own: no span event and no [http.server.*]
    metric among them. *)
Theorem excluded_route_is_left_alone
        (options : Plugin.PluginOptions) (h : Fastify.Handler)
        (method url : string) (route : option string) (headers : gmap string string)
        (reply : Plugin.FastifyReply) (w : World) :
  let request := incoming method url route headers in
  Plugin.isExcluded options request = true ->
  (forall done, Plugin.onRequest options request reply done = done request reply)
  /\ (forall done, Plugin.onResponse options request reply done = done request reply)
  /\ (forall done message stack,
        Plugin.onError options request reply message stack done = done request reply)
  /\ result (Fastify.handleRequest options h request reply w) = Js.Normal tt
  /\ events (Fastify.handleRequest options h request reply w)
     = events (Fastify.runHandler h w)
  /\ count isSpanEvent (events (Fastify.handleRequest options h request reply w)) = 0%nat
  /\ count isServerMetric (events (Fastify.handleRequest options h request reply w))
     = 0%nat.
Proof.
  intros request Hex.
  pose proof (handleRequest_excluded options h request reply w Hex eq_refl) as Hev.
  split; [intros; apply onRequest_excluded; exact Hex|].
  split; [intros; apply onResponse_without_context; reflexivity|].
  split; [intros; apply onError_without_context; reflexivity|].
  rewrite Hev. cbn [result events fst snd].
  split; [reflexivity|]. split; [reflexivity|].
  split; [apply handler_has_no_spans|apply handler_has_no_server_metrics].
Qed.

Lemma excluded_route_is_left_alone_witness :
  Plugin.isExcluded pluginOptions healthRequest = true
  /\ result (Fastify.handleRequest pluginOptions okHandler healthRequest freshReply
               (worldInit 0 (Response 200))) = Js.Normal tt
  /\ events (Fastify.handleRequest pluginOptions okHandler healthRequest freshReply
               (worldInit 0 (Response 200)))
     = events (Fastify.runHandler okHandler (worldInit 0 (Response 200)))
  /\ count isServerMetric
       (events (Fastify.handleRequest pluginOptions okHandler healthRequest freshReply
                  (worldInit 0 (Response 200)))) = 0%nat.
Proof.
  split; [reflexivity|].
  destruct (excluded_route_is_left_alone pluginOptions okHandler "GET" "/health"
              (Some "/health") inboundHeaders freshReply (worldInit 0 (Response 200))
              eq_refl) as (_ & _ & _ & Hr & He & _ & Hm).
  split; [exact Hr|]. split; [exact He|exact Hm].
Defined.

(** ** Order of effects in onResponse *)

(** C8: in onResponse, for a request that carries its context and span,
    everything is computed from one duration [d = now - startTime] and comes
    before the span is ended: the request counter, the duration histogram
    with [d], the span attribute with [d], and (once the logger is up) the
    completion log with [d]; the span is ended once, and after it the hook
    only calls [done]. *)
Theorem telemetry_precedes_span_end
        (options : Plugin.PluginOptions) (request : Plugin.FastifyRequest)
        (reply : Plugin.FastifyReply) (done : Plugin.Done)
        (ctx : Plugin.RequestContext) (span : Otel.Span) (w : World) :
  Plugin.__requestContext request = Some ctx ->
  Plugin.__span request = Some span ->
  let d := clock w - Plugin.startTime ctx in
  let labels :=
    [ ("method", Js.str (Plugin.method request));
      ("route", Js.str (Plugin.routeOf request));
      ("status_code", Js.str (Js.String_ (Plugin.statusCode reply))) ] in
  exists before,
    events (Plugin.onResponse options request reply done w)
    = before ++ ESpanEnd (span_id span)
      :: events (done request reply (set_alsStore (Some (Plugin.storeOf ctx)) w))
    /\ In (ECounterAdd "http.server.requests.total" 1 labels) before
    /\ In (EHistogramRecord "http.server.request.duration" d labels) before
    /\ In (ESpanSetAttribute (span_id span) "http.response_time_ms" (Js.num d)) before
    /\ (forall p, baseLogger w = Some p ->
          exists obj, In (ELog Level.info obj "Request completed") before
                      /\ In ("durationMs", Js.num d) obj)
    /\ spansEnded before = 0%nat.
Proof.
  intros Hctx Hspan d labels.
  destruct (onResponse_run options request reply done ctx w Hctx) as (obj & Hd & _ & Hrun).
  rewrite Hrun. cbn [events snd]. rewrite Hspan. fold d. fold labels.
  eexists (logged w Level.info obj "Request completed"
           ++ [ECounterAdd "http.server.requests.total" 1 labels;
               EHistogramRecord "http.server.request.duration" d labels]
           ++ (if 400 <=? Plugin.statusCode reply
               then [ECounterAdd "http.server.requests.errors" 1 labels] else [])
           ++ [ESpanSetStatus (span_id span)
                 (if Plugin.statusCode reply <? 400 then Otel.OK else Otel.ERROR) None;
               ESpanSetAttribute (span_id span) "http.status_code"
                 (Js.num (Plugin.statusCode reply));
               ESpanSetAttribute (span_id span) "http.response_time_ms" (Js.num d)]).
  split; [|split; [|split; [|split; [|split]]]].
  - rewrite <- !app_assoc. reflexivity.
  - apply in_or_app. right. cbn. auto.
  - apply in_or_app. right. cbn. auto.
  - apply in_or_app. right. apply in_or_app. right. apply in_or_app. right. cbn. auto.
  - intros p Hp. exists obj. split; [|exact Hd].
    apply in_or_app. left. unfold logged. rewrite Hp. cbn. auto.
  - unfold logged. destruct (baseLogger w); destruct (400 <=? Plugin.statusCode reply);
      reflexivity.
Qed.

Lemma telemetry_precedes_span_end_witness :
  exists before,
    events (Plugin.onResponse pluginOptions tracedRequest freshReply Fastify.finish
              (worldInit 42 NoResponse))
    = before ++ [ESpanEnd "id-0"]
    /\ In (EHistogramRecord "http.server.request.duration" 42
             [ ("method", Js.str "GET"); ("route", Js.str "/api/v1/reports/:reportId");
               ("status_code", Js.str "200") ]) before
    /\ spansEnded before = 0%nat.
Proof.
  destruct (telemetry_precedes_span_end pluginOptions tracedRequest freshReply
              Fastify.finish tracedContext tracedSpan (worldInit 42 NoResponse)
              eq_refl eq_refl) as (before & H1 & _ & H3 & _ & _ & H6).
  exists before. split; [exact H1|]. split; [exact H3|exact H6].
Defined.

(** ** Terminal records and span closure *)

(** C6, as the code has it.  A request that is not excluded opens one span
    on entry; the handler produces no span event; after the handler, both on
    the success path and on the error path (where onError runs and then
    onResponse), the span is ended once, as the last event.  The records are
    the logger's: once [init] has set the logger up, one "Request completed"
    record is written on either path, and on the error path a "Request
    failed" record is written as well, first, with "Request completed" after
    it; before [init] neither is written.  An excluded request opens no span
    and gets no record: its events are the handler's. *)
Theorem span_closed_once_completion_always_recorded
        (options : Plugin.PluginOptions) (h : Fastify.Handler)
        (method url : string) (route : option string) (headers : gmap string string)
        (reply : Plugin.FastifyReply) (w : World) :
  let request := incoming method url route headers in
  let evs := events (Fastify.handleRequest options h request reply w) in
  (Plugin.isExcluded options request = true ->
   evs = events (Fastify.runHandler h w)
   /\ spansStarted evs = 0%nat /\ spansEnded evs = 0%nat)
  /\ (Plugin.isExcluded options request = false ->
      exists entry wH exit sid,
        evs = entry ++ events (Fastify.runHandler h wH) ++ exit
        /\ spansStarted entry = 1%nat /\ spansEnded entry = 0%nat
        /\ completed entry = 0%nat /\ failed entry = 0%nat
        /\ count isSpanEvent (events (Fastify.runHandler h wH)) = 0%nat
        /\ spansStarted exit = 0%nat /\ spansEnded exit = 1%nat
        /\ (exists name sc parent attrs rest,
              entry = ESpanStart name sc parent attrs :: rest /\ Otel.spanId sc = sid)
        /\ (exists before, exit = before ++ [ESpanEnd sid])
        /\ spansStarted evs = 1%nat /\ spansEnded evs = 1%nat
        /\ (baseLogger w = None -> completed exit = 0%nat /\ failed exit = 0%nat)
        /\ (forall p, baseLogger w = Some p ->
              completed exit = 1%nat
              /\ failed exit = match result (Fastify.runHandler h wH) with
                               | Js.Normal _ => 0%nat
                               | Js.Throw _ => 1%nat
                               end
              /\ (forall err, result (Fastify.runHandler h wH) = Js.Throw err ->
                    exists obj1 obj2 between after,
                      exit = ELog Level.error obj1 "Request failed" :: between
                             ++ ELog Level.info obj2 "Request completed" :: after
                      /\ completed between = 0%nat /\ failed between = 0%nat
                      /\ completed after = 0%nat /\ failed after = 0%nat))).
Proof.
  intros request evs. split.
  - intros Hex. subst evs.
    rewrite (handleRequest_excluded options h request reply w Hex eq_refl).
    cbn [events snd]. split; [reflexivity|]. apply handler_has_no_spans.
  - intros Hex.
    destruct (handleRequest_run options h request reply w Hex)
      as (e & name & attrs & obj
          & (Hcorr & Hparent & Htid & Hals & Hotel & Hbase & Hstarted) & Hev).
    set (ctx := entry_context e (clock w)) in *.
    set (request1 := Plugin.set_span_and_context request (entry_span e) ctx) in *.
    set (reply1 := Plugin.reply_header reply "x-request-id" (entry_correlationId e)) in *.
    set (rh := Fastify.runHandler h (entry_world e)) in *.
    destruct (wellBehaved_runHandler h (entry_world e)) as (Hframe & Hclient & _).
    fold rh in Hframe, Hclient.
    assert (Hlog' : baseLogger (world rh) = baseLogger w).
    { destruct Hframe as (_ & _ & -> & _). exact Hbase. }
    destruct (exit_records options request1 reply1 rh ctx (entry_span e) eq_refl eq_refl)
      as (Hse & Hss & _ & Hlast & Hquiet & Hrec).
    rewrite Hlog' in Hquiet, Hrec.
    destruct (handler_has_no_spans h (entry_world e)) as (Hnospan & Hhs).
    fold rh in Hnospan, Hhs.
    exists (ESpanStart name (Otel.spanContext (entry_span e)) (entry_parent e) attrs
            :: logged w Level.info obj "Request received"),
      (entry_world e), (exitEvents options request1 reply1 rh), (span_id (entry_span e)).
    fold rh.
    split; [subst evs; rewrite Hev; reflexivity|].
    split; [unfold logged; destruct (baseLogger w); reflexivity|].
    split; [unfold logged; destruct (baseLogger w); reflexivity|].
    split; [unfold logged; destruct (baseLogger w); reflexivity|].
    split; [unfold logged; destruct (baseLogger w); reflexivity|].
    split; [exact Hnospan|]. split; [exact Hss|]. split; [exact Hse|].
    split; [do 5 eexists; split; reflexivity|]. split; [exact Hlast|].
    split; [|split; [|split; [exact Hquiet|exact Hrec]]].
    all: subst evs; rewrite Hev.
    all: change (?a :: ?l1 ++ ?l2 ++ ?l3) with (([a] ++ l1) ++ l2 ++ l3).
    all: unfold spansStarted, spansEnded in *; rewrite !count_app.
    all: destruct Hhs as [Hh1 Hh2]; rewrite ?Hh1, ?Hh2, ?Hss, ?Hse.
    all: unfold logged; destruct (baseLogger w); reflexivity.
Qed.

Lemma span_closed_once_completion_always_recorded_witness :
  Plugin.isExcluded pluginOptions healthRequest = true
  /\ Plugin.isExcluded pluginOptions reportRequest = false
  /\ baseLogger (worldInit 0 (Response 200)) = Some (mkPino "info")
  /\ spansStarted (events (Fastify.handleRequest pluginOptions okHandler healthRequest
                             freshReply (worldInit 0 (Response 200)))) = 0%nat
  /\ spansStarted (events (Fastify.handleRequest pluginOptions failingHandler reportRequest
                             freshReply (worldInit 0 (Response 200)))) = 1%nat
  /\ spansEnded (events (Fastify.handleRequest pluginOptions failingHandler reportRequest
                           freshReply (worldInit 0 (Response 200)))) = 1%nat
  /\ (exists entry wH exit,
        raisedRun = entry ++ events (Fastify.runHandler failingHandler wH) ++ exit
        /\ completed exit = 1%nat /\ failed exit = 1%nat).
Proof.
  split; [reflexivity|]. split; [reflexivity|]. split; [reflexivity|].
  split.
  - destruct (span_closed_once_completion_always_recorded pluginOptions okHandler
                "GET" "/health" (Some "/health") inboundHeaders freshReply
                (worldInit 0 (Response 200))) as [Hexcluded _].
    destruct (Hexcluded eq_refl) as (_ & Hs & _). exact Hs.
  - destruct (span_closed_once_completion_always_recorded pluginOptions failingHandler
                "GET" "/api/v1/reports/42" (Some "/api/v1/reports/:reportId")
                inboundHeaders freshReply
                (worldInit 0 (Response 200))) as [_ Hkept].
    destruct (Hkept eq_refl)
      as (entry & wH & exit & sid & Hev & _ & _ & _ & _ & _ & _ & _ & _ & _ & Hs & He
          & _ & Hrec).
    destruct (Hrec (mkPino "info") eq_refl) as (Hc & Hf & _).
    split; [exact Hs|]. split; [exact He|].
    exists entry, wH, exit. split; [exact Hev|]. split; [exact Hc|].
    rewrite Hf. reflexivity.
Defined.

(** C6 as stated fails twice: an excluded request gets no terminal record
    at all, and a request whose handler raises gets both, "Request failed"
    from onError and "Request completed" from the onResponse that follows. *)
Lemma terminal_records_are_not_exactly_one :
  (completed excludedRun = 0%nat /\ failed excludedRun = 0%nat
   /\ ~ exactlyOneTerminal excludedRun)
  /\ (completed raisedRun = 1%nat /\ failed raisedRun = 1%nat
      /\ ~ exactlyOneTerminal raisedRun).
Proof.
  unfold exactlyOneTerminal.
  split; (split; [vm_compute; reflexivity|]); (split; [vm_compute; reflexivity|]);
    vm_compute; discriminate.
Qed.

(** ** The traceparent format *)

Lemma length_append_ a b : String.length (a +:+ b) = (String.length a + String.length b)%nat.
Proof. induction a as [|c a IH]; simpl; [reflexivity|rewrite IH; reflexivity]. Qed.

Lemma substring_prefix a b : String.substring 0 (String.length a) (a +:+ b) = a.
Proof. induction a as [|c a IH]; simpl; [destruct b; reflexivity|rewrite IH; reflexivity]. Qed.

Lemma substring_skip a b n m :
  String.substring (String.length a + n) m (a +:+ b) = String.substring n m b.
Proof. induction a as [|c a IH]; simpl; [reflexivity|exact IH]. Qed.

Lemma substring_all a : String.substring 0 (String.length a) a = a.
Proof. induction a as [|c a IH]; simpl; [reflexivity|rewrite IH; reflexivity]. Qed.

Lemma substring_none x n : String.substring n 0 x = "".
Proof. revert n. induction x as [|c x IH]; intros [|n]; simpl; auto. Qed.

(** Parsing what [inject] writes gives the context's ids back. *)
Lemma parse_format sc :
  wellFormed sc ->
  Otel.parseTraceParent (Otel.formatTraceParent sc)
  = Some (Otel.traceId sc, Otel.spanId sc, Otel.traceFlags sc).
Proof.
  intros (Lt & Ht & Zt & Ls & Hs & Zs & Lf & Hf).
  unfold Otel.parseTraceParent.
  change (Otel.skip_space (Otel.formatTraceParent sc)) with (Otel.formatTraceParent sc).
  unfold Otel.formatTraceParent.
  set (t := Otel.traceId sc) in *. set (s := Otel.spanId sc) in *.
  set (f := Otel.traceFlags sc) in *.
  assert (Hlen : String.length ("00-" +:+ t +:+ "-" +:+ s +:+ "-" +:+ f) = 55%nat).
  { rewrite !length_append_, Lt, Ls, Lf. reflexivity. }
  cbv zeta.
  rewrite Hlen.
  assert (Etid : String.substring 3 32 ("00-" +:+ t +:+ "-" +:+ s +:+ "-" +:+ f) = t).
  { peel. rewrite <- Lt. apply substring_prefix. }
  assert (Esep1 : String.substring 35 1 ("00-" +:+ t +:+ "-" +:+ s +:+ "-" +:+ f) = "-").
  { peel.
    change 32%nat with (32 + 0)%nat. rewrite <- Lt, substring_skip. peel.
    rewrite substring_none. reflexivity. }
  assert (Esid : String.substring 36 16 ("00-" +:+ t +:+ "-" +:+ s +:+ "-" +:+ f) = s).
  { peel.
    change 33%nat with (32 + 1)%nat. rewrite <- Lt, substring_skip.
    peel. rewrite <- Ls. apply substring_prefix. }
  assert (Esep2 : String.substring 52 1 ("00-" +:+ t +:+ "-" +:+ s +:+ "-" +:+ f) = "-").
  { peel.
    change 49%nat with (32 + 17)%nat. rewrite <- Lt, substring_skip.
    peel.
    change 16%nat with (16 + 0)%nat. rewrite <- Ls, substring_skip. peel.
    rewrite substring_none. reflexivity. }
  assert (Eflags : String.substring 53 2 ("00-" +:+ t +:+ "-" +:+ s +:+ "-" +:+ f) = f).
  { peel.
    change 50%nat with (32 + 18)%nat. rewrite <- Lt, substring_skip.
    peel.
    change 17%nat with (16 + 1)%nat. rewrite <- Ls, substring_skip.
    peel. rewrite <- Lf. apply substring_all. }
  assert (Ever : String.substring 0 2 ("00-" +:+ t +:+ "-" +:+ s +:+ "-" +:+ f) = "00").
  { peel. reflexivity. }
  assert (Esep0 : String.substring 2 1 ("00-" +:+ t +:+ "-" +:+ s +:+ "-" +:+ f) = "-").
  { peel. rewrite substring_none. reflexivity. }
  change (55 - 55)%nat with 0%nat. rewrite substring_none.
  rewrite Ever, Esep0, Etid, Esep1, Esid, Esep2, Eflags, Ht, Zt, Hs, Zs, Hf.
  reflexivity.
Qed.

Lemma length_substring s : forall n m,
  (n + m <= String.length s)%nat -> String.length (String.substring n m s) = m.
Proof.
  induction s as [|c s IH]; intros [|n] [|m]; simpl; intros H; try lia; try reflexivity.
  - rewrite IH by lia. reflexivity.
  - apply IH. lia.
  - apply IH. lia.
Qed.

Lemma all_hex_i_of_hex s : Otel.all_hex s = true -> Otel.all_hex_i s = true.
Proof.
  induction s as [|c s IH]; [reflexivity|]. cbn [Otel.all_hex Otel.all_hex_i].
  intros H. apply andb_true_iff in H as [Hc Hs].
  unfold Otel.is_hex_i. rewrite Hc, (IH Hs). reflexivity.
Qed.

(** A span context of W3C shape is a valid one. *)
Lemma wellFormed_valid sc : wellFormed sc -> Otel.isSpanContextValid sc = true.
Proof.
  intros (Lt & Ht & Zt & Ls & Hs & Zs & _).
  unfold Otel.isSpanContextValid, Otel.isValidTraceId, Otel.isValidSpanId.
  rewrite Lt, Ls, (all_hex_i_of_hex _ Ht), (all_hex_i_of_hex _ Hs), Zt, Zs. reflexivity.
Qed.

(** What the propagator reads from a header is a valid span context. *)
Lemma parsed_valid tp tid sid flags ts :
  Otel.parseTraceParent tp = Some (tid, sid, flags) ->
  Otel.isSpanContextValid (Otel.mkSpanContext tid sid flags ts) = true.
Proof.
  unfold Otel.parseTraceParent. cbv zeta.
  set (s := Otel.skip_space tp).
  destruct (55 <=? String.length s)%nat eqn:Hlen; [|discriminate].
  apply Nat.leb_le in Hlen. cbn [andb].
  destruct (Otel.all_hex (String.substring 0 2 s)); [|discriminate].
  destruct (negb (String.substring 0 2 s =? "ff")%string); [|discriminate].
  destruct (String.substring 2 1 s =? "-")%string; [|discriminate].
  destruct (String.substring 35 1 s =? "-")%string; [|discriminate].
  destruct (String.substring 52 1 s =? "-")%string; [|discriminate].
  destruct (Otel.all_hex (String.substring 3 32 s)) eqn:Ht; [|discriminate].
  destruct (Otel.all_zero (String.substring 3 32 s)) eqn:Zt; [discriminate|].
  destruct (Otel.all_hex (String.substring 36 16 s)) eqn:Hs; [|discriminate].
  destruct (Otel.all_zero (String.substring 36 16 s)) eqn:Zs; [discriminate|].
  cbn [andb negb].
  match goal with |- (if ?b then _ else _) = _ -> _ => destruct b end; [|discriminate].
  intros [= <- <- <-].
  unfold Otel.isSpanContextValid, Otel.isValidTraceId, Otel.isValidSpanId.
  cbn [Otel.traceId Otel.spanId].
  rewrite !length_substring by lia.
  rewrite (all_hex_i_of_hex _ Ht), (all_hex_i_of_hex _ Hs), Zt, Zs. reflexivity.
Qed.

(** ** Propagation to outbound calls *)

Lemma truthy_some s : s <> "" -> Js.truthy (Some s) = true /\ Js.or_else (Some s) "" = s.
Proof. destruct s; [congruence|auto]. Qed.

Lemma annotateHeaders_request_id registered store active h0 rid :
  HttpClient.correlationIdOf store = Some rid -> rid <> "" ->
  annotateHeaders registered store active h0 !! "x-request-id" = Some rid.
Proof.
  intros Hc Hne. unfold annotateHeaders. rewrite Hc.
  destruct (truthy_some rid Hne) as [-> ->].
  apply lookup_insert_eq.
Qed.

(** With the propagator registered and a valid span context active, the
    interceptor writes that context's [traceparent]. *)
Lemma annotateHeaders_traceparent store sc h0 :
  Otel.isSpanContextValid sc = true ->
  annotateHeaders true store (Some sc) h0 !! "traceparent"
  = Some (Otel.formatTraceParent sc).
Proof.
  intros Hvalid. unfold annotateHeaders.
  assert (Htp : Otel.inject true (Some sc) !! "traceparent"
                = Some (Otel.formatTraceParent sc)).
  { unfold Otel.inject. rewrite Hvalid. destruct (Otel.traceState sc).
    - rewrite lookup_insert_ne by discriminate. apply lookup_singleton_eq.
    - apply lookup_singleton_eq. }
  rewrite Htp.
  change (Js.truthy (Some (Otel.formatTraceParent sc))) with true. cbv iota.
  change (Js.or_else (Some (Otel.formatTraceParent sc)) "") with (Otel.formatTraceParent sc).
  destruct (Js.truthy (HttpClient.correlationIdOf store));
    destruct (Js.truthy (Otel.inject true (Some sc) !! "tracestate"));
    rewrite ?(lookup_insert_ne _ "x-request-id" "traceparent") by discriminate;
    rewrite ?(lookup_insert_ne _ "tracestate" "traceparent") by discriminate;
    apply lookup_insert_eq.
Qed.




(* ===================================================================== *)
(** * Further properties *)

(** ** Shutdown *)

(** X3: [shutdown()] never rejects, whatever the providers do.  Before
    [init] it does nothing at all; after [init], a meter provider whose
    shutdown rejects leaves the SDK's shutdown uncalled and the error on the
    console; when both shutdowns succeed they run in that order and the
    completion line is written last. *)
Theorem shutdown_never_rejects (meterProvider_shutdown sdk_shutdown : M unit) (w : World) :
  result (shutdown meterProvider_shutdown sdk_shutdown w) = Js.Normal tt
  /\ (initialized w = false ->
      shutdown meterProvider_shutdown sdk_shutdown w = (Js.Normal tt, w, []))
  /\ (initialized w = true ->
      forall e w1 ev1, meterProvider_shutdown w = (Js.Throw e, w1, ev1) ->
      shutdown meterProvider_shutdown sdk_shutdown w
      = (Js.Normal tt, w1, ev1 ++ [EConsole "[neoiq-foundation] Error during shutdown:"]))
  /\ (initialized w = true ->
      forall w1 ev1 w2 ev2,
        meterProvider_shutdown w = (Js.Normal tt, w1, ev1) ->
        sdk_shutdown w1 = (Js.Normal tt, w2, ev2) ->
        shutdown meterProvider_shutdown sdk_shutdown w
        = (Js.Normal tt, w2,
           ev1 ++ ev2 ++ [EConsole "[neoiq-foundation] OTEL shutdown complete"])).
Proof.
  assert (Hrun : shutdown meterProvider_shutdown sdk_shutdown w
                 = if initialized w then
                     catch
                       (exec meterProvider_shutdown;
                        exec sdk_shutdown;
                        emit (EConsole "[neoiq-foundation] OTEL shutdown complete"))
                       (fun _ => emit (EConsole "[neoiq-foundation] Error during shutdown:")) w
                   else (Js.Normal tt, w, [])).
  { unfold shutdown, bind at 1, get. destruct (initialized w); cbn [negb]; [|reflexivity].
    destruct (catch _ _ w) as [[r w2] ev2]. reflexivity. }
  rewrite Hrun. clear Hrun.
  destruct (initialized w) eqn:Hinit.
  2: { split; [reflexivity|]. split; [reflexivity|]. split; discriminate. }
  split; [|split; [discriminate|split]].
  - unfold catch, bind, emit.
    destruct (meterProvider_shutdown w) as [[[[]|e] w1] ev1]; [|reflexivity].
    destruct (sdk_shutdown w1) as [[[[]|e] w2] ev2]; reflexivity.
  - intros _ e w1 ev1 Hm. unfold catch, bind, emit. rewrite Hm. reflexivity.
  - intros _ w1 ev1 w2 ev2 Hm Hs. unfold catch, bind, emit. rewrite Hm, Hs.
    reflexivity.
Qed.

Lemma shutdown_never_rejects_witness :
  initialized (worldInit 0 NoResponse) = true
  /\ shutdown failingShutdown failingShutdown (worldInit 0 NoResponse)
     = (Js.Normal tt, worldInit 0 NoResponse,
        [EConsole "[neoiq-foundation] Error during shutdown:"])
  /\ shutdown failingShutdown failingShutdown (world0 0 NoResponse)
     = (Js.Normal tt, world0 0 NoResponse, []).
Proof.
  split; [reflexivity|]. split.
  - apply (proj1 (proj2 (proj2 (shutdown_never_rejects failingShutdown failingShutdown
                                  (worldInit 0 NoResponse)))) eq_refl
             (Js.TypeError "exporter unreachable") (worldInit 0 NoResponse) []).
    reflexivity.
  - apply (proj1 (proj2 (shutdown_never_rejects failingShutdown failingShutdown
                           (world0 0 NoResponse)))).
    reflexivity.
Defined.

(** ** What the logger and the context helpers see during a request *)

Lemma wellBehaved_runSteps l : wellBehaved (Fastify.runSteps l).
Proof.
  induction l as [|s l IH]; cbn [Fastify.runSteps].
  - apply wellBehaved_ret.
  - apply wellBehaved_bind; [apply wellBehaved_runStep|intros; exact IH].
Qed.

(** During the handler of a request that is not excluded the store is the
    one onRequest installed, and the active OpenTelemetry context and the
    logger are those of the process. *)
Lemma inside_handler options h request reply w :
  Plugin.isExcluded options request = false ->
  insideHandler options h request reply w (fun e wP =>
    alsStore wP = Some (Plugin.storeOf (entry_context e (clock w)))
    /\ otelActive wP = otelActive w
    /\ baseLogger wP = baseLogger w).
Proof.
  intros Hex.
  destruct (handleRequest_run options h request reply w Hex)
    as (e & name & attrs & obj & Hent & Hev).
  exists e, name, attrs, obj. split; [exact Hent|]. split; [exact Hev|].
  intros pre post _.
  destruct (wellBehaved_runSteps pre (entry_world e)) as ((H1 & H2 & H3 & _) & _).
  destruct Hent as (_ & _ & _ & Hs & Ha & Hl & _).
  rewrite H1, H2, H3. auto.
Qed.

(** X4: log correlation.  At every point of the handler of a request that
    is not excluded, the pino mixin gives a log record the correlation id of
    the request (its x-request-id header, or the generated id), and as trace
    and span id those of the active OpenTelemetry span when there is one,
    those of the span the plugin started otherwise. *)
Theorem logs_inside_a_request_carry_its_identity
        (options : Plugin.PluginOptions) (h : Fastify.Handler)
        (request : Plugin.FastifyRequest) (reply : Plugin.FastifyReply) (w : World) :
  Plugin.isExcluded options request = false ->
  insideHandler options h request reply w (fun e wP =>
    let own := Otel.spanContext (entry_span e) in
    mixin_correlationId (mixin wP) = Some (entry_correlationId e)
    /\ mixin_traceId (mixin wP)
       = or_undefined (Otel.traceId <$> otelActive w) (Some (Otel.traceId own))
    /\ mixin_spanId (mixin wP)
       = or_undefined (Otel.spanId <$> otelActive w) (Some (Otel.spanId own))
    /\ (otelActive w = None ->
        mixin wP = mkLogMixin (Some (Otel.traceId own)) (Some (Otel.spanId own))
                              (Some (entry_correlationId e)))).
Proof.
  intros Hex.
  destruct (inside_handler options h request reply w Hex)
    as (e & name & attrs & obj & Hent & Hev & Hin).
  exists e, name, attrs, obj. split; [exact Hent|]. split; [exact Hev|].
  intros pre post Hsteps. destruct (Hin pre post Hsteps) as (Hs & Ha & _).
  unfold mixin. rewrite Hs, Ha. cbn.
  destruct (otelActive w); cbn; repeat split; try reflexivity; discriminate.
Qed.

Lemma logs_inside_a_request_carry_its_identity_witness :
  Plugin.isExcluded pluginOptions reportRequest = false
  /\ insideHandler pluginOptions loggingHandler reportRequest freshReply
       (worldInit 0 (Response 200)) (fun e wP =>
         mixin_correlationId (mixin wP) = Some (entry_correlationId e)).
Proof.
  split; [reflexivity|].
  destruct (logs_inside_a_request_carry_its_identity pluginOptions loggingHandler
              reportRequest freshReply (worldInit 0 (Response 200)) eq_refl)
    as (e & name & attrs & obj & Hent & Hev & Hin).
  exists e, name, attrs, obj. split; [exact Hent|]. split; [exact Hev|].
  intros pre post Hsteps. exact (proj1 (Hin pre post Hsteps)).
Defined.

(** X5: the span the plugin starts is never the active span.  At every
    point of the handler [getTraceContext()] returns what it returns outside
    the request (the empty object when no OpenTelemetry context is active),
    while [getRequestContext()] returns the ids of the plugin's span. *)
Theorem getTraceContext_ignores_the_plugin_span
        (options : Plugin.PluginOptions) (h : Fastify.Handler)
        (request : Plugin.FastifyRequest) (reply : Plugin.FastifyReply) (w : World) :
  Plugin.isExcluded options request = false ->
  insideHandler options h request reply w (fun e wP =>
    let own := Otel.spanContext (entry_span e) in
    result (getTraceContext wP) = result (getTraceContext w)
    /\ result (getRequestContext wP)
       = Js.Normal (Some (Index.mkRequestContext (Some (entry_correlationId e))
                            (Some (Otel.traceId own)) (Some (Otel.spanId own))))
    /\ (otelActive w = None -> result (getTraceContext wP) = Js.Normal None)).
Proof.
  intros Hex.
  destruct (inside_handler options h request reply w Hex)
    as (e & name & attrs & obj & Hent & Hev & Hin).
  exists e, name, attrs, obj. split; [exact Hent|]. split; [exact Hev|].
  intros pre post Hsteps. destruct (Hin pre post Hsteps) as (Hs & Ha & _).
  unfold getTraceContext, getRequestContext, als_getStore. cbn [result fst].
  rewrite Hs, Ha. repeat split. intros ->. reflexivity.
Qed.

Lemma getTraceContext_ignores_the_plugin_span_witness :
  Plugin.isExcluded pluginOptions reportRequest = false
  /\ insideHandler pluginOptions loggingHandler reportRequest freshReply
       (worldInit 0 (Response 200)) (fun e wP =>
         result (getTraceContext wP) = Js.Normal None).
Proof.
  split; [reflexivity|].
  destruct (getTraceContext_ignores_the_plugin_span pluginOptions loggingHandler
              reportRequest freshReply (worldInit 0 (Response 200)) eq_refl)
    as (e & name & attrs & obj & Hent & Hev & Hin).
  exists e, name, attrs, obj. split; [exact Hent|]. split; [exact Hev|].
  intros pre post Hsteps. exact (proj2 (proj2 (Hin pre post Hsteps)) eq_refl).
Defined.

(** ** The plugin's entry hook *)

(** X6: the reply echoes the correlation id.  For a request that is not
    excluded, onRequest sets the reply header x-request-id to the inbound
    x-request-id when that is a non-empty string and to a generated id when
    the header is missing or empty; the same id is stored on the request;
    every other reply header and the status code are left as they were. *)
Theorem reply_echoes_the_correlation_id
        (options : Plugin.PluginOptions) (request : Plugin.FastifyRequest)
        (reply : Plugin.FastifyReply) (w : World) :
  Plugin.isExcluded options request = false ->
  let cid := correlationIdIn request w in
  let reply1 := Plugin.reply_header reply "x-request-id" cid in
  (forall done : Plugin.Done, exists request1 wS evs,
     Plugin.onRequest options request reply done w
     = (result (done request1 reply1 wS),
        set_alsStore (alsStore w) (world (done request1 reply1 wS)),
        evs ++ events (done request1 reply1 wS))
     /\ Plugin.correlationId <$> Plugin.__requestContext request1 = Some cid
     /\ HttpClient.correlationIdOf (alsStore wS) = Some cid)
  /\ Plugin.replyHeaders reply1 !! "x-request-id" = Some cid
  /\ (forall name, name <> "x-request-id" ->
        Plugin.replyHeaders reply1 !! name = Plugin.replyHeaders reply !! name)
  /\ Plugin.statusCode reply1 = Plugin.statusCode reply
  /\ (forall rid, Plugin.headers request !! "x-request-id" = Some rid -> rid <> "" ->
        cid = rid)
  /\ (Plugin.headers request !! "x-request-id" = None
      \/ Plugin.headers request !! "x-request-id" = Some "" ->
      cid = ids w (nextId w)).
Proof.
  intros Hex cid reply1. split; [|split; [|split; [|split; [|split]]]].
  - intros done.
    destruct (onRequest_run options request reply done w Hex)
      as (e & name & attrs & obj & Hent & Hrun).
    destruct Hent as (Hcid & _ & _ & Hs & _).
    fold (correlationIdIn request w) in Hcid. fold cid in Hcid.
    cbv zeta in Hrun. rewrite Hcid in Hrun. fold reply1 in Hrun.
    eexists _, _, (_ :: _). split; [rewrite Hrun; reflexivity|].
    split; [cbn; f_equal; exact Hcid|].
    rewrite Hs. cbn. f_equal. exact Hcid.
  - apply lookup_insert_eq.
  - intros name Hne. apply lookup_insert_ne. congruence.
  - reflexivity.
  - intros rid Hrid Hne. unfold cid, correlationIdIn. rewrite Hrid.
    destruct rid; [congruence|reflexivity].
  - unfold cid, correlationIdIn. intros [-> | ->]; reflexivity.
Qed.

Lemma reply_echoes_the_correlation_id_witness :
  Plugin.isExcluded pluginOptions reportRequest = false
  /\ Plugin.headers reportRequest !! "x-request-id" = Some "req-1"
  /\ correlationIdIn reportRequest (worldInit 0 NoResponse) = "req-1"
  /\ Plugin.replyHeaders
       (Plugin.reply_header freshReply "x-request-id"
          (correlationIdIn reportRequest (worldInit 0 NoResponse))) !! "x-request-id"
     = Some (correlationIdIn reportRequest (worldInit 0 NoResponse)).
Proof.
  split; [reflexivity|]. split; [reflexivity|].
  pose proof (reply_echoes_the_correlation_id pluginOptions reportRequest freshReply
                (worldInit 0 NoResponse) eq_refl) as (_ & H & _ & _ & Hrid & _).
  split; [|exact H].
  apply Hrid; [reflexivity|discriminate].
Defined.

Lemma prefix_iff a s : String.prefix a s = true <-> exists rest, s = a +:+ rest.
Proof.
  revert s. induction a as [|c a IH]; intros s.
  - split; [intros _; exists s; reflexivity|]. intros _. destruct s; reflexivity.
  - destruct s as [|d s]; simpl.
    + split; [discriminate|]. intros (rest & H). discriminate.
    + destruct (Ascii.ascii_dec c d) as [->|Hne].
      * rewrite IH. split; intros (rest & H); exists rest; [rewrite H; reflexivity|].
        injection H as H. exact H.
      * split; [discriminate|]. intros (rest & H). injection H as H1 H2. congruence.
Qed.

(** X7: which requests are excluded.  A request is excluded exactly when
    its url (path and query string) starts with one of the configured
    strings.  With the default list that is every url that starts with
    /health, so the second default entry /health/ adds nothing and a path
    such as /healthz is excluded as well; an empty list excludes nothing; a
    list that contains the empty string excludes every request. *)
Theorem exclusion_is_by_url_prefix
        (options : Plugin.PluginOptions) (request : Plugin.FastifyRequest) :
  (Plugin.isExcluded options request = true
   <-> exists route rest,
         In route (Plugin.excludeRoutes_ options)
         /\ Plugin.url request = route +:+ rest)
  /\ (Plugin.excludeRoutes options = None ->
      (Plugin.isExcluded options request = true
       <-> exists rest, Plugin.url request = "/health" +:+ rest))
  /\ (Plugin.excludeRoutes options = Some [] -> Plugin.isExcluded options request = false)
  /\ (forall routes, Plugin.excludeRoutes options = Some routes -> In "" routes ->
        Plugin.isExcluded options request = true).
Proof.
  assert (Hiff : Plugin.isExcluded options request = true
                 <-> exists route rest,
                       In route (Plugin.excludeRoutes_ options)
                       /\ Plugin.url request = route +:+ rest).
  { unfold Plugin.isExcluded. rewrite existsb_exists. split.
    - intros (route & Hin & Hp). apply prefix_iff in Hp as (rest & Hp). eauto.
    - intros (route & rest & Hin & Hp). exists route. split; [exact Hin|].
      apply prefix_iff. eauto. }
  split; [exact Hiff|]. split; [|split].
  - intros Hnone. rewrite Hiff. unfold Plugin.excludeRoutes_. rewrite Hnone. cbn [Js.nullish].
    split.
    + intros (route & rest & [<- | [<- | []]] & ->); [eauto|].
      exists ("/" +:+ rest). reflexivity.
    + intros (rest & ->). exists "/health", rest. split; [left; reflexivity|reflexivity].
  - intros Hempty. unfold Plugin.isExcluded, Plugin.excludeRoutes_. rewrite Hempty. reflexivity.
  - intros routes Hroutes Hin. apply Hiff. exists "", (Plugin.url request).
    unfold Plugin.excludeRoutes_. rewrite Hroutes. auto.
Qed.

Lemma exclusion_is_by_url_prefix_witness :
  Plugin.excludeRoutes pluginOptions = None
  /\ Plugin.isExcluded pluginOptions (incoming "GET" "/healthz?verbose=1" None ∅) = true
  /\ Plugin.excludeRoutes traceEverything = Some []
  /\ Plugin.isExcluded traceEverything healthRequest = false.
Proof.
  split; [reflexivity|]. split.
  - apply (proj2 (proj1 (proj2 (exclusion_is_by_url_prefix pluginOptions
                                  (incoming "GET" "/healthz?verbose=1" None ∅))) eq_refl)).
    exists "z?verbose=1". reflexivity.
  - split; [reflexivity|].
    apply (proj1 (proj2 (proj2 (exclusion_is_by_url_prefix traceEverything healthRequest)))).
    reflexivity.
Defined.

(** ** The plugin's metrics and what a request leaves behind *)

Lemma filter_logged (p : Event -> bool) w l obj msg :
  (forall o m, p (ELog l o m) = false) -> filter p (logged w l obj msg) = [].
Proof.
  intros Hp. unfold logged. destruct (baseLogger w); [|reflexivity].
  rewrite filter_cons. destruct (decide (p (ELog l obj msg))) as [H|H]; [|reflexivity].
  rewrite Hp in H. destruct H.
Qed.

Lemma count_zero_filter (p : Event -> bool) l : count p l = 0%nat -> filter p l = [].
Proof. unfold count. destruct (filter p l); [reflexivity|discriminate]. Qed.

(** onRequest changes the id counter and, for the extent of [done], the
    store; the clock and everything else is as it found it. *)
Lemma onRequest_enters options request reply done w :
  Plugin.isExcluded options request = false ->
  exists (e : Entry) name attrs obj k,
    let ctx := entry_context e (clock w) in
    let request1 := Plugin.set_span_and_context request (entry_span e) ctx in
    let reply1 := Plugin.reply_header reply "x-request-id" (entry_correlationId e) in
    let wS := entry_world e in
    entered request w e
    /\ wS = set_alsStore (Some (Plugin.storeOf ctx)) (set_nextId k w)
    /\ Plugin.onRequest options request reply done w
       = (result (done request1 reply1 wS),
          set_alsStore (alsStore w) (world (done request1 reply1 wS)),
          ESpanStart name (Otel.spanContext (entry_span e)) (entry_parent e) attrs
          :: logged w Level.info obj "Request received"
          ++ events (done request1 reply1 wS)).
Proof.
  intros Hex.
  unfold Plugin.onRequest. rewrite Hex.
  assert (Hcorr : exists k,
    Plugin.correlationIdOf request w
    = (Js.Normal (if Js.truthy (Plugin.headers request !! "x-request-id")
                  then Js.or_else (Plugin.headers request !! "x-request-id") ""
                  else ids w (nextId w)),
       set_nextId k w, [])).
  { unfold Plugin.correlationIdOf.
    destruct (Js.truthy (Plugin.headers request !! "x-request-id")).
    - exists (nextId w). destruct w; reflexivity.
    - eexists; reflexivity. }
  destruct Hcorr as (k & Hcorr).
  set (corr := if Js.truthy (Plugin.headers request !! "x-request-id")
               then Js.or_else (Plugin.headers request !! "x-request-id") ""
               else ids w (nextId w)) in *.
  rewrite (bind_normal _ _ _ _ _ _ Hcorr).
  rewrite (bind_normal _ _ _ _ _ _
             (eq_refl : propagation_extract (Plugin.headers request) (set_nextId k w)
                        = (_, set_nextId k w, []))).
  cbn [otelActive initialized set_nextId].
  match goal with |- context [startSpan ?n ?a ?p] =>
    destruct (startSpan_run n a p (set_nextId k w)) as (span & k' & Hspan & Htid) end.
  rewrite (bind_normal _ _ _ _ _ _ Hspan).
  rewrite (bind_normal _ _ _ _ _ _
             (eq_refl : Date_now (set_nextId k' (set_nextId k w)) = (_, _, []))).
  rewrite als_run_run.
  unfold logger.info.
  rewrite (bind_normal _ _ _ _ _ _ (optional_call_run _ _ _ _)).
  exists (mkEntry corr span
            (validParent (Otel.extract (initialized w) (otelActive w)
                            (Plugin.headers request)))
            (set_alsStore (Some (Plugin.storeOf (Plugin.mkRequestContext corr
                 (Otel.traceId (Otel.spanContext span))
                 (Otel.spanId (Otel.spanContext span)) (clock w))))
               (set_nextId k' (set_nextId k w)))).
  do 3 eexists. exists k'.
  unfold entered.
  cbn [entry_correlationId entry_span entry_parent entry_world entry_context].
  split; [repeat (split; [reflexivity || exact Htid|]); reflexivity|].
  split; [reflexivity|].
  cbn [result world events fst snd app].
  reflexivity.
Qed.

(** The lifecycle around the handler of a request that is not excluded:
    the handler starts at the time the request context records, the hooks
    end normally whatever the handler did, and the state left behind is the
    handler's with the store put back. *)
Lemma around_handler options h request reply w :
  Plugin.isExcluded options request = false ->
  aroundHandler options h request reply w (fun e rh =>
    clock (entry_world e) = clock w
    /\ sent (entry_world e) = sent w
    /\ target (entry_world e) = target w
    /\ result (Fastify.handleRequest options h request reply w) = Js.Normal tt
    /\ exists wE, world (Fastify.handleRequest options h request reply w)
                  = set_alsStore (alsStore w) wE
                  /\ otelActive wE = otelActive (world rh)
                  /\ baseLogger wE = baseLogger (world rh)
                  /\ clock wE = clock (world rh)
                  /\ sent wE = sent (world rh)).
Proof.
  intros Hex. unfold aroundHandler, Fastify.handleRequest.
  match goal with |- context [Plugin.onRequest options request reply ?d w] =>
    destruct (onRequest_enters options request reply d w Hex)
      as (e & name & attrs & obj & k & Hent & Hw & Hrun) end.
  exists e, name, attrs, obj. split; [exact Hent|].
  cbv zeta in Hrun, Hw.
  set (request1 := Plugin.set_span_and_context request (entry_span e)
                     (entry_context e (clock w))) in *.
  set (reply1 := Plugin.reply_header reply "x-request-id" (entry_correlationId e)) in *.
  rewrite (bind_normal _ _ _ _ _ _ (settle_run _ _)) in Hrun.
  set (rh := Fastify.runHandler h (entry_world e)) in *.
  rewrite Hrun. clear Hrun. cbn [events result world fst snd].
  assert (Hctx : Plugin.__requestContext request1 = Some (entry_context e (clock w)))
    by reflexivity.
  split.
  { do 3 f_equal. unfold exitEvents. destruct (result rh); reflexivity. }
  split; [rewrite Hw; reflexivity|]. split; [rewrite Hw; reflexivity|].
  split; [rewrite Hw; reflexivity|].
  destruct (result rh) as [statusCode|err].
  - destruct (onResponse_run options request1 (Fastify.with_status reply1 statusCode)
                Fastify.finish _ (world rh) Hctx) as (obj2 & _ & _ & ->).
    cbn [events result world fst snd Fastify.finish ret].
    split; [reflexivity|]. eexists. split; [reflexivity|]. repeat split.
  - match goal with |- context [Plugin.onError options request1 reply1 ?m ?s ?d (world rh)] =>
      destruct (onError_run options request1 reply1 m s d _ (world rh) Hctx) as (obj2 & ->) end.
    cbn [events result world fst snd].
    destruct (onResponse_run options request1
                (Fastify.with_status reply1 (Fastify.errorStatus err))
                Fastify.finish _
                (set_alsStore (Some (Plugin.storeOf (entry_context e (clock w)))) (world rh))
                Hctx) as (obj3 & _ & _ & ->).
    cbn [events result world fst snd Fastify.finish ret].
    split; [reflexivity|]. eexists. split; [reflexivity|]. repeat split.
Qed.

Lemma exit_metrics options request reply rh ctx span :
  Plugin.__requestContext request = Some ctx ->
  Plugin.__span request = Some span ->
  let status := sentStatus (result rh) in
  let durationMs := clock (world rh) - Plugin.startTime ctx in
  let labels :=
    [ ("method", Js.str (Plugin.method request));
      ("route", Js.str (Plugin.routeOf request));
      ("status_code", Js.str (Js.String_ status)) ] in
  filter isServerMetric (exitEvents options request reply rh)
  = [ ECounterAdd "http.server.requests.total" 1 labels;
      EHistogramRecord "http.server.request.duration" durationMs labels ]
    ++ (if 400 <=? status
        then [ECounterAdd "http.server.requests.errors" 1 labels] else [])
  /\ In (ESpanSetStatus (span_id span)
           (if status <? 400 then Otel.OK else Otel.ERROR) None)
        (exitEvents options request reply rh)
  /\ In (ESpanSetAttribute (span_id span) "http.status_code" (Js.num status))
        (exitEvents options request reply rh).
Proof.
  intros Hctx Hspan. unfold exitEvents.
  destruct (result rh) as [statusCode|err]; cbn [sentStatus].
  - destruct (onResponse_run options request (Fastify.with_status reply statusCode)
                Fastify.finish ctx (world rh) Hctx) as (obj & _ & _ & ->).
    cbn [events snd]. rewrite Hspan.
    cbn [Fastify.with_status Plugin.statusCode Fastify.finish ret events snd].
    split; [|split].
    + rewrite filter_app, filter_logged by reflexivity.
      destruct (400 <=? statusCode); reflexivity.
    + apply in_or_app. right. destruct (400 <=? statusCode); cbn; auto 10.
    + apply in_or_app. right. destruct (400 <=? statusCode); cbn; auto 10.
  - match goal with |- context [Plugin.onError options request reply ?m ?s ?d (world rh)] =>
      destruct (onError_run options request reply m s d ctx (world rh) Hctx) as (obj & ->) end.
    cbn [events snd].
    destruct (onResponse_run options request
                (Fastify.with_status reply (Fastify.errorStatus err))
                Fastify.finish ctx
                (set_alsStore (Some (Plugin.storeOf ctx)) (world rh)) Hctx)
      as (obj2 & _ & _ & ->).
    cbn [events snd]. rewrite Hspan.
    cbn [Fastify.with_status Plugin.statusCode Fastify.finish ret events snd
         clock set_alsStore].
    rewrite errorStatus_is_error, errorStatus_not_ok. cbn iota.
    split; [|split].
    + rewrite !filter_app, !filter_logged by reflexivity. reflexivity.
    + apply in_or_app. right. apply in_or_app. right. apply in_or_app. right.
      cbn. auto 10.
    + apply in_or_app. right. apply in_or_app. right. apply in_or_app. right.
      cbn. auto 10.
Qed.

(** X8: the server metrics of one request.  A request that is not excluded
    adds exactly one http.server.requests.total and one
    http.server.request.duration record, in that order, followed by one
    http.server.requests.errors record exactly when the status of the reply
    is 400 or above; all carry the same labels (method, route, status_code).
    The status is the handler's when it replied and the status of the error
    reply, which is 400 or above, when it raised; the duration is the time
    from the start of the handler to its end; the span gets status ERROR
    exactly when the errors counter is incremented. *)
Theorem server_metrics_of_a_request
        (options : Plugin.PluginOptions) (h : Fastify.Handler)
        (request : Plugin.FastifyRequest) (reply : Plugin.FastifyReply) (w : World) :
  Plugin.isExcluded options request = false ->
  aroundHandler options h request reply w (fun e rh =>
    let evs := events (Fastify.handleRequest options h request reply w) in
    let durationMs := clock (world rh) - clock (entry_world e) in
    exists status,
      let labels :=
        [ ("method", Js.str (Plugin.method request));
          ("route", Js.str (Plugin.routeOf request));
          ("status_code", Js.str (Js.String_ status)) ] in
      (forall statusCode, result rh = Js.Normal statusCode -> status = statusCode)
      /\ (forall err, result rh = Js.Throw err -> 400 <= status)
      /\ filter isServerMetric evs
         = [ ECounterAdd "http.server.requests.total" 1 labels;
             EHistogramRecord "http.server.request.duration" durationMs labels ]
           ++ (if 400 <=? status
               then [ECounterAdd "http.server.requests.errors" 1 labels] else [])
      /\ In (ESpanSetStatus (span_id (entry_span e))
               (if 400 <=? status then Otel.ERROR else Otel.OK) None) evs
      /\ In (ESpanSetAttribute (span_id (entry_span e)) "http.status_code" (Js.num status))
            evs).
Proof.
  intros Hex.
  destruct (around_handler options h request reply w Hex)
    as (e & name & attrs & obj & Hent & Hev & Hclock & _).
  exists e, name, attrs, obj. split; [exact Hent|]. split; [exact Hev|].
  cbv zeta. exists (sentStatus (result (Fastify.runHandler h (entry_world e)))).
  split; [intros statusCode ->; reflexivity|].
  split; [intros err ->; cbn [sentStatus]; apply Z.leb_le, errorStatus_is_error|].
  rewrite Hev, Hclock.
  match type of Hev with _ = _ :: _ ++ _ ++ exitEvents ?o ?rq ?rp ?rh =>
    destruct (exit_metrics o rq rp rh (entry_context e (clock w)) (entry_span e)
                eq_refl eq_refl) as (Hm & Hst & Hat) end.
  cbn [Plugin.method Plugin.set_span_and_context Plugin.startTime entry_context] in Hm, Hst, Hat.
  split; [|split].
  - rewrite filter_cons.
    destruct (decide (isServerMetric (ESpanStart name (Otel.spanContext (entry_span e))
                                        (entry_parent e) attrs))) as [Hd|_]; [destruct Hd|].
    rewrite !filter_app, filter_logged by reflexivity.
    rewrite (count_zero_filter _ _ (handler_has_no_server_metrics h (entry_world e))).
    cbn [app]. exact Hm.
  - right. apply in_or_app. right. apply in_or_app. right.
    replace (if 400 <=? sentStatus (result (Fastify.runHandler h (entry_world e)))
             then Otel.ERROR else Otel.OK)
      with (if sentStatus (result (Fastify.runHandler h (entry_world e))) <? 400
            then Otel.OK else Otel.ERROR); [exact Hst|].
    destruct (Z.ltb_spec (sentStatus (result (Fastify.runHandler h (entry_world e)))) 400),
             (Z.leb_spec 400 (sentStatus (result (Fastify.runHandler h (entry_world e)))));
      (reflexivity || lia).
  - right. apply in_or_app. right. apply in_or_app. right. exact Hat.
Qed.

Lemma server_metrics_of_a_request_witness :
  Plugin.isExcluded pluginOptions reportRequest = false
  /\ aroundHandler pluginOptions okHandler reportRequest freshReply
       (worldInit 0 (Response 200)) (fun e rh =>
         let labels := [ ("method", Js.str "GET");
                         ("route", Js.str "/api/v1/reports/:reportId");
                         ("status_code", Js.str "200") ] in
         filter isServerMetric
           (events (Fastify.handleRequest pluginOptions okHandler reportRequest freshReply
                      (worldInit 0 (Response 200))))
         = [ ECounterAdd "http.server.requests.total" 1 labels;
             EHistogramRecord "http.server.request.duration"
               (clock (world rh) - clock (entry_world e)) labels ]).
Proof.
  split; [reflexivity|].
  destruct (server_metrics_of_a_request pluginOptions okHandler reportRequest freshReply
              (worldInit 0 (Response 200)) eq_refl)
    as (e & name & attrs & obj & Hent & Hev & status & Hok & _ & Hm & _).
  exists e, name, attrs, obj. split; [exact Hent|]. split; [exact Hev|].
  assert (Hs : status = 200).
  { apply Hok. unfold Fastify.runHandler, okHandler.
    cbn [Fastify.steps Fastify.runSteps Fastify.runStep Fastify.ending].
    unfold bind, catch, ret.
    destruct (HttpClient.request authClient validateToken (entry_world e)) as [[[r|err] w1] ev1];
      reflexivity. }
  rewrite Hs in Hm. exact Hm.
Defined.

(** X9: a request leaves no context behind.  The lifecycle of a request,
    excluded or not, and whether its handler replies or raises, ends
    normally, and afterwards the AsyncLocalStorage store, the active
    OpenTelemetry context and the logger are what they were before it: the
    context of one request is not visible to the code that runs after it. *)
Theorem request_leaves_no_context_behind
        (options : Plugin.PluginOptions) (h : Fastify.Handler)
        (method url : string) (route : option string) (headers : gmap string string)
        (reply : Plugin.FastifyReply) (w : World) :
  let r := Fastify.handleRequest options h (incoming method url route headers) reply w in
  result r = Js.Normal tt
  /\ alsStore (world r) = alsStore w
  /\ otelActive (world r) = otelActive w
  /\ baseLogger (world r) = baseLogger w
  /\ result ((exec Fastify.handleRequest options h (incoming method url route headers) reply;
              getRequestContext) w)
     = result (getRequestContext w).
Proof.
  intros r.
  assert (H : result r = Js.Normal tt /\ alsStore (world r) = alsStore w
              /\ otelActive (world r) = otelActive w /\ baseLogger (world r) = baseLogger w).
  { subst r.
    destruct (Plugin.isExcluded options (incoming method url route headers)) eqn:Hex.
    - rewrite (handleRequest_excluded _ _ _ _ _ Hex eq_refl). cbn [result world fst snd].
      destruct (wellBehaved_runHandler h w) as ((H1 & H2 & H3 & _) & _). auto.
    - destruct (around_handler options h _ reply w Hex)
        as (e & name & attrs & obj & Hent & Hev & _ & _ & _ & Hres & wE & -> & Ha & Hl & _).
      destruct (wellBehaved_runHandler h (entry_world e)) as ((H1 & H2 & H3 & _) & _).
      destruct Hent as (_ & _ & _ & _ & Ea & El & _).
      cbn [alsStore otelActive baseLogger set_alsStore].
      repeat split; congruence. }
  destruct H as (Hres & Hs & Ha & Hl). repeat split; try assumption.
  unfold bind. fold r. destruct r as [[[[]|err] w1] ev1]; cbn in *; [|discriminate].
  unfold getRequestContext, als_getStore. cbn. rewrite Hs. reflexivity.
Qed.

(** ** Client metrics *)

Lemma count_via_metrics (p : Event -> bool) l :
  (forall e, p e = true -> isMetric e = true) ->
  count p l = count p (filter isMetric l).
Proof.
  intros Hp. unfold count. induction l as [|e l IH]; [reflexivity|].
  rewrite !filter_cons.
  destruct (decide (isMetric e)) as [Hm|Hm].
  - rewrite filter_cons. destruct (decide (p e)); cbn [length]; rewrite IH; reflexivity.
  - destruct (decide (p e)) as [He|He]; [|exact IH].
    exfalso. apply Hm. apply Is_true_true. apply Hp. apply Is_true_true. exact He.
Qed.

(** The records of one pass, counted. *)
Lemma count_pass (p : Event -> bool) pre cfg post rest svc cfg1 now o :
  (forall e, p e = true -> isMetric e = true) ->
  filter isMetric pre = [] ->
  filter isMetric post = attemptMetrics svc cfg1 now o ->
  count p (pre ++ netEvent cfg :: post ++ rest)
  = (count p (attemptMetrics svc cfg1 now o) + count p rest)%nat.
Proof.
  intros Hp Hpre Hpost.
  change (netEvent cfg :: post ++ rest) with ([netEvent cfg] ++ post ++ rest).
  rewrite !count_app.
  rewrite (count_via_metrics p pre Hp), Hpre.
  rewrite (count_via_metrics p post Hp), Hpost.
  assert (Hn : count p [netEvent cfg] = 0%nat).
  { rewrite (count_via_metrics p _ Hp). reflexivity. }
  rewrite Hn. reflexivity.
Qed.

Lemma attemptMetrics_counts svc cfg now o :
  count (isCounter "http.client.requests.total") (attemptMetrics svc cfg now o) = 1%nat
  /\ count (isHistogram "http.client.request.duration") (attemptMetrics svc cfg now o) = 1%nat
  /\ count (isCounter "http.client.requests.errors") (attemptMetrics svc cfg now o)
     = match attemptError o with Some _ => 1%nat | None => 0%nat end.
Proof.
  unfold attemptMetrics, attemptError.
  destruct o as [status|]; [destruct (HttpClient.validateStatus status)|];
    repeat split; reflexivity.
Qed.

Lemma isCounter_metric name e : isCounter name e = true -> isMetric e = true.
Proof. destruct e; cbn; congruence. Qed.

Lemma isHistogram_metric name e : isHistogram name e = true -> isMetric e = true.
Proof. destruct e; cbn; congruence. Qed.

Lemma dispatch_metrics left client : forall cfg w,
  let r := HttpClient.dispatch left client cfg w in
  count (isCounter "http.client.requests.total") (events r) = attempts (events r)
  /\ count (isHistogram "http.client.request.duration") (events r) = attempts (events r)
  /\ count (isCounter "http.client.requests.errors") (events r)
     = (attempts (events r)
        - match result r with Js.Normal _ => 1 | Js.Throw _ => 0 end)%nat.
Proof.
  induction left as [|left IH]; intros cfg w r; subst r.
  all: match goal with |- context [HttpClient.dispatch ?l _ _ _] =>
         destruct (dispatch_metered l client cfg w)
           as (pre & post & Hpre & Hpost & Hpre0 & Hm & Hrun) end.
  all: match type of Hm with _ = attemptMetrics ?s ?c ?n ?o =>
         destruct (attemptMetrics_counts s c n o) as (C1 & C2 & C3) end.
  all: destruct (attemptError (target w (sent w))) as [e|];
       [|destruct Hrun as (status & _ & Hrun)].
  all: cbn [retryDecision pred] in Hrun;
       try destruct (HttpClient.retryCondition (HttpClient.retry_ client) e);
       try match type of Hrun with context [HttpClient.retryTimeout ?c ?n ?d] =>
             destruct (HttpClient.retryTimeout c n d) as [tmo|] end.
  all: rewrite Hrun; cbn [events result fst snd].
  all: try (rewrite <- (app_nil_r post);
            rewrite attempts_pass by assumption;
            rewrite !(count_pass _ _ _ _ _ _ _ _ _ (isCounter_metric _) Hpre0 Hm),
                    (count_pass _ _ _ _ _ _ _ _ _ (isHistogram_metric _) Hpre0 Hm);
            rewrite C1, C2, C3; repeat split; reflexivity).
  (* retried *)
  rewrite attempts_pass by assumption. rewrite attempts_sleep.
  rewrite !(count_pass _ _ _ _ _ _ _ _ _ (isCounter_metric _) Hpre0 Hm),
          (count_pass _ _ _ _ _ _ _ _ _ (isHistogram_metric _) Hpre0 Hm).
  rewrite C1, C2, C3.
  match goal with |- context [HttpClient.dispatch left client ?c ?w'] =>
    destruct (IH c w') as (I1 & I2 & I3);
    pose proof (dispatch_attempts_pos left client c w') as Hpos;
    set (r' := HttpClient.dispatch left client c w') in *
  end.
  repeat split.
  - change (count ?p (ESleep ?d :: ?l)) with (count p l). rewrite I1. reflexivity.
  - change (count ?p (ESleep ?d :: ?l)) with (count p l). rewrite I2. reflexivity.
  - change (count ?p (ESleep ?d :: ?l)) with (count p l). rewrite I3.
    destruct (result r'); lia.
Qed.

(** X10: the client's metrics count attempts, not calls.  Every network
    attempt of a call adds one http.client.requests.total and one
    http.client.request.duration record; http.client.requests.errors is
    incremented once for every failed attempt, also for the failures of a
    call that a retry finally rescued. *)
Theorem client_metrics_count_attempts
        (client : HttpClient.AxiosInstance) (c : HttpClient.AxiosRequestConfig) (w : World) :
  let r := HttpClient.request client c w in
  count (isCounter "http.client.requests.total") (events r) = attempts (events r)
  /\ count (isHistogram "http.client.request.duration") (events r) = attempts (events r)
  /\ count (isCounter "http.client.requests.errors") (events r)
     = (attempts (events r)
        - match result r with Js.Normal _ => 1 | Js.Throw _ => 0 end)%nat.
Proof. apply dispatch_metrics. Qed.

Lemma metrics_of_pass pre cfg post rest svc cfg1 now o e :
  filter isMetric pre = [] ->
  filter isMetric post = attemptMetrics svc cfg1 now o ->
  isMetric e = true ->
  In e (pre ++ netEvent cfg :: post ++ rest) ->
  In e (attemptMetrics svc cfg1 now o) \/ In e rest.
Proof.
  intros Hpre Hpost He Hin.
  assert (Hf : forall l, In e l -> In e (filter isMetric l)).
  { intros l Hl. apply list_elem_of_In, list_elem_of_filter.
    split; [apply Is_true_true; exact He|apply list_elem_of_In; exact Hl]. }
  apply in_app_or in Hin as [Hin|Hin].
  - apply Hf in Hin. rewrite Hpre in Hin. destruct Hin.
  - destruct Hin as [<-|Hin]; [discriminate|].
    apply in_app_or in Hin as [Hin|Hin]; [|right; exact Hin].
    left. rewrite <- Hpost. apply Hf. exact Hin.
Qed.

Lemma dispatch_durations left client : forall cfg w,
  0 < clock w -> 0 <= latency w ->
  0 <= Js.nullish (HttpClient.Retry.retryDelay (HttpClient.retry_ client)) 1000 ->
  Forall (fun e => forall name v labels,
            e = EHistogramRecord name v labels ->
            name = "http.client.request.duration" /\ v = latency w)
         (events (HttpClient.dispatch left client cfg w)).
Proof.
  induction left as [|left IH]; intros cfg w Hclock Hlat Hbase.
  all: apply Forall_forall; intros ev Hin name v labels ->; apply list_elem_of_In in Hin.
  all: match type of Hin with context [HttpClient.dispatch ?l _ _ _] =>
         destruct (dispatch_metered l client cfg w)
           as (pre & post & Hpre & Hpost & Hpre0 & Hm & Hrun) end.
  all: assert (Hone : forall e', In e' (attemptMetrics (HttpClient.targetService client)
                                          (attemptConfig w cfg) (clock (afterAttempt w))
                                          (target w (sent w))) ->
                        e' = EHistogramRecord name v labels ->
                        name = "http.client.request.duration" /\ v = latency w).
  1, 3: (intros e' He' ->; unfold attemptMetrics in He';
         assert (Hd : HttpClient.elapsedSince (attemptConfig w cfg) (clock (afterAttempt w))
                      = latency w)
           by (unfold HttpClient.elapsedSince; cbn;
               destruct (Z.eqb_spec (clock w) 0); lia);
         rewrite Hd in He';
         destruct (target w (sent w)) as [status|];
           [destruct (HttpClient.validateStatus status)|];
           cbn in He'; intuition congruence).
  all: destruct (attemptError (target w (sent w))) as [e|];
       [|destruct Hrun as (status & _ & Hrun)].
  all: cbn [retryDecision pred] in Hrun;
       try destruct (HttpClient.retryCondition (HttpClient.retry_ client) e);
       try match type of Hrun with context [HttpClient.retryTimeout ?c ?n ?d] =>
             destruct (HttpClient.retryTimeout c n d) as [tmo|] end.
  all: rewrite Hrun in Hin; cbn [events snd] in Hin.
  all: try (rewrite <- (app_nil_r post) in Hin;
            destruct (metrics_of_pass _ _ _ _ _ _ _ _ (EHistogramRecord name v labels)
                        Hpre0 Hm eq_refl Hin) as [H|[]];
            exact (Hone _ H eq_refl)).
  destruct (metrics_of_pass _ _ _ _ _ _ _ _ (EHistogramRecord name v labels)
              Hpre0 Hm eq_refl Hin) as [H|H];
    [exact (Hone _ H eq_refl)|].
  destruct H as [H|H]; [discriminate|].
  match type of H with In _ (events (HttpClient.dispatch left client ?c ?w')) =>
    assert (Hrec := IH c w') end.
  cbn [clock latency afterDelay afterAttempt set_clock set_sent] in Hrec.
  pose proof (timerDelay_pos (HttpClient.retryDelay (HttpClient.retry_ client)
                                (HttpClient.Config.retryCount cfg + 1))) as Hd.
  specialize (Hrec ltac:(lia) Hlat Hbase).
  rewrite Forall_forall in Hrec. apply list_elem_of_In in H. exact (Hrec _ H _ _ _ eq_refl).
Qed.

(** X11: the duration a client records is the duration of one attempt.
    On a process whose clock is past 0, with a non-negative base delay, every
    value recorded in a histogram during a call is the time the attempt it
    belongs to took: the backoff delays and the earlier attempts of the
    call are not part of it. *)
Theorem client_duration_is_per_attempt
        (client : HttpClient.AxiosInstance) (c : HttpClient.AxiosRequestConfig) (w : World) :
  0 < clock w -> 0 <= latency w ->
  0 <= Js.nullish (HttpClient.Retry.retryDelay (HttpClient.retry_ client)) 1000 ->
  Forall (fun e => forall name v labels,
            e = EHistogramRecord name v labels ->
            name = "http.client.request.duration" /\ v = latency w)
         (events (HttpClient.request client c w)).
Proof. apply dispatch_durations. Qed.

Lemma client_duration_is_per_attempt_witness :
  0 < clock (worldInit 1000 (Response 503))
  /\ 0 <= latency (worldInit 1000 (Response 503))
  /\ 0 <= Js.nullish (HttpClient.Retry.retryDelay (HttpClient.retry_ authClient)) 1000
  /\ count (isHistogram "http.client.request.duration")
       (events (HttpClient.request authClient validateToken (worldInit 1000 (Response 503))))
     = 4%nat
  /\ Forall (fun e => forall name v labels,
               e = EHistogramRecord name v labels ->
               name = "http.client.request.duration" /\ v = 5)
            (events (HttpClient.request authClient validateToken
                       (worldInit 1000 (Response 503)))).
Proof.
  split; [reflexivity|]. split; [discriminate|]. split; [discriminate|].
  split; [vm_compute; reflexivity|].
  apply (client_duration_is_per_attempt authClient validateToken
           (worldInit 1000 (Response 503))); [reflexivity|discriminate|discriminate].
Defined.

(** ** The retry loop: bounds, time and recovery *)



Lemma total_app l1 l2 : total (l1 ++ l2) = total l1 + total l2.
Proof.
  induction l1 as [|x l1 IH]; [reflexivity|].
  change (total ((x :: l1) ++ l2)) with (x + total (l1 ++ l2)).
  change (total (x :: l1)) with (x + total l1). lia.
Qed.

Lemma total_geometric b n :
  total (map (fun k => b * 2 ^ Z.of_nat k) (seq 0 n)) = b * (2 ^ Z.of_nat n - 1).
Proof.
  induction n as [|n IH]; [cbn; lia|].
  rewrite seq_S, map_app, total_app, IH. cbn [map total fold_right plus].
  rewrite Nat2Z.inj_succ, Z.pow_succ_r by lia. lia.
Qed.

(** X14: the total backoff before a call gives up.  Against a target that
    keeps failing with a retryable error, each attempt taking [latency] ms,
    a client with [n] retries, base delay [d] and timeout [t] gives up after
    [k] retries, where [k] is what the retries and the timeout pay for:
    [k <= n], the [k] attempts and delays cost less than [t] (or [t] is 0),
    and either [k = n] or one more retry would use the timeout up.  Until
    then it has waited [d * (2^k - 1)] ms in total: 7000 ms with the
    defaults, and 15000 ms, not 31000, with five retries. *)
Theorem total_backoff_when_exhausted
        (client : HttpClient.AxiosInstance) (c : HttpClient.AxiosRequestConfig) (w : World)
        (e : Js.error) (k : nat) :
  (forall i, attemptError (target w i) = Some e) ->
  HttpClient.retryCondition (HttpClient.retry_ client) e = true ->
  0 < clock w -> 0 <= latency w ->
  let n := Z.to_nat (HttpClient.retries (HttpClient.retry_ client)) in
  let baseDelay := Js.nullish (HttpClient.Retry.retryDelay (HttpClient.retry_ client)) 1000 in
  let timeout := HttpClient.defaults_timeout client in
  let cost (j : nat) := Z.of_nat j * latency w + baseDelay * (2 ^ Z.of_nat j - 1) in
  0 <= baseDelay -> 0 <= timeout ->
  (k <= n)%nat ->
  timeout = 0 \/ cost k < timeout ->
  k = n \/ (timeout <> 0 /\ timeout <= cost (S k)) ->
  attempts (events (HttpClient.request client c w)) = S k
  /\ total (delays (events (HttpClient.request client c w)))
     = baseDelay * (2 ^ Z.of_nat k - 1)
  /\ result (HttpClient.request client c w) = Js.Throw e.
Proof.
  intros Hall Hcond Hclock Hlat n baseDelay timeout cost Hbase Htimeout Hk Hpaid Hlast.
  unfold HttpClient.request. fold n.
  assert (Hiff : forall j : nat,
            (S j <= attempts (events (HttpClient.dispatch n client
                                        (HttpClient.mergeConfig client c) w)))%nat
            <-> (j <= n)%nat /\ (timeout = 0 \/ cost j < timeout)).
  { intros j.
    rewrite (dispatch_affords e client n _ w j Hall Hcond Hclock Hlat Hbase).
    - cbn [HttpClient.mergeConfig HttpClient.Config.timeout HttpClient.Config.retryCount].
      unfold backoffCost. fold baseDelay timeout. change (2 ^ 0) with 1.
      rewrite Z.mul_1_r. reflexivity.
    - cbn. lia.
    - exact Htimeout. }
  assert (Ha : attempts (events (HttpClient.dispatch n client
                                   (HttpClient.mergeConfig client c) w)) = S k).
  { apply Nat.le_antisymm.
    - apply Nat.nlt_ge. intros Hmore. apply (Hiff (S k)) in Hmore as [Hle Hpay].
      destruct Hlast as [->|[Hnz Hover]]; [lia|]. destruct Hpay; [contradiction|lia].
    - apply Hiff. split; assumption. }
  split; [exact Ha|]. split; [|apply dispatch_rejects; exact Hall].
  rewrite dispatch_delays, Ha. replace (S k - 1)%nat with k by lia.
  rewrite <- (total_geometric baseDelay k). f_equal. apply map_ext. intros j.
  unfold HttpClient.retryDelay. fold baseDelay.
  cbn [HttpClient.mergeConfig HttpClient.Config.retryCount].
  f_equal. f_equal. lia.
Qed.

Lemma total_backoff_when_exhausted_witness :
  (forall i, attemptError (target (worldInit 1000 (Response 503)) i)
             = Some (Js.AxiosError (Some 503)))
  /\ HttpClient.retryCondition (HttpClient.retry_ authClient) (Js.AxiosError (Some 503)) = true
  /\ total (delays (events (HttpClient.request authClient validateToken
                              (worldInit 1000 (Response 503))))) = 7000
  /\ total (delays (events (HttpClient.request patientClient validateToken
                              (worldInit 1000 (Response 503))))) = 15000.
Proof.
  split; [reflexivity|]. split; [reflexivity|]. split.
  - apply (total_backoff_when_exhausted authClient validateToken
             (worldInit 1000 (Response 503)) (Js.AxiosError (Some 503)) 3);
      try reflexivity; try discriminate.
    + right. reflexivity.
    + left. reflexivity.
  - apply (total_backoff_when_exhausted patientClient validateToken
             (worldInit 1000 (Response 503)) (Js.AxiosError (Some 503)) 4);
      try reflexivity; try discriminate.
    + vm_compute. lia.
    + right. reflexivity.
    + right. split; discriminate.
Defined.

(** One retry after the other, as long as the attempts fail retryably and
    the timeout budget pays for the retries. *)
Lemma dispatch_recovers client k : forall left cfg w status,
  (k <= left)%nat ->
  (forall i, (i < k)%nat ->
     exists e, attemptError (target w (sent w + i)%nat) = Some e
               /\ HttpClient.retryCondition (HttpClient.retry_ client) e = true) ->
  target w (sent w + k)%nat = Response status ->
  HttpClient.validateStatus status = true ->
  0 < clock w -> 0 <= latency w ->
  0 <= Js.nullish (HttpClient.Retry.retryDelay (HttpClient.retry_ client)) 1000 ->
  0 <= HttpClient.Config.retryCount cfg ->
  HttpClient.Config.timeout cfg = 0
  \/ backoffCost (latency w)
       (Js.nullish (HttpClient.Retry.retryDelay (HttpClient.retry_ client)) 1000)
       (HttpClient.Config.retryCount cfg) k
     < HttpClient.Config.timeout cfg ->
  (exists cfg', result (HttpClient.dispatch left client cfg w)
                = Js.Normal (HttpClient.mkResponse status cfg'))
  /\ attempts (events (HttpClient.dispatch left client cfg w)) = S k.
Proof.
  induction k as [|k IH];
    intros left cfg w status Hle Hfail Hok Hv Hclock Hlat Hbase Hrc Hpaid.
  all: destruct (dispatch_metered left client cfg w)
         as (pre & post & Hpre & Hpost & _ & _ & Hrun).
  - rewrite Nat.add_0_r in Hok. unfold attemptError in Hrun. rewrite Hok, Hv in Hrun.
    destruct Hrun as (status' & [= <-] & ->). cbn [result events fst snd].
    split; [eauto|]. rewrite <- (app_nil_r post). apply attempts_pass; assumption.
  - destruct (Hfail 0%nat ltac:(lia)) as (e & He & Hc).
    rewrite Nat.add_0_r in He. rewrite He in Hrun.
    destruct left as [|left]; [lia|].
    rewrite retryDecision_budget in Hrun by (assumption || lia).
    rewrite backoffCost_S in Hpaid by assumption.
    pose proof (backoffCost_nonneg (latency w)
                  (Js.nullish (HttpClient.Retry.retryDelay (HttpClient.retry_ client)) 1000)
                  (HttpClient.Config.retryCount cfg + 1) k Hlat Hbase) as Hcost.
    pose proof (timerDelay_pos (HttpClient.retryDelay (HttpClient.retry_ client)
                                  (HttpClient.Config.retryCount cfg + 1))) as Htimer.
    cbv zeta in Hrun. cbn [pred] in Hrun.
    assert (Hnext : forall timeout,
              (timeout = 0
               \/ backoffCost (latency w)
                    (Js.nullish (HttpClient.Retry.retryDelay (HttpClient.retry_ client)) 1000)
                    (HttpClient.Config.retryCount cfg + 1) k < timeout) ->
              (exists cfg',
                 result (HttpClient.dispatch left client
                           (HttpClient.Config.set_retryCount
                              (HttpClient.Config.set_timeout (attemptConfig w cfg) timeout)
                              (HttpClient.Config.retryCount cfg + 1))
                           (afterDelay (HttpClient.retryDelay (HttpClient.retry_ client)
                                          (HttpClient.Config.retryCount cfg + 1))
                              (afterAttempt w)))
                 = Js.Normal (HttpClient.mkResponse status cfg'))
              /\ attempts (events (HttpClient.dispatch left client
                           (HttpClient.Config.set_retryCount
                              (HttpClient.Config.set_timeout (attemptConfig w cfg) timeout)
                              (HttpClient.Config.retryCount cfg + 1))
                           (afterDelay (HttpClient.retryDelay (HttpClient.retry_ client)
                                          (HttpClient.Config.retryCount cfg + 1))
                              (afterAttempt w)))) = S k).
    { intros timeout Ht.
      apply IH.
      - lia.
      - intros i Hi. cbn [target sent afterDelay afterAttempt set_clock set_sent].
        destruct (Hfail (S i) ltac:(lia)) as (e' & He' & Hc').
        exists e'. split; [|exact Hc']. rewrite <- He'. f_equal. f_equal. lia.
      - cbn [target sent afterDelay afterAttempt set_clock set_sent].
        rewrite <- Hok. f_equal. lia.
      - exact Hv.
      - cbn [clock afterDelay afterAttempt set_clock set_sent]. lia.
      - exact Hlat.
      - exact Hbase.
      - cbn [HttpClient.Config.set_retryCount HttpClient.Config.retryCount]. lia.
      - cbn [HttpClient.Config.set_retryCount HttpClient.Config.set_timeout
             HttpClient.Config.retryCount HttpClient.Config.timeout
             latency afterDelay afterAttempt set_clock set_sent].
        exact Ht. }
    destruct (Z.eqb_spec (HttpClient.Config.timeout cfg) 0) as [Hz|Hnz].
    + rewrite Hrun. cbn [result events fst snd].
      rewrite attempts_pass by assumption. rewrite attempts_sleep.
      destruct (Hnext (HttpClient.Config.timeout cfg) (or_introl Hz)) as (Hres & Hatt).
      split; [exact Hres|]. rewrite Hatt. reflexivity.
    + destruct Hpaid as [?|Hpaid]; [contradiction|].
      destruct (Z.leb_spec (HttpClient.Config.timeout cfg - latency w
                            - HttpClient.retryDelay (HttpClient.retry_ client)
                                (HttpClient.Config.retryCount cfg + 1)) 0) as [?|Hpos];
        [lia|].
      rewrite Hrun. cbn [result events fst snd].
      rewrite attempts_pass by assumption. rewrite attempts_sleep.
      destruct (Hnext (HttpClient.Config.timeout cfg - latency w
                       - HttpClient.retryDelay (HttpClient.retry_ client)
                           (HttpClient.Config.retryCount cfg + 1))) as (Hres & Hatt);
        [right; lia|].
      split; [exact Hres|]. rewrite Hatt. reflexivity.
Qed.

(** X15: transient failures are rescued, while the timeout lasts.  When the
    next [k] attempts against the target fail with retryable errors and the
    one after them is answered with a success status, a client with at least
    [k] retries whose timeout pays for them ([k] attempts of [latency] ms
    and the first [k] delays cost less than the timeout, or no timeout is
    set) returns that answer to the caller: it makes exactly [k + 1]
    attempts and waits the first [k] delays of the backoff schedule. *)
Theorem transient_failures_are_rescued
        (client : HttpClient.AxiosInstance) (c : HttpClient.AxiosRequestConfig) (w : World)
        (k : nat) (status : Z) :
  (forall i, (i < k)%nat ->
     exists e, attemptError (target w (sent w + i)%nat) = Some e
               /\ HttpClient.retryCondition (HttpClient.retry_ client) e = true) ->
  target w (sent w + k)%nat = Response status ->
  HttpClient.validateStatus status = true ->
  Z.of_nat k <= HttpClient.retries (HttpClient.retry_ client) ->
  0 < clock w -> 0 <= latency w ->
  let r := HttpClient.request client c w in
  let baseDelay := Js.nullish (HttpClient.Retry.retryDelay (HttpClient.retry_ client)) 1000 in
  let timeout := HttpClient.defaults_timeout client in
  0 <= baseDelay ->
  timeout = 0 \/ Z.of_nat k * latency w + baseDelay * (2 ^ Z.of_nat k - 1) < timeout ->
  (exists cfg', result r = Js.Normal (HttpClient.mkResponse status cfg'))
  /\ attempts (events r) = S k
  /\ delays (events r) = map (fun i => baseDelay * 2 ^ Z.of_nat i) (seq 0 k).
Proof.
  intros Hfail Hok Hv Hk Hclock Hlat r baseDelay timeout Hbase Hpaid.
  subst r. unfold HttpClient.request.
  destruct (dispatch_recovers client k
              (Z.to_nat (HttpClient.retries (HttpClient.retry_ client)))
              (HttpClient.mergeConfig client c) w status ltac:(lia) Hfail Hok Hv
              Hclock Hlat Hbase)
    as (Hres & Hatt).
  - cbn. lia.
  - cbn [HttpClient.mergeConfig HttpClient.Config.timeout HttpClient.Config.retryCount].
    unfold backoffCost. fold baseDelay timeout. change (2 ^ 0) with 1.
    rewrite Z.mul_1_r. exact Hpaid.
  - split; [exact Hres|]. split; [exact Hatt|].
    rewrite dispatch_delays, Hatt. replace (S k - 1)%nat with k by lia.
    apply map_ext. intros i. unfold HttpClient.retryDelay. fold baseDelay.
    cbn [HttpClient.mergeConfig HttpClient.Config.retryCount]. f_equal. f_equal. lia.
Qed.

Lemma transient_failures_are_rescued_witness :
  (forall i, (i < 2)%nat ->
     exists e, attemptError (target flakyWorld (sent flakyWorld + i)%nat) = Some e
               /\ HttpClient.retryCondition (HttpClient.retry_ authClient) e = true)
  /\ target flakyWorld (sent flakyWorld + 2)%nat = Response 200
  /\ 0 < clock flakyWorld
  /\ attempts (events (HttpClient.request authClient validateToken flakyWorld)) = 3%nat
  /\ delays (events (HttpClient.request authClient validateToken flakyWorld)) = [1000; 2000].
Proof.
  assert (Hfail : forall i, (i < 2)%nat ->
     exists e, attemptError (target flakyWorld (sent flakyWorld + i)%nat) = Some e
               /\ HttpClient.retryCondition (HttpClient.retry_ authClient) e = true).
  { intros i Hi. exists (Js.AxiosError (Some 503)).
    destruct i as [|[|i]]; [split; reflexivity|split; reflexivity|lia]. }
  split; [exact Hfail|]. split; [reflexivity|]. split; [reflexivity|].
  destruct (transient_failures_are_rescued authClient validateToken flakyWorld 2 200
              Hfail eq_refl eq_refl ltac:(discriminate) eq_refl ltac:(discriminate)
              ltac:(discriminate) ltac:(right; reflexivity)) as (_ & Ha & Hd).
  split; [exact Ha|exact Hd].
Defined.

(** The same two failures are not rescued by a client whose timeout of
    1000 ms the first delay uses up: it gives up after the first attempt. *)
Example short_timeout_is_not_rescued :
  withClient (HttpClient.mkOptions "http://neoiq-auth-service:3000" "auth-service"
                (Some 1000) None None None) flakyWorld (fun client w1 =>
    let r := HttpClient.request client validateToken w1 in
    attempts (events r) = 1%nat /\ result r = Js.Throw (Js.AxiosError (Some 503))).
Proof. vm_compute. auto. Qed.

(** ** Headers *)

Lemma toUpperCase_diff name other :
  Js.toUpperCase name <> Js.toUpperCase other -> name <> other.
Proof. congruence. Qed.

Lemma annotateHeaders_other registered store active h0 name :
  name <> "traceparent" -> name <> "tracestate" -> name <> "x-request-id" ->
  annotateHeaders registered store active h0 !! name = h0 !! name.
Proof.
  intros H1 H2 H3. unfold annotateHeaders.
  repeat match goal with |- context [if ?b then _ else _] => destruct b end;
    rewrite ?lookup_insert_ne by congruence; reflexivity.
Qed.

(** X16: the interceptor writes three headers only.  Whatever the request
    context and the active span are, every attempt of a call carries, under
    every name other than traceparent, tracestate and x-request-id (in any
    letter case), exactly what axios merged from the call's own headers and
    the defaults of the instance. *)
Theorem interceptor_writes_three_headers_only
        (client : HttpClient.AxiosInstance) (c : HttpClient.AxiosRequestConfig) (w : World)
        (name : string) :
  Js.toUpperCase name <> "TRACEPARENT" ->
  Js.toUpperCase name <> "TRACESTATE" ->
  Js.toUpperCase name <> "X-REQUEST-ID" ->
  Forall (fun hd : gmap string string =>
            hd !! name
            = (HttpClient.req_headers c ∪ HttpClient.defaults_headers client) !! name)
         (sentHeaders (events (HttpClient.request client c w))).
Proof.
  intros H1 H2 H3.
  assert (N1 : name <> "traceparent") by (apply toUpperCase_diff; exact H1).
  assert (N2 : name <> "tracestate") by (apply toUpperCase_diff; exact H2).
  assert (N3 : name <> "x-request-id") by (apply toUpperCase_diff; exact H3).
  set (h0 := HttpClient.req_headers c ∪ HttpClient.defaults_headers client).
  unfold HttpClient.request.
  eapply Forall_impl;
    [apply (dispatch_sentHeaders (fun h => h !! name = h0 !! name)
              (initialized w) (alsStore w) (otelActive w))|].
  - intros h Hh. rewrite annotateHeaders_other by assumption. exact Hh.
  - reflexivity.
  - reflexivity.
  - reflexivity.
  - reflexivity.
  - cbn beta. intros h (h1 & Hh1 & ->). rewrite annotateHeaders_other by assumption. exact Hh1.
Qed.

Lemma interceptor_writes_three_headers_only_witness :
  Js.toUpperCase "Content-Type" <> "TRACEPARENT"
  /\ Js.toUpperCase "Content-Type" <> "TRACESTATE"
  /\ Js.toUpperCase "Content-Type" <> "X-REQUEST-ID"
  /\ Forall (fun hd : gmap string string => hd !! "Content-Type" = Some "application/json")
            (sentHeaders (events (HttpClient.request authClient validateToken
                                    (callerWorld (Response 503))))).
Proof.
  split; [discriminate|]. split; [discriminate|]. split; [discriminate|].
  apply (interceptor_writes_three_headers_only authClient validateToken
           (callerWorld (Response 503)) "Content-Type"); discriminate.
Defined.

(** ** From one service to the next *)

(** X17: the identity of a request survives a hop.  Let a service call a
    downstream service through a client while it handles a request of
    correlation id [rid] and a well-formed span context [sc] is active, both
    services having called [init].
    When the headers of any attempt of that call reach the plugin of the
    downstream service (on a route it does not exclude), the plugin settles
    on the same correlation id [rid], and the span it starts belongs to the
    trace of [sc] and has the caller's span as its parent. *)
Theorem identity_survives_a_hop
        (clientA : HttpClient.AxiosInstance) (c : HttpClient.AxiosRequestConfig) (wA : World)
        (rid : string) (sc : Otel.SpanContext)
        (optionsB : Plugin.PluginOptions) (method url : string) (route : option string)
        (replyB : Plugin.FastifyReply) (done : Plugin.Done) (wB : World) :
  initialized wA = true -> initialized wB = true ->
  HttpClient.correlationIdOf (alsStore wA) = Some rid -> rid <> "" ->
  otelActive wA = Some sc -> wellFormed sc ->
  Plugin.isExcluded optionsB (incoming method url route ∅) = false ->
  Forall (fun hd : gmap string string =>
            forall headersB : gmap string string,
              headersB !! "x-request-id" = hd !! "x-request-id" ->
              headersB !! "traceparent" = hd !! "traceparent" ->
              received optionsB method url route headersB replyB done wB
                (fun correlationId spanContext parent =>
                   correlationId = rid
                   /\ Otel.traceId spanContext = Otel.traceId sc
                   /\ exists p, parent = Some p
                                /\ Otel.traceId p = Otel.traceId sc
                                /\ Otel.spanId p = Otel.spanId sc
                                /\ Otel.traceFlags p = Otel.traceFlags sc))
         (sentHeaders (events (HttpClient.request clientA c wA))).
Proof.
  intros HinitA HinitB Hrid Hne Hact Hwf Hex.
  eapply Forall_impl; [apply (wellBehaved_request clientA c wA)|].
  cbn beta. intros hd (h0 & ->) headersB Hid Htp.
  rewrite (annotateHeaders_request_id _ _ _ _ _ Hrid Hne) in Hid.
  rewrite HinitA, Hact, annotateHeaders_traceparent in Htp
    by (apply wellFormed_valid; exact Hwf).
  destruct (onRequest_run optionsB (incoming method url route headersB) replyB done wB Hex)
    as (e & name & attrs & obj & Hent & Hrun).
  exists e, name, attrs, obj. split; [exact Hrun|].
  destruct Hent as (Hcid & Hpar & Htid & _).
  cbn [Plugin.headers incoming] in Hcid, Hpar.
  rewrite Hid in Hcid. destruct (truthy_some rid Hne) as (Ht & Ho).
  rewrite Ht, Ho in Hcid.
  unfold Otel.extract in Hpar.
  rewrite HinitB, Htp, (parse_format sc Hwf) in Hpar.
  unfold validParent in Hpar.
  rewrite (parsed_valid _ _ _ _ _ (parse_format sc Hwf)) in Hpar.
  split; [exact Hcid|]. split; [rewrite (Htid _ Hpar); reflexivity|].
  eexists. split; [exact Hpar|]. repeat split.
Qed.

Lemma identity_survives_a_hop_witness :
  initialized (callerWorld (Response 200)) = true
  /\ initialized (worldInit 0 NoResponse) = true
  /\ HttpClient.correlationIdOf (alsStore (callerWorld (Response 200))) = Some "req-1"
  /\ otelActive (callerWorld (Response 200)) = Some serverSpanContext
  /\ wellFormed serverSpanContext
  /\ Plugin.isExcluded pluginOptions (incoming "GET" "/api/v1/validate-token" None ∅) = false
  /\ Forall (fun hd : gmap string string =>
               received pluginOptions "GET" "/api/v1/validate-token" None hd freshReply
                 Fastify.finish (worldInit 0 NoResponse)
                 (fun correlationId spanContext parent =>
                    correlationId = "req-1"
                    /\ Otel.traceId spanContext = "4bf92f3577b34da6a3ce929d0e0e4736"))
            (sentHeaders (events (HttpClient.request authClient validateToken
                                    (callerWorld (Response 200))))).
Proof.
  assert (Hwf : wellFormed serverSpanContext) by (repeat split; reflexivity).
  split; [reflexivity|]. split; [reflexivity|].
  split; [reflexivity|]. split; [reflexivity|]. split; [exact Hwf|]. split; [reflexivity|].
  eapply Forall_impl;
    [apply (identity_survives_a_hop authClient validateToken (callerWorld (Response 200))
              "req-1" serverSpanContext pluginOptions "GET" "/api/v1/validate-token" None
              freshReply Fastify.finish (worldInit 0 NoResponse)
              eq_refl eq_refl eq_refl ltac:(discriminate) eq_refl Hwf eq_refl)|].
  cbn beta. intros hd H.
  destruct (H hd eq_refl eq_refl) as (e & name & attrs & obj & Hrun & Hc & Ht & _).
  exists e, name, attrs, obj. split; [exact Hrun|]. split; [exact Hc|exact Ht].
Defined.

(** ** The span of a request, event by event *)

Lemma exit_span_events options request reply rh ctx span :
  Plugin.__requestContext request = Some ctx ->
  Plugin.__span request = Some span ->
  let status := sentStatus (result rh) in
  let durationMs := clock (world rh) - Plugin.startTime ctx in
  filter isSpanEvent (exitEvents options request reply rh)
  = match result rh with
    | Js.Normal _ => []
    | Js.Throw err =>
        [ ESpanSetStatus (span_id span) Otel.ERROR (Some (Js.message err));
          ESpanRecordException (span_id span) (Js.message err) ]
    end
    ++ [ ESpanSetStatus (span_id span)
           (if status <? 400 then Otel.OK else Otel.ERROR) None;
         ESpanSetAttribute (span_id span) "http.status_code" (Js.num status);
         ESpanSetAttribute (span_id span) "http.response_time_ms" (Js.num durationMs);
         ESpanEnd (span_id span) ].
Proof.
  intros Hctx Hspan. unfold exitEvents.
  destruct (result rh) as [statusCode|err]; cbn [sentStatus].
  - destruct (onResponse_run options request (Fastify.with_status reply statusCode)
                Fastify.finish ctx (world rh) Hctx) as (obj & _ & _ & ->).
    cbn [events snd]. rewrite Hspan.
    cbn [Fastify.with_status Plugin.statusCode Fastify.finish ret events snd].
    rewrite filter_app, filter_logged by reflexivity.
    destruct (400 <=? statusCode); reflexivity.
  - match goal with |- context [Plugin.onError options request reply ?m ?s ?d (world rh)] =>
      destruct (onError_run options request reply m s d ctx (world rh) Hctx) as (obj & ->) end.
    cbn [events snd].
    destruct (onResponse_run options request
                (Fastify.with_status reply (Fastify.errorStatus err))
                Fastify.finish ctx
                (set_alsStore (Some (Plugin.storeOf ctx)) (world rh)) Hctx)
      as (obj2 & _ & _ & ->).
    cbn [events snd]. rewrite Hspan.
    cbn [Fastify.with_status Plugin.statusCode Fastify.finish ret events snd
         clock set_alsStore].
    rewrite errorStatus_is_error, errorStatus_not_ok. cbn iota.
    rewrite !filter_app, !filter_logged by reflexivity. reflexivity.
Qed.

(** The span events and the server metrics of a lifecycle, read off its
    events. *)
Lemma lifecycle_spans_and_metrics options h request reply w e name attrs obj :
  events (Fastify.handleRequest options h request reply w)
  = ESpanStart name (Otel.spanContext (entry_span e)) (entry_parent e) attrs
    :: logged w Level.info obj "Request received"
    ++ events (Fastify.runHandler h (entry_world e))
    ++ exitEvents options
         (Plugin.set_span_and_context request (entry_span e) (entry_context e (clock w)))
         (Plugin.reply_header reply "x-request-id" (entry_correlationId e))
         (Fastify.runHandler h (entry_world e)) ->
  let rh := Fastify.runHandler h (entry_world e) in
  let sid := span_id (entry_span e) in
  let status := sentStatus (result rh) in
  let labels :=
    [ ("method", Js.str (Plugin.method request));
      ("route", Js.str (Plugin.routeOf request));
      ("status_code", Js.str (Js.String_ status)) ] in
  filter isSpanEvent (events (Fastify.handleRequest options h request reply w))
  = ESpanStart name (Otel.spanContext (entry_span e)) (entry_parent e) attrs
    :: match result rh with
       | Js.Normal _ => []
       | Js.Throw err =>
           [ ESpanSetStatus sid Otel.ERROR (Some (Js.message err));
             ESpanRecordException sid (Js.message err) ]
       end
    ++ [ ESpanSetStatus sid (if status <? 400 then Otel.OK else Otel.ERROR) None;
         ESpanSetAttribute sid "http.status_code" (Js.num status);
         ESpanSetAttribute sid "http.response_time_ms"
           (Js.num (clock (world rh) - clock w));
         ESpanEnd sid ]
  /\ filter isServerMetric (events (Fastify.handleRequest options h request reply w))
     = [ ECounterAdd "http.server.requests.total" 1 labels;
         EHistogramRecord "http.server.request.duration" (clock (world rh) - clock w) labels ]
       ++ (if 400 <=? status
           then [ECounterAdd "http.server.requests.errors" 1 labels] else []).
Proof.
  intros Hev. cbv zeta. rewrite Hev.
  match type of Hev with _ = _ :: _ ++ _ ++ exitEvents ?o ?rq ?rp ?rh =>
    pose proof (exit_span_events o rq rp rh (entry_context e (clock w)) (entry_span e)
                  eq_refl eq_refl) as Hs;
    destruct (exit_metrics o rq rp rh (entry_context e (clock w)) (entry_span e)
                eq_refl eq_refl) as (Hm & _)
  end.
  cbn [Plugin.method Plugin.set_span_and_context Plugin.startTime entry_context] in Hs, Hm.
  split.
  - rewrite filter_cons.
    destruct (decide (isSpanEvent (ESpanStart name (Otel.spanContext (entry_span e))
                                     (entry_parent e) attrs))) as [_|Hd];
      [|exfalso; apply Hd; exact I].
    f_equal. rewrite !filter_app, filter_logged by reflexivity.
    rewrite (count_zero_filter _ _ (proj1 (handler_has_no_spans h (entry_world e)))).
    cbn [app]. exact Hs.
  - rewrite filter_cons.
    destruct (decide (isServerMetric (ESpanStart name (Otel.spanContext (entry_span e))
                                        (entry_parent e) attrs))) as [Hd|_]; [destruct Hd|].
    rewrite !filter_app, filter_logged by reflexivity.
    rewrite (count_zero_filter _ _ (handler_has_no_server_metrics h (entry_world e))).
    cbn [app]. exact Hm.
Qed.

(** X18: the span of a request, event by event.  For a request that is
    not excluded the plugin sends the trace backend, in this order: the
    start of the span; when the handler raised, status ERROR with the error
    message and the recorded exception; then, in both cases, the status of
    the reply (OK below 400, ERROR from 400, without a message), the
    attributes http.status_code and http.response_time_ms, and the end of
    the span.  An error reply has a status of 400 or above, so on the error
    path the status is set to ERROR twice, the second time without the
    message. *)
Theorem span_events_of_a_request
        (options : Plugin.PluginOptions) (h : Fastify.Handler)
        (request : Plugin.FastifyRequest) (reply : Plugin.FastifyReply) (w : World) :
  Plugin.isExcluded options request = false ->
  aroundHandler options h request reply w (fun e rh =>
    let evs := events (Fastify.handleRequest options h request reply w) in
    let sid := span_id (entry_span e) in
    let durationMs := clock (world rh) - clock (entry_world e) in
    exists name attrs status,
      (forall statusCode, result rh = Js.Normal statusCode -> status = statusCode)
      /\ (forall err, result rh = Js.Throw err -> 400 <= status)
      /\ filter isSpanEvent evs
         = ESpanStart name (Otel.spanContext (entry_span e)) (entry_parent e) attrs
           :: match result rh with
              | Js.Normal _ => []
              | Js.Throw err =>
                  [ ESpanSetStatus sid Otel.ERROR (Some (Js.message err));
                    ESpanRecordException sid (Js.message err) ]
              end
           ++ [ ESpanSetStatus sid (if 400 <=? status then Otel.ERROR else Otel.OK) None;
                ESpanSetAttribute sid "http.status_code" (Js.num status);
                ESpanSetAttribute sid "http.response_time_ms" (Js.num durationMs);
                ESpanEnd sid ]).
Proof.
  intros Hex.
  destruct (around_handler options h request reply w Hex)
    as (e & name & attrs & obj & Hent & Hev & Hclock & _).
  destruct (lifecycle_spans_and_metrics options h request reply w e name attrs obj Hev)
    as (Hs & _).
  exists e, name, attrs, obj. split; [exact Hent|]. split; [exact Hev|].
  cbv zeta. exists name, attrs, (sentStatus (result (Fastify.runHandler h (entry_world e)))).
  split; [intros statusCode ->; reflexivity|].
  split; [intros err ->; cbn [sentStatus]; apply Z.leb_le, errorStatus_is_error|].
  rewrite Hs, Hclock. do 3 f_equal.
  destruct (Z.ltb_spec (sentStatus (result (Fastify.runHandler h (entry_world e)))) 400),
           (Z.leb_spec 400 (sentStatus (result (Fastify.runHandler h (entry_world e)))));
    (reflexivity || lia).
Qed.

Lemma span_events_of_a_request_witness :
  Plugin.isExcluded pluginOptions reportRequest = false
  /\ aroundHandler pluginOptions failingHandler reportRequest freshReply
       (worldInit 0 (Response 200)) (fun e rh =>
         let sid := span_id (entry_span e) in
         exists name attrs status,
           filter isSpanEvent raisedRun
           = [ ESpanStart name (Otel.spanContext (entry_span e)) (entry_parent e) attrs;
               ESpanSetStatus sid Otel.ERROR (Some "boom");
               ESpanRecordException sid "boom";
               ESpanSetStatus sid Otel.ERROR None;
               ESpanSetAttribute sid "http.status_code" (Js.num status);
               ESpanSetAttribute sid "http.response_time_ms"
                 (Js.num (clock (world rh) - clock (entry_world e)));
               ESpanEnd sid ]).
Proof.
  split; [reflexivity|].
  destruct (span_events_of_a_request pluginOptions failingHandler reportRequest freshReply
              (worldInit 0 (Response 200)) eq_refl)
    as (e & name & attrs & obj & Hent & Hev & name' & attrs' & status & _ & Herr & Hs).
  exists e, name, attrs, obj. split; [exact Hent|]. split; [exact Hev|].
  exists name', attrs', status.
  assert (H400 : 400 <= status) by (apply (Herr (Js.HandlerError "boom")); reflexivity).
  apply Z.leb_le in H400. rewrite H400 in Hs. exact Hs.
Defined.

(** ** A downstream failure seen from the service *)

Lemma filter_through (p q : Event -> bool) (l : list Event) :
  (forall e, p e = true -> q e = true) ->
  filter p l = filter p (filter q l).
Proof.
  intros Hpq. induction l as [|x l IH]; [reflexivity|].
  rewrite !filter_cons.
  destruct (decide (q x)) as [Hq|Hq].
  - rewrite filter_cons. destruct (decide (p x)); rewrite IH; reflexivity.
  - destruct (decide (p x)) as [Hp|Hp]; [|exact IH].
    exfalso. apply Hq. apply Is_true_true. apply Hpq. apply Is_true_true. exact Hp.
Qed.

Lemma exceptions_are_span_events (l : list Event) :
  filter isRecordException l = filter isRecordException (filter isSpanEvent l).
Proof. apply filter_through. intros []; cbn; congruence. Qed.

Lemma errors_filter_server_metrics (l : list Event) :
  filter (isCounter "http.server.requests.errors") l
  = filter (isCounter "http.server.requests.errors") (filter isServerMetric l).
Proof.
  apply filter_through.
  intros []; cbn; try congruence. intros H. apply String.eqb_eq in H. subst. reflexivity.
Qed.

Lemma errors_are_server_metrics (l : list Event) :
  count (isCounter "http.server.requests.errors") l
  = count (isCounter "http.server.requests.errors") (filter isServerMetric l).
Proof.
  unfold count. f_equal. apply filter_through.
  intros []; cbn; try congruence. intros H. apply String.eqb_eq in H. subst. reflexivity.
Qed.

(** X19: what a failing downstream call does to the request.  Let the
    target keep failing with a retryable error.  A handler that awaits a
    call to it without try/catch raises that error when the client gives
    up: the exception is recorded on the span of the request, and the
    request is counted in http.server.requests.errors under the status of
    the error reply, which is the status of the downstream response when
    that is 400 or above (a 503 is passed on as 503) and 500 otherwise.  A
    handler that wraps the same call in try/catch goes on and replies with
    its own status, and no exception is recorded.  In both cases the call
    makes at least one attempt and at most one more than the configured
    retries. *)
Theorem uncaught_downstream_failure_fails_the_request
        (options : Plugin.PluginOptions) (client : HttpClient.AxiosInstance)
        (c : HttpClient.AxiosRequestConfig) (status : Z)
        (request : Plugin.FastifyRequest) (reply : Plugin.FastifyReply) (w : World)
        (err : Js.error) :
  Plugin.isExcluded options request = false ->
  (forall i, attemptError (target w i) = Some err) ->
  HttpClient.retryCondition (HttpClient.retry_ client) err = true ->
  let n := Z.to_nat (HttpClient.retries (HttpClient.retry_ client)) in
  let replied :=
    match HttpClient.responseStatus err with
    | Some downstream => if 400 <=? downstream then downstream else 500
    | None => 500
    end in
  let labels :=
    [ ("method", Js.str (Plugin.method request));
      ("route", Js.str (Plugin.routeOf request));
      ("status_code", Js.str (Js.String_ replied)) ] in
  aroundHandler options (awaiting client c status) request reply w (fun e rh =>
    let evs := events (Fastify.handleRequest options (awaiting client c status)
                         request reply w) in
    result rh = Js.Throw err
    /\ (1 <= attempts (events rh) <= S n)%nat
    /\ filter isRecordException evs
       = [ESpanRecordException (span_id (entry_span e)) (Js.message err)]
    /\ filter (isCounter "http.server.requests.errors") evs
       = [ECounterAdd "http.server.requests.errors" 1 labels])
  /\ aroundHandler options (guarding client c status) request reply w (fun e rh =>
       let evs := events (Fastify.handleRequest options (guarding client c status)
                            request reply w) in
       result rh = Js.Normal status
       /\ (1 <= attempts (events rh) <= S n)%nat
       /\ filter isRecordException evs = []
       /\ count (isCounter "http.server.requests.errors") evs
          = if 400 <=? status then 1%nat else 0%nat).
Proof.
  intros Hex Hall Hcond n replied labels.
  assert (Hreq : forall wH, target wH = target w ->
            (1 <= attempts (events (HttpClient.request client c wH)) <= S n)%nat
            /\ result (HttpClient.request client c wH) = Js.Throw err).
  { intros wH Ht. unfold HttpClient.request. split.
    - split; [apply dispatch_attempts_pos|apply dispatch_attempts_le].
    - apply dispatch_rejects. intros i. rewrite Ht. apply Hall. }
  assert (Hreplied : Fastify.errorStatus err = replied).
  { subst replied. unfold attemptError in Hall. specialize (Hall 0%nat).
    destruct (target w 0) as [s|]; [destruct (HttpClient.validateStatus s)|];
      try discriminate; injection Hall as <-; reflexivity. }
  split.
  - destruct (around_handler options (awaiting client c status) request reply w Hex)
      as (e & name & attrs & obj & Hent & Hev & _ & _ & Ht & _).
    destruct (lifecycle_spans_and_metrics options (awaiting client c status) request reply w
                e name attrs obj Hev) as (Hsp & Hmt).
    exists e, name, attrs, obj. split; [exact Hent|]. split; [exact Hev|].
    destruct (Hreq (entry_world e) Ht) as (Ha & Hr).
    assert (Hrh : result (Fastify.runHandler (awaiting client c status) (entry_world e))
                  = Js.Throw err
                  /\ attempts (events (Fastify.runHandler (awaiting client c status)
                                         (entry_world e)))
                     = attempts (events (HttpClient.request client c (entry_world e)))).
    { unfold Fastify.runHandler, awaiting.
      cbn [Fastify.steps Fastify.runSteps Fastify.runStep].
      unfold bind. destruct (HttpClient.request client c (entry_world e)) as [[r w1] ev1].
      cbn [result events fst snd] in *. subst r. auto. }
    destruct Hrh as (Hres & Hatt). cbv zeta.
    split; [exact Hres|]. split; [rewrite Hatt; exact Ha|].
    rewrite exceptions_are_span_events, Hsp, (errors_filter_server_metrics _), Hmt, Hres.
    cbn [sentStatus]. rewrite Hreplied.
    assert (H400 : (400 <=? replied) = true)
      by (rewrite <- Hreplied; apply errorStatus_is_error).
    rewrite H400. split; reflexivity.
  - destruct (around_handler options (guarding client c status) request reply w Hex)
      as (e & name & attrs & obj & Hent & Hev & _ & _ & Ht & _).
    destruct (lifecycle_spans_and_metrics options (guarding client c status) request reply w
                e name attrs obj Hev) as (Hsp & Hmt).
    exists e, name, attrs, obj. split; [exact Hent|]. split; [exact Hev|].
    destruct (Hreq (entry_world e) Ht) as (Ha & Hr).
    assert (Hrh : result (Fastify.runHandler (guarding client c status) (entry_world e))
                  = Js.Normal status
                  /\ attempts (events (Fastify.runHandler (guarding client c status)
                                         (entry_world e)))
                     = attempts (events (HttpClient.request client c (entry_world e)))).
    { unfold Fastify.runHandler, guarding.
      cbn [Fastify.steps Fastify.runSteps Fastify.runStep Fastify.ending].
      unfold bind, catch, ret.
      destruct (HttpClient.request client c (entry_world e)) as [[r w1] ev1].
      cbn [result events fst snd] in *. subst r. cbn [result events fst snd].
      rewrite !app_nil_r. auto. }
    destruct Hrh as (Hres & Hatt). cbv zeta.
    split; [exact Hres|]. split; [rewrite Hatt; exact Ha|].
    rewrite exceptions_are_span_events, Hsp, errors_are_server_metrics, Hmt, Hres.
    cbn [sentStatus].
    split; [destruct (status <? 400); reflexivity|].
    destruct (400 <=? status); reflexivity.
Qed.

Lemma uncaught_downstream_failure_fails_the_request_witness :
  Plugin.isExcluded pluginOptions reportRequest = false
  /\ (forall i, attemptError (target (worldInit 1000 (Response 503)) i)
                = Some (Js.AxiosError (Some 503)))
  /\ HttpClient.retryCondition (HttpClient.retry_ authClient) (Js.AxiosError (Some 503)) = true
  /\ aroundHandler pluginOptions (awaiting authClient validateToken 200) reportRequest
       freshReply (worldInit 1000 (Response 503)) (fun e rh =>
         result rh = Js.Throw (Js.AxiosError (Some 503))
         /\ filter (isCounter "http.server.requests.errors")
              (events (Fastify.handleRequest pluginOptions
                         (awaiting authClient validateToken 200) reportRequest freshReply
                         (worldInit 1000 (Response 503))))
            = [ECounterAdd "http.server.requests.errors" 1
                 [ ("method", Js.str "GET");
                   ("route", Js.str "/api/v1/reports/:reportId");
                   ("status_code", Js.str "503") ]]).
Proof.
  split; [reflexivity|]. split; [reflexivity|]. split; [reflexivity|].
  destruct (proj1 (uncaught_downstream_failure_fails_the_request pluginOptions authClient
                     validateToken 200 reportRequest freshReply
                     (worldInit 1000 (Response 503))
                     (Js.AxiosError (Some 503)) eq_refl (fun _ => eq_refl) eq_refl))
    as (e & name & attrs & obj & Hent & Hev & Hres & _ & _ & Herrors).
  exists e, name, attrs, obj. split; [exact Hent|]. split; [exact Hev|].
  split; [exact Hres|exact Herrors].
Defined.
